(** * Lantern configuration engine (flashlight/config)

    A shallow embedding of the configuration package of flashlight: the
    [Config] data model and its defaults (config.go), the conditional cloud
    fetch with its ETag cache and the poll cycle (cloud.go), the merge of the
    local and the cloud snapshot ([mergedConfig]) and the publication loop
    ([Run]).

    Conventions of the embedding
    - Go's [int], [int64] and [time.Duration] are [Z]; the one place where
      the code does 64-bit arithmetic ([cloudPollSleepTime]) has the
      wrap-around written out.
    - A [*client.ClientConfig] is a location in a heap of [ClientConfig]
      objects: [mergedConfig] and [cloudPoll] write through such pointers, so
      sharing between the local, the cloud and the merged configuration is
      part of the model.  The other pointer fields ([Stats], [ProxiedSites],
      [AutoReport], ...) are never written through once a configuration has
      been stored; they are options, [None] for [nil].
    - Slices are lists ([nil] and the empty slice are both []), Go maps are
      [gmap]s; a missing key of a [map[string]string] reads as "".
    - The package state (the ETag cache, the two atomic slots, the change
      channel, the log, the values handed to the update handler) is one
      record, [World], threaded through a state monad whose second outcome is
      a run-time panic (nil dereference). *)

From Stdlib Require Import ZArith.
From stdpp Require Import gmap strings list.

Local Open Scope Z_scope.

(** ** External values *)

(** [[]byte]. *)
Definition bytes := list Byte.byte.

(** A pointer to a [client.ClientConfig]. *)
Definition loc := positive.

(** ** Data model *)

(** client.FrontedServerInfo, with the fields of the literal in
    [cloudConfig.ApplyDefaults]. *)
Record FrontedServerInfo := {
  Host : string;
  Port : Z;
  PoolSize : Z;
  MasqueradeSet : string;
  MaxMasquerades : Z;
  QOS : Z;
  Weight : Z
}.

(** proxiedsites.Delta and proxiedsites.Config. *)
Record proxiedsites_Delta := {
  Additions : list string;
  Deletions : list string
}.

Record proxiedsites_Config := {
  Delta : option proxiedsites_Delta;
  Cloud : list string
}.

(** CA represents a certificate authority. *)
Record CA := {
  CommonName : string;
  Cert : string
}.

(** statreporter.Config: the fields this package names. *)
Record statreporter_Config := {
  ReportingPeriod : Z;
  StatshubAddr : string
}.

(** The errors of the package: one constructor per [fmt.Errorf] site, the
    arguments being what the format string is filled with, and one for the
    error of [ioutil.ReadAll], which [fetchCloudConfig] returns as it is. *)
Inductive error :=
| ErrConstructRequest (url cause : string)
| ErrFetch (url cause : string)
| ErrStatus (code : Z)
| ErrGzipReader (cause : string)
| ErrReadAll (cause : string)
| ErrUnmarshal (cause : string)
| ErrTrustedCAs (cause : string).

Inductive LogEntry :=
| Debugf (format : string) (args : list string)
| Debug (msg : string)
| Errorf (format : string) (err : error).

(** http.Request and http.Response, as far as [fetchCloudConfig] uses them.
    Header names are kept in the canonical form of net/http; both header
    constants of the package are canonical already. *)
Record Request := {
  req_Method : string;
  req_URL : string;
  req_Header : gmap string string;
  req_Close : bool
}.

Record Response := {
  StatusCode : Z;
  resp_Header : gmap string string;
  Body : bytes
}.

(** What a gzip stream decodes to: [gzip.NewReader] rejects the header, or
    [ioutil.ReadAll] stops with an error after some bytes, or all is read. *)
Inductive GzipResult :=
| GzBadHeader (cause : string)
| GzReadError (read : bytes) (cause : string)
| GzOk (data : bytes).

(** The configuration of the running process. *)
Record Config {ServerConfig : Type} := {
  Version : Z;
  CloudConfig : string;
  CloudConfigCA : string;
  Addr : string;
  Role : string;
  InstanceId : string;
  CpuProfile : string;
  MemProfile : string;
  UIAddr : string;
  AutoReport : option bool;
  AutoLaunch : option bool;
  Stats : option statreporter_Config;
  Server : option ServerConfig;
  Client : option loc;
  ProxiedSites : option proxiedsites_Config;
  TrustedCAs : list CA
}.
Arguments Config : clear implicits.

(** cloudConfig is the in memory representation of cloud.yaml. *)
Record cloudConfig := {
  cloud_Client : option loc;
  cloud_ProxiedSites : option proxiedsites_Config;
  cloud_TrustedCAs : list CA
}.

(** client.ClientConfig, with the fields this repository names; the server
    descriptions of packages client and fronted are parameters. *)
Record ClientConfig {ChainedServerInfo Masquerade : Type} := {
  DumpHeaders : bool;
  ProxyAll : bool;
  MinQOS : Z;
  FrontedServers : list FrontedServerInfo;
  ChainedServers : gmap string ChainedServerInfo;
  MasqueradeSets : gmap string (list Masquerade)
}.
Arguments ClientConfig : clear implicits.

(** A cloud document as a value, the [Client] object in line: what the YAML
    decoder reads and writes. *)
Record cloudDoc {ChainedServerInfo Masquerade : Type} := {
  doc_Client : option (ClientConfig ChainedServerInfo Masquerade);
  doc_ProxiedSites : option proxiedsites_Config;
  doc_TrustedCAs : list CA
}.
Arguments cloudDoc : clear implicits.

(** The functions of other packages that the configuration package calls. *)
Record Deps {ChainedServerInfo Masquerade : Type} := {
  (** hex.EncodeToString(uuid.NodeID()) *)
  nodeID : string;
  (** the value of the -statshub flag *)
  statshubAddr : string;
  (** globals.SetTrustedCAs: the error, if any *)
  SetTrustedCAs : list string -> option string;
  (** the error of http.NewRequest("GET", url, nil), if any *)
  newRequestError : string -> option string;
  (** gzip.NewReader followed by ioutil.ReadAll *)
  gunzip : bytes -> GzipResult;
  (** yaml.Unmarshal into a cloudConfig: what the target holds afterwards,
      and the error, if any *)
  yaml_Unmarshal : bytes -> cloudDoc ChainedServerInfo Masquerade ->
                   cloudDoc ChainedServerInfo Masquerade * option string;
  (** the order ClientConfig.SortFrontedServers puts the servers in *)
  sortFrontedServers : list FrontedServerInfo -> list FrontedServerInfo
}.
Arguments Deps : clear implicits.

(** The state of the package and of what it talks to. *)
Record World {ChainedServerInfo Masquerade ServerConfig : Type} := {
  heap : gmap loc (ClientConfig ChainedServerInfo Masquerade);
  lastCloudConfigETag : gmap string string;
  localCfg : Config ServerConfig;
  cloudCfg : cloudConfig;
  (** the values sent on the channel cloudConfigChanged *)
  cloudConfigChanged : list bool;
  (** globals.InstanceId *)
  globals_InstanceId : string;
  (** the requests handed to the HTTP client *)
  sent : list Request;
  (** the arguments the update handler was called with *)
  handled : list (Config ServerConfig);
  logged : list LogEntry
}.
Arguments World : clear implicits.

(** ** The monad of the package: state and panic *)

Inductive Result (W A : Type) :=
| Ok (a : A) (w : W)
| Panic.
Arguments Ok {W A} a w.
Arguments Panic {W A}.

Definition M (W A : Type) := W -> Result W A.

#[export] Instance M_ret {W} : MRet (M W) :=
  fun A (a : A) w => Ok a w.

#[export] Instance M_bind {W} : MBind (M W) :=
  fun A B (k : A -> M W B) (m : M W A) w =>
    match m w with
    | Ok a w' => k a w'
    | Panic => Panic
    end.

Definition get {W} : M W W := fun w => Ok w w.

(** ** Field updates *)

Section Setters.
Context {ChainedServerInfo Masquerade ServerConfig : Type}.
Local Abbreviation Cfg := (Config ServerConfig).
Local Abbreviation CC := (ClientConfig ChainedServerInfo Masquerade).
Local Abbreviation W := (World ChainedServerInfo Masquerade ServerConfig).

Definition set_CloudConfig (v : string) (c : Cfg) : Cfg :=
  {| Version := Version c; CloudConfig := v;
     CloudConfigCA := CloudConfigCA c; Addr := Addr c; Role := Role c;
     InstanceId := InstanceId c; CpuProfile := CpuProfile c;
     MemProfile := MemProfile c; UIAddr := UIAddr c;
     AutoReport := AutoReport c; AutoLaunch := AutoLaunch c;
     Stats := Stats c; Server := Server c; Client := Client c;
     ProxiedSites := ProxiedSites c; TrustedCAs := TrustedCAs c |}.

Definition set_Addr (v : string) (c : Cfg) : Cfg :=
  {| Version := Version c; CloudConfig := CloudConfig c;
     CloudConfigCA := CloudConfigCA c; Addr := v; Role := Role c;
     InstanceId := InstanceId c; CpuProfile := CpuProfile c;
     MemProfile := MemProfile c; UIAddr := UIAddr c;
     AutoReport := AutoReport c; AutoLaunch := AutoLaunch c;
     Stats := Stats c; Server := Server c; Client := Client c;
     ProxiedSites := ProxiedSites c; TrustedCAs := TrustedCAs c |}.

Definition set_Role (v : string) (c : Cfg) : Cfg :=
  {| Version := Version c; CloudConfig := CloudConfig c;
     CloudConfigCA := CloudConfigCA c; Addr := Addr c; Role := v;
     InstanceId := InstanceId c; CpuProfile := CpuProfile c;
     MemProfile := MemProfile c; UIAddr := UIAddr c;
     AutoReport := AutoReport c; AutoLaunch := AutoLaunch c;
     Stats := Stats c; Server := Server c; Client := Client c;
     ProxiedSites := ProxiedSites c; TrustedCAs := TrustedCAs c |}.

Definition set_InstanceId (v : string) (c : Cfg) : Cfg :=
  {| Version := Version c; CloudConfig := CloudConfig c;
     CloudConfigCA := CloudConfigCA c; Addr := Addr c; Role := Role c;
     InstanceId := v; CpuProfile := CpuProfile c;
     MemProfile := MemProfile c; UIAddr := UIAddr c;
     AutoReport := AutoReport c; AutoLaunch := AutoLaunch c;
     Stats := Stats c; Server := Server c; Client := Client c;
     ProxiedSites := ProxiedSites c; TrustedCAs := TrustedCAs c |}.

Definition set_UIAddr (v : string) (c : Cfg) : Cfg :=
  {| Version := Version c; CloudConfig := CloudConfig c;
     CloudConfigCA := CloudConfigCA c; Addr := Addr c; Role := Role c;
     InstanceId := InstanceId c; CpuProfile := CpuProfile c;
     MemProfile := MemProfile c; UIAddr := v;
     AutoReport := AutoReport c; AutoLaunch := AutoLaunch c;
     Stats := Stats c; Server := Server c; Client := Client c;
     ProxiedSites := ProxiedSites c; TrustedCAs := TrustedCAs c |}.

Definition set_AutoReport (v : option bool) (c : Cfg) : Cfg :=
  {| Version := Version c; CloudConfig := CloudConfig c;
     CloudConfigCA := CloudConfigCA c; Addr := Addr c; Role := Role c;
     InstanceId := InstanceId c; CpuProfile := CpuProfile c;
     MemProfile := MemProfile c; UIAddr := UIAddr c;
     AutoReport := v; AutoLaunch := AutoLaunch c;
     Stats := Stats c; Server := Server c; Client := Client c;
     ProxiedSites := ProxiedSites c; TrustedCAs := TrustedCAs c |}.

Definition set_AutoLaunch (v : option bool) (c : Cfg) : Cfg :=
  {| Version := Version c; CloudConfig := CloudConfig c;
     CloudConfigCA := CloudConfigCA c; Addr := Addr c; Role := Role c;
     InstanceId := InstanceId c; CpuProfile := CpuProfile c;
     MemProfile := MemProfile c; UIAddr := UIAddr c;
     AutoReport := AutoReport c; AutoLaunch := v;
     Stats := Stats c; Server := Server c; Client := Client c;
     ProxiedSites := ProxiedSites c; TrustedCAs := TrustedCAs c |}.

Definition set_Stats (v : option statreporter_Config) (c : Cfg) : Cfg :=
  {| Version := Version c; CloudConfig := CloudConfig c;
     CloudConfigCA := CloudConfigCA c; Addr := Addr c; Role := Role c;
     InstanceId := InstanceId c; CpuProfile := CpuProfile c;
     MemProfile := MemProfile c; UIAddr := UIAddr c;
     AutoReport := AutoReport c; AutoLaunch := AutoLaunch c;
     Stats := v; Server := Server c; Client := Client c;
     ProxiedSites := ProxiedSites c; TrustedCAs := TrustedCAs c |}.

Definition set_Client (v : option loc) (c : Cfg) : Cfg :=
  {| Version := Version c; CloudConfig := CloudConfig c;
     CloudConfigCA := CloudConfigCA c; Addr := Addr c; Role := Role c;
     InstanceId := InstanceId c; CpuProfile := CpuProfile c;
     MemProfile := MemProfile c; UIAddr := UIAddr c;
     AutoReport := AutoReport c; AutoLaunch := AutoLaunch c;
     Stats := Stats c; Server := Server c; Client := v;
     ProxiedSites := ProxiedSites c; TrustedCAs := TrustedCAs c |}.

Definition set_ProxiedSites (v : option proxiedsites_Config) (c : Cfg)
  : Cfg :=
  {| Version := Version c; CloudConfig := CloudConfig c;
     CloudConfigCA := CloudConfigCA c; Addr := Addr c; Role := Role c;
     InstanceId := InstanceId c; CpuProfile := CpuProfile c;
     MemProfile := MemProfile c; UIAddr := UIAddr c;
     AutoReport := AutoReport c; AutoLaunch := AutoLaunch c;
     Stats := Stats c; Server := Server c; Client := Client c;
     ProxiedSites := v; TrustedCAs := TrustedCAs c |}.

Definition set_TrustedCAs (v : list CA) (c : Cfg) : Cfg :=
  {| Version := Version c; CloudConfig := CloudConfig c;
     CloudConfigCA := CloudConfigCA c; Addr := Addr c; Role := Role c;
     InstanceId := InstanceId c; CpuProfile := CpuProfile c;
     MemProfile := MemProfile c; UIAddr := UIAddr c;
     AutoReport := AutoReport c; AutoLaunch := AutoLaunch c;
     Stats := Stats c; Server := Server c; Client := Client c;
     ProxiedSites := ProxiedSites c; TrustedCAs := v |}.

Definition set_FrontedServers (v : list FrontedServerInfo) (c : CC) : CC :=
  {| DumpHeaders := DumpHeaders c; ProxyAll := ProxyAll c;
     MinQOS := MinQOS c; FrontedServers := v;
     ChainedServers := ChainedServers c;
     MasqueradeSets := MasqueradeSets c |}.

Definition set_ChainedServers (v : gmap string ChainedServerInfo) (c : CC)
  : CC :=
  {| DumpHeaders := DumpHeaders c; ProxyAll := ProxyAll c;
     MinQOS := MinQOS c; FrontedServers := FrontedServers c;
     ChainedServers := v; MasqueradeSets := MasqueradeSets c |}.

Definition set_MasqueradeSets (v : gmap string (list Masquerade)) (c : CC)
  : CC :=
  {| DumpHeaders := DumpHeaders c; ProxyAll := ProxyAll c;
     MinQOS := MinQOS c; FrontedServers := FrontedServers c;
     ChainedServers := ChainedServers c; MasqueradeSets := v |}.

Definition set_heap (v : gmap loc CC) (w : W) : W :=
  {| heap := v; lastCloudConfigETag := lastCloudConfigETag w;
     localCfg := localCfg w; cloudCfg := cloudCfg w;
     cloudConfigChanged := cloudConfigChanged w;
     globals_InstanceId := globals_InstanceId w; sent := sent w;
     handled := handled w; logged := logged w |}.

Definition set_lastCloudConfigETag (v : gmap string string) (w : W) : W :=
  {| heap := heap w; lastCloudConfigETag := v;
     localCfg := localCfg w; cloudCfg := cloudCfg w;
     cloudConfigChanged := cloudConfigChanged w;
     globals_InstanceId := globals_InstanceId w; sent := sent w;
     handled := handled w; logged := logged w |}.

Definition set_localCfg (v : Cfg) (w : W) : W :=
  {| heap := heap w; lastCloudConfigETag := lastCloudConfigETag w;
     localCfg := v; cloudCfg := cloudCfg w;
     cloudConfigChanged := cloudConfigChanged w;
     globals_InstanceId := globals_InstanceId w; sent := sent w;
     handled := handled w; logged := logged w |}.

Definition set_cloudCfg (v : cloudConfig) (w : W) : W :=
  {| heap := heap w; lastCloudConfigETag := lastCloudConfigETag w;
     localCfg := localCfg w; cloudCfg := v;
     cloudConfigChanged := cloudConfigChanged w;
     globals_InstanceId := globals_InstanceId w; sent := sent w;
     handled := handled w; logged := logged w |}.

Definition set_cloudConfigChanged (v : list bool) (w : W) : W :=
  {| heap := heap w; lastCloudConfigETag := lastCloudConfigETag w;
     localCfg := localCfg w; cloudCfg := cloudCfg w;
     cloudConfigChanged := v;
     globals_InstanceId := globals_InstanceId w; sent := sent w;
     handled := handled w; logged := logged w |}.

Definition set_globals_InstanceId (v : string) (w : W) : W :=
  {| heap := heap w; lastCloudConfigETag := lastCloudConfigETag w;
     localCfg := localCfg w; cloudCfg := cloudCfg w;
     cloudConfigChanged := cloudConfigChanged w;
     globals_InstanceId := v; sent := sent w;
     handled := handled w; logged := logged w |}.

Definition set_sent (v : list Request) (w : W) : W :=
  {| heap := heap w; lastCloudConfigETag := lastCloudConfigETag w;
     localCfg := localCfg w; cloudCfg := cloudCfg w;
     cloudConfigChanged := cloudConfigChanged w;
     globals_InstanceId := globals_InstanceId w; sent := v;
     handled := handled w; logged := logged w |}.

Definition set_handled (v : list Cfg) (w : W) : W :=
  {| heap := heap w; lastCloudConfigETag := lastCloudConfigETag w;
     localCfg := localCfg w; cloudCfg := cloudCfg w;
     cloudConfigChanged := cloudConfigChanged w;
     globals_InstanceId := globals_InstanceId w; sent := sent w;
     handled := v; logged := logged w |}.

Definition set_logged (v : list LogEntry) (w : W) : W :=
  {| heap := heap w; lastCloudConfigETag := lastCloudConfigETag w;
     localCfg := localCfg w; cloudCfg := cloudCfg w;
     cloudConfigChanged := cloudConfigChanged w;
     globals_InstanceId := globals_InstanceId w; sent := sent w;
     handled := handled w; logged := v |}.
End Setters.


(** ** Constants (cloud.go) *)

Definition Second : Z := 1000000000.
Definition Minute : Z := 60 * Second.

Definition CloudConfigPollInterval : Z := 1 * Minute.
Definition etag : string := "X-Lantern-Etag".
Definition ifNoneMatch : string := "X-Lantern-If-None-Match".

(** [Duration.Nanoseconds]: the duration as an int64 count. *)
Definition Nanoseconds (d : Z) : Z := d.

(** Two's complement int64, the result type of Go's int64 addition. *)
Definition wrap64 (z : Z) : Z := (z + 2 ^ 63) mod 2 ^ 64 - 2 ^ 63.

(** What math/rand documents of [rand.Int63n n]: a value of [0, n). *)
Definition Int63n_draw (n r : Z) : Prop := 0 <= r < n.

(** [cloudPollSleepTime], [r] being the value [rand.Int63n] returns for the
    argument [CloudConfigPollInterval.Nanoseconds()]. *)
Definition cloudPollSleepTime (r : Z) : Z :=
  wrap64 (Nanoseconds CloudConfigPollInterval ÷ 2 + r).

(** ** The package *)

Section Package.
Context {ChainedServerInfo Masquerade ServerConfig : Type}.
Context (deps : Deps ChainedServerInfo Masquerade).
Local Abbreviation Cfg := (Config ServerConfig).
Local Abbreviation CC := (ClientConfig ChainedServerInfo Masquerade).
Local Abbreviation W := (World ChainedServerInfo Masquerade ServerConfig).
Local Abbreviation Doc := (cloudDoc ChainedServerInfo Masquerade).

Definition modify (f : W -> W) : M W unit := fun w => Ok tt (f w).

Definition log (e : LogEntry) : M W unit :=
  modify (fun w => set_logged (logged w ++ [e]) w).

(** *** Pointers to ClientConfig objects *)

(** [&client.ClientConfig{...}]: a new object. *)
Definition alloc (c : CC) : M W loc :=
  fun w => let l := fresh (dom (heap w)) in
           Ok l (set_heap (<[l := c]> (heap w)) w).

(** Reading through a pointer; a nil pointer panics. *)
Definition load (p : option loc) : M W CC :=
  fun w => match p with
           | Some l => match heap w !! l with
                       | Some c => Ok c w
                       | None => Panic
                       end
           | None => Panic
           end.

(** Writing through a pointer; a nil pointer panics. *)
Definition store (p : option loc) (c : CC) : M W unit :=
  fun w => match p with
           | Some l => match heap w !! l with
                       | Some _ => Ok tt (set_heap (<[l := c]> (heap w)) w)
                       | None => Panic
                       end
           | None => Panic
           end.

(** *** config.go *)

(** [deepcopy.Copy(&merged, src)] for a zero [merged], by the contract of
    package deepcopy (a library outside this repository): the copy has the
    fields of [src] and an object of its own wherever [src] points to one.
    [mergedConfig] drops the error [Copy] returns. *)
Definition deepcopy_Copy (src : Cfg) : M W Cfg :=
  match Client src with
  | None => mret src
  | Some l =>
      c ← load (Some l);
      l' ← alloc c;
      mret (set_Client (Some l') src)
  end.

Definition mergedConfig : M W Cfg :=
  w ← get;
  merged ← deepcopy_Copy (localCfg w);
  let cloud := cloudCfg w in
  (* merged.Client.FrontedServers = cloud.Client.FrontedServers *)
  m ← load (Client merged); c ← load (cloud_Client cloud);
  store (Client merged) (set_FrontedServers (FrontedServers c) m);;
  (* merged.Client.ChainedServers = cloud.Client.ChainedServers *)
  m ← load (Client merged); c ← load (cloud_Client cloud);
  store (Client merged) (set_ChainedServers (ChainedServers c) m);;
  (* merged.Client.MasqueradeSets = cloud.Client.MasqueradeSets *)
  m ← load (Client merged); c ← load (cloud_Client cloud);
  store (Client merged) (set_MasqueradeSets (MasqueradeSets c) m);;
  let merged := set_ProxiedSites (cloud_ProxiedSites cloud) merged in
  let merged := set_TrustedCAs (cloud_TrustedCAs cloud) merged in
  mret merged.

(** TrustedCACerts returns a slice of PEM-encoded certs for the trusted CAs *)
Definition TrustedCACerts (cfg : Cfg) : list string :=
  map Cert (TrustedCAs cfg).

Definition updateGlobals (cfg : Cfg) : M W (option error) :=
  modify (set_globals_InstanceId (InstanceId cfg));;
  match SetTrustedCAs deps (TrustedCACerts cfg) with
  | Some err => mret (Some (ErrTrustedCAs err))
  | None => mret None
  end.

Definition applyClientDefaults (cfg : Cfg) : Cfg :=
  let cfg := match AutoReport cfg with
             | None => set_AutoReport (Some true) cfg
             | Some _ => cfg
             end in
  match AutoLaunch cfg with
  | None => set_AutoLaunch (Some false) cfg
  | Some _ => cfg
  end.

(** The statements of ApplyDefaults, one definition each. *)

(* if cfg.Role == "" { cfg.Role = "client" } *)
Definition default_Role (cfg : Cfg) : Cfg :=
  if decide (Role cfg = "") then set_Role "client" cfg else cfg.

(* if cfg.Addr == "" { cfg.Addr = "localhost:8787" } *)
Definition default_Addr (cfg : Cfg) : Cfg :=
  if decide (Addr cfg = "") then set_Addr "localhost:8787" cfg else cfg.

(* if cfg.UIAddr == "" { cfg.UIAddr = "localhost:16823" } *)
Definition default_UIAddr (cfg : Cfg) : Cfg :=
  if decide (UIAddr cfg = "") then set_UIAddr "localhost:16823" cfg else cfg.

(* if cfg.CloudConfig == "" { cfg.CloudConfig = "https://..." } *)
Definition default_CloudConfig (cfg : Cfg) : Cfg :=
  if decide (CloudConfig cfg = "")
  then set_CloudConfig "https://config.getiantem.org/cloud.yaml.gz" cfg
  else cfg.

(* if cfg.InstanceId == "" { cfg.InstanceId = hex.EncodeToString(...) } *)
Definition default_InstanceId (cfg : Cfg) : Cfg :=
  if decide (InstanceId cfg = "") then set_InstanceId (nodeID deps) cfg
  else cfg.

(* Make sure we always have a stats config:
   if cfg.Stats == nil { cfg.Stats = &statreporter.Config{} } *)
Definition default_Stats (cfg : Cfg) : Cfg :=
  match Stats cfg with
  | None => set_Stats (Some {| ReportingPeriod := 0; StatshubAddr := "" |})
              cfg
  | Some _ => cfg
  end.

(* if cfg.Stats.StatshubAddr == "" { cfg.Stats.StatshubAddr = *statshubAddr }
   (cfg.Stats is not nil here) *)
Definition default_StatshubAddr (cfg : Cfg) : Cfg :=
  match Stats cfg with
  | Some s =>
      if decide (StatshubAddr s = "")
      then set_Stats (Some {| ReportingPeriod := ReportingPeriod s;
                              StatshubAddr := statshubAddr deps |}) cfg
      else cfg
  | None => cfg
  end.

(** ApplyDefaults populates default values on a Config. *)
Definition ApplyDefaults (cfg : Cfg) : Cfg :=
  let cfg := default_Role cfg in
  let cfg := default_Addr cfg in
  let cfg := default_UIAddr cfg in
  let cfg := default_CloudConfig cfg in
  let cfg := default_InstanceId cfg in
  let cfg := default_Stats cfg in
  let cfg := default_StatshubAddr cfg in
  if decide (Client cfg <> None /\ Role cfg = "client")
  then applyClientDefaults cfg
  else cfg.

Definition IsDownstream (cfg : Cfg) : bool :=
  String.eqb (Role cfg) "client".


(** *** cloud.go *)

(** [http.NewRequest("GET", url, nil)]. *)
Definition NewRequest (url : string) : string + Request :=
  match newRequestError deps url with
  | Some err => inl err
  | None => inr {| req_Method := "GET"; req_URL := url;
                   req_Header := ∅; req_Close := false |}
  end.

Definition Header_Set (key value : string) (req : Request) : Request :=
  {| req_Method := req_Method req; req_URL := req_URL req;
     req_Header := <[key := value]> (req_Header req);
     req_Close := req_Close req |}.

Definition set_Close (v : bool) (req : Request) : Request :=
  {| req_Method := req_Method req; req_URL := req_URL req;
     req_Header := req_Header req; req_Close := v |}.

(** [resp.Header.Get(key)]: "" when the header is absent. *)
Definition Header_Get (resp : Response) (key : string) : string :=
  default "" (resp_Header resp !! key).

(** [lastCloudConfigETag[url]]. *)
Definition lastETag (w : W) (url : string) : string :=
  default "" (lastCloudConfigETag w !! url).

(** [fetchCloudConfig]; [Do] is what the HTTP client answers to the request
    of this call: a transport error or a response.  The result is Go's pair
    of a byte slice ([None] for nil) and an error ([None] for nil). *)
Definition fetchCloudConfig (url : string) (Do : Request -> string + Response)
  : M W (option bytes * option error) :=
  log (Debugf "Checking for cloud configuration at: %s" [url]);;
  match NewRequest url with
  | inl err => mret (None, Some (ErrConstructRequest url err))
  | inr req =>
      w ← get;
      let req := if decide (lastETag w url <> "")
                 then (* Don't bother fetching if unchanged *)
                   Header_Set ifNoneMatch (lastETag w url) req
                 else req in
      let req := set_Close true req in
      modify (fun w => set_sent (sent w ++ [req]) w);;
      match Do req with
      | inl err => mret (None, Some (ErrFetch url err))
      | inr resp =>
          if decide (StatusCode resp = 304) then
            log (Debugf "Config unchanged in cloud" []);;
            mret (None, None)
          else if decide (StatusCode resp <> 200) then
            mret (None, Some (ErrStatus (StatusCode resp)))
          else
            modify (fun w => set_lastCloudConfigETag
                               (<[url := Header_Get resp etag]>
                                  (lastCloudConfigETag w)) w);;
            match gunzip deps (Body resp) with
            | GzBadHeader err => mret (None, Some (ErrGzipReader err))
            | GzReadError read err => mret (Some read, Some (ErrReadAll err))
            | GzOk data => mret (Some data, None)
            end
      end
  end.

(** The literals of [emptyCloudConfig]. *)
Definition emptyClientConfig : CC :=
  {| DumpHeaders := false; ProxyAll := false; MinQOS := 0;
     FrontedServers := []; ChainedServers := ∅; MasqueradeSets := ∅ |}.

Definition emptyProxiedSites : proxiedsites_Config :=
  {| Delta := Some {| Additions := []; Deletions := [] |}; Cloud := [] |}.

Definition emptyCloudConfig : M W cloudConfig :=
  l ← alloc emptyClientConfig;
  mret {| cloud_Client := Some l;
          cloud_ProxiedSites := Some emptyProxiedSites;
          cloud_TrustedCAs := [] |}.

(** The cloudConfig as the document the decoder sees. *)
Definition to_doc (c : cloudConfig) : M W Doc :=
  match cloud_Client c with
  | None => mret {| doc_Client := None;
                    doc_ProxiedSites := cloud_ProxiedSites c;
                    doc_TrustedCAs := cloud_TrustedCAs c |}
  | Some l =>
      cc ← load (Some l);
      mret {| doc_Client := Some cc;
              doc_ProxiedSites := cloud_ProxiedSites c;
              doc_TrustedCAs := cloud_TrustedCAs c |}
  end.

(** What the decoder leaves in the cloudConfig: it fills the [Client] object
    in place when there is one and makes one when there is none. *)
Definition of_doc (c : cloudConfig) (d : Doc) : M W cloudConfig :=
  p ← match doc_Client d, cloud_Client c with
      | None, _ => mret None
      | Some cc, Some l => store (Some l) cc;; mret (Some l)
      | Some cc, None => l ← alloc cc; mret (Some l)
      end;
  mret {| cloud_Client := p;
          cloud_ProxiedSites := doc_ProxiedSites d;
          cloud_TrustedCAs := doc_TrustedCAs d |}.

(** fromBytes creates a new cloudConfig from given yaml: the receiver as it
    is left, and the error. *)
Definition fromBytes (updated : cloudConfig) (updateBytes : bytes)
  : M W (cloudConfig * option error) :=
  d ← to_doc updated;
  let '(d', err) := yaml_Unmarshal deps updateBytes d in
  updated ← of_doc updated d';
  match err with
  | Some e => mret (updated, Some (ErrUnmarshal e))
  | None => mret (updated, None)
  end.

(** [c.SortFrontedServers()], which reads through its receiver. *)
Definition SortFrontedServers (p : option loc) : M W unit :=
  c ← load p;
  store p (set_FrontedServers (sortFrontedServers deps (FrontedServers c)) c).

Definition cloudPoll (Do : Request -> string + Response) : M W unit :=
  w ← get;
  let cfg := localCfg w in
  '(b, err) ← fetchCloudConfig (CloudConfig cfg) Do;
  match err with
  | Some e => log (Errorf "Error fetch cloud config: %s" e)
  | None =>
      match b with
      | None => mret tt
      | Some b =>
          newCfg ← emptyCloudConfig;
          '(newCfg, err) ← fromBytes newCfg b;
          match err with
          | Some e => log (Errorf "Error parse cloud config: %s" e)
          | None =>
              SortFrontedServers (cloud_Client newCfg);;
              log (Debug "Applying cloud config");;
              modify (set_cloudCfg newCfg);;
              (* cloudConfigChanged <- true *)
              modify (fun w => set_cloudConfigChanged
                                 (cloudConfigChanged w ++ [true]) w)
          end
      end
  end.

(** *** The publication loop (config.go) *)

(** What the [select] of [Run] can receive: the next local configuration
    from the yamlconf manager, with the [Client] object the manager decoded
    for it, if any, or a value from [cloudConfigChanged]. *)
Inductive Signal :=
| Next (next : Cfg) (client : option CC)
| CloudChanged.

Definition select (s : Signal) : M W unit :=
  match s with
  | Next next client =>
      p ← match client with
          | Some c => l ← alloc c; mret (Some l)
          | None => mret None
          end;
      modify (set_localCfg (set_Client p next))
  | CloudChanged => mret tt
  end.

Definition updateHandler (cfg : Cfg) : M W unit :=
  modify (fun w => set_handled (handled w ++ [cfg]) w).

(** One turn of the loop of [Run]: [Some err] when it leaves the loop by
    [return err], [None] when it goes round. *)
Definition Run_turn (s : Signal) : M W (option error) :=
  (* wait for either local or cloud config changes
     and merge them to form a complete config. *)
  select s;;
  cfg ← mergedConfig;
  err ← updateGlobals cfg;
  match err with
  | Some e => mret (Some e)
  | None => updateHandler cfg;; mret None
  end.

(** [Run] on the signals that arrive: [Some err] when it has returned,
    [None] when it is waiting in [select] after the last one. *)
Fixpoint Run (signals : list Signal) : M W (option error) :=
  match signals with
  | [] => mret None
  | s :: signals =>
      r ← Run_turn s;
      match r with
      | Some e => mret (Some e)
      | None => Run signals
      end
  end.

End Package.

(** ** The notions the properties are stated with *)

Section Views.
Context {ChainedServerInfo Masquerade ServerConfig : Type}.
Context (deps : Deps ChainedServerInfo Masquerade).
Local Abbreviation Cfg := (Config ServerConfig).
Local Abbreviation CC := (ClientConfig ChainedServerInfo Masquerade).
Local Abbreviation W := (World ChainedServerInfo Masquerade ServerConfig).
Local Abbreviation Doc := (cloudDoc ChainedServerInfo Masquerade).

(** The object a pointer leads to, if any. *)
Definition deref (h : gmap loc CC) (p : option loc) : option CC :=
  p ≫= (h !!.).

(** Go's pointers lead to objects: a pointer is nil or allocated. *)
Definition allocated (h : gmap loc CC) (p : option loc) : Prop :=
  match p with
  | Some l => is_Some (h !! l)
  | None => True
  end.

Definition no_dangling (w : W) : Prop :=
  allocated (heap w) (Client (localCfg w)) /\
  allocated (heap w) (cloud_Client (cloudCfg w)).

(** A configuration with its [Client] pointer followed: the fields of the
    struct, and the object behind the pointer. *)
Definition view (h : gmap loc CC) (c : Cfg) : Cfg * option CC :=
  (set_Client None c, deref h (Client c)).

Definition cloud_view (h : gmap loc CC) (c : cloudConfig) : Doc :=
  {| doc_Client := deref h (cloud_Client c);
     doc_ProxiedSites := cloud_ProxiedSites c;
     doc_TrustedCAs := cloud_TrustedCAs c |}.

(** The two snapshots [mergedConfig] reads. *)
Definition local_input (w : W) : Cfg * option CC :=
  view (heap w) (localCfg w).

Definition cloud_input (w : W) : Doc :=
  cloud_view (heap w) (cloudCfg w).

(** What [mergedConfig] returns, pointer followed; [None] when it panics. *)
Definition merged_view (w : W) : option (Cfg * option CC) :=
  match mergedConfig w with
  | Ok merged w' => Some (view (heap w') merged)
  | Panic => None
  end.

(** The request a poll of [url] makes when the ETag cache is [etags]. *)
Definition request_of (etags : gmap string string) (url : string) : Request :=
  {| req_Method := "GET"; req_URL := url;
     req_Header := if decide (default "" (etags !! url) <> "")
                   then {[ ifNoneMatch := default "" (etags !! url) ]}
                   else ∅;
     req_Close := true |}.

(** What the decoder is given by [cloudPoll]: the empty cloudConfig. *)
Definition emptyDoc : Doc :=
  {| doc_Client := Some emptyClientConfig;
     doc_ProxiedSites := Some emptyProxiedSites;
     doc_TrustedCAs := [] |}.

(** The [Client] object of the merged configuration: the object of the
    local one with the three collections of the cloud one. *)
Definition merged_client (lc cc : CC) : CC :=
  set_MasqueradeSets (MasqueradeSets cc)
    (set_ChainedServers (ChainedServers cc)
       (set_FrontedServers (FrontedServers cc) lc)).

(** The merge as a function of the two snapshots, pointers followed: the
    [Merge(local, cloud)] of the design, undefined where a Client section is
    missing. *)
Definition Merge (local : Cfg * option CC) (cloud : Doc)
  : option (Cfg * option CC) :=
  match local.2, doc_Client cloud with
  | Some lc, Some cc =>
      Some (set_TrustedCAs (doc_TrustedCAs cloud)
              (set_ProxiedSites (doc_ProxiedSites cloud) local.1),
            Some (merged_client lc cc))
  | _, _ => None
  end.

(** The precedence table: where each field of the merged configuration
    [merged], with Client object [mc], comes from. *)
Definition sourced_by_table (local : Cfg) (lc : CC)
    (cloud : cloudConfig) (cc : CC) (merged : Cfg) (mc : CC) : Prop :=
  (* from the local Config *)
  Version merged = Version local /\
  CloudConfig merged = CloudConfig local /\
  CloudConfigCA merged = CloudConfigCA local /\
  Addr merged = Addr local /\
  Role merged = Role local /\
  InstanceId merged = InstanceId local /\
  CpuProfile merged = CpuProfile local /\
  MemProfile merged = MemProfile local /\
  UIAddr merged = UIAddr local /\
  AutoReport merged = AutoReport local /\
  AutoLaunch merged = AutoLaunch local /\
  Stats merged = Stats local /\
  Server merged = Server local /\
  DumpHeaders mc = DumpHeaders lc /\
  ProxyAll mc = ProxyAll lc /\
  MinQOS mc = MinQOS lc /\
  (* from the cloud snapshot *)
  FrontedServers mc = FrontedServers cc /\
  ChainedServers mc = ChainedServers cc /\
  MasqueradeSets mc = MasqueradeSets cc /\
  ProxiedSites merged = cloud_ProxiedSites cloud /\
  TrustedCAs merged = cloud_TrustedCAs cloud.

(** The fronted (relay) servers of a merged configuration. *)
Definition relay_servers (v : option (Cfg * option CC))
  : option (list FrontedServerInfo) :=
  match v with
  | Some (_, Some mc) => Some (FrontedServers mc)
  | _ => None
  end.

(** [n] calls of [mergedConfig] in a row. *)
Fixpoint mergedConfig_times (n : nat) : M W (list Cfg) :=
  match n with
  | O => mret []
  | S n =>
      merged ← mergedConfig;
      rest ← mergedConfig_times n;
      mret (merged :: rest)
  end.

(** The fields of a merged configuration that the table gives to the local
    configuration, and those it gives to the cloud. *)
Definition local_fields (v : Cfg * option CC) :=
  (Version v.1, CloudConfig v.1, CloudConfigCA v.1, Addr v.1, Role v.1,
   InstanceId v.1, CpuProfile v.1, MemProfile v.1, UIAddr v.1,
   AutoReport v.1, AutoLaunch v.1, Stats v.1, Server v.1,
   DumpHeaders <$> v.2, ProxyAll <$> v.2, MinQOS <$> v.2).

Definition cloud_fields (v : Cfg * option CC) :=
  (FrontedServers <$> v.2, ChainedServers <$> v.2, MasqueradeSets <$> v.2,
   ProxiedSites v.1, TrustedCAs v.1).

(** A statement of ApplyDefaults that leaves the role, the [Client] pointer
    and the two flags alone. *)
Definition keeps (f : Cfg -> Cfg) : Prop :=
  forall cfg, Role (f cfg) = Role cfg /\ Client (f cfg) = Client cfg /\
              AutoReport (f cfg) = AutoReport cfg /\
              AutoLaunch (f cfg) = AutoLaunch cfg.

(** The configuration the last statement of ApplyDefaults tests. *)
Definition general_defaults (cfg : Cfg) : Cfg :=
  default_StatshubAddr deps
    (default_Stats
       (default_InstanceId deps
          (default_CloudConfig
             (default_UIAddr (default_Addr (default_Role cfg)))))).

(** The state after the request has been handed to the HTTP client. *)
Definition requested (w : W) (url : string) : W :=
  set_sent (sent w ++ [request_of (lastCloudConfigETag w) url])
    (set_logged
       (logged w ++ [Debugf "Checking for cloud configuration at: %s" [url]])
       w).

(** Computations that touch nothing of the package state but the heap. *)
Definition heap_only {A} (m : M W A) : Prop :=
  forall w a w', m w = Ok a w' -> w' = set_heap (heap w') w.

End Views.

(** * A concrete setting

    Stand-ins for the functions of the other packages and a few
    configurations, to run the package on explicit inputs. *)

(** The document of the end-to-end scenario and a document no YAML decoder
    accepts (an unterminated flow sequence). *)
Definition documentA : bytes :=
  String.list_byte_of_string "{client: {frontedServers: [A]}}".

Definition malformedDocument : bytes :=
  String.list_byte_of_string "client: [".

Definition serverA : FrontedServerInfo :=
  {| Host := "A"; Port := 443; PoolSize := 30; MasqueradeSet := "cloudflare";
     MaxMasquerades := 20; QOS := 10; Weight := 4000 |}.

(** A gzip stand-in: the two magic bytes, then the data as they are. *)
Definition stored (data : bytes) : bytes :=
  Byte.x1f :: Byte.x8b :: data.

Definition sample_gunzip (body : bytes) : GzipResult :=
  match body with
  | Byte.x1f :: Byte.x8b :: data => GzOk data
  | _ => GzBadHeader "gzip: invalid header"
  end.

(** A decoder stand-in: it knows [documentA], which sets the fronted servers
    of the target, and rejects every other input, leaving the target as it
    is. *)
Definition sample_Unmarshal (b : bytes) (d : cloudDoc string string)
  : cloudDoc string string * option string :=
  if String.eqb (String.string_of_list_byte b)
       (String.string_of_list_byte documentA)
  then ({| doc_Client :=
             Some (set_FrontedServers [serverA]
                     (default emptyClientConfig (doc_Client d)));
           doc_ProxiedSites := doc_ProxiedSites d;
           doc_TrustedCAs := doc_TrustedCAs d |}, None)
  else (d, Some "yaml: did not find expected node content").

(** A stand-in for globals.SetTrustedCAs: it rejects a certificate that is
    not PEM. *)
Definition sample_SetTrustedCAs (certs : list string) : option string :=
  if forallb (String.prefix "-----BEGIN CERTIFICATE-----") certs
  then None
  else Some "Unable to decode PEM certificate".

Definition sample_deps : Deps string string :=
  {| nodeID := "0a1b2c3d4e5f";
     statshubAddr := "pure-journey-3547.herokuapp.com";
     SetTrustedCAs := sample_SetTrustedCAs;
     newRequestError := fun url =>
       if String.prefix ":" url then Some "missing protocol scheme"
       else None;
     gunzip := sample_gunzip;
     yaml_Unmarshal := sample_Unmarshal;
     sortFrontedServers := fun servers => servers |}.

Definition cloudURL : string := "https://config.getiantem.org/cloud.yaml.gz".

(** The zero Config. *)
Definition zeroConfig : Config unit :=
  {| Version := 0; CloudConfig := ""; CloudConfigCA := ""; Addr := "";
     Role := ""; InstanceId := ""; CpuProfile := ""; MemProfile := "";
     UIAddr := ""; AutoReport := None; AutoLaunch := None; Stats := None;
     Server := None; Client := None; ProxiedSites := None;
     TrustedCAs := [] |}.

(** A client with a Client section, at location 1, and a server without. *)
Definition clientConfig : Config unit :=
  set_Client (Some 1%positive)
    (ApplyDefaults sample_deps (set_Role "client" zeroConfig)).

Definition serverConfig : Config unit :=
  ApplyDefaults sample_deps (set_Role "server" zeroConfig).

Definition localClient : ClientConfig string string :=
  {| DumpHeaders := false; ProxyAll := true; MinQOS := 0;
     FrontedServers := []; ChainedServers := ∅; MasqueradeSets := ∅ |}.

Definition fallbackServer : FrontedServerInfo :=
  {| Host := "nl.fallbacks.getiantem.org"; Port := 443; PoolSize := 30;
     MasqueradeSet := "cloudflare"; MaxMasquerades := 20; QOS := 10;
     Weight := 4000 |}.

Definition cloudClient : ClientConfig string string :=
  {| DumpHeaders := false; ProxyAll := false; MinQOS := 0;
     FrontedServers := [fallbackServer];
     ChainedServers := {[ "fallback-1" := "128.199.0.1:443" ]};
     MasqueradeSets := {[ "cloudflare" := ["cdnjs.com"] ]} |}.

Definition goodCA : CA :=
  {| CommonName := "GlobalSign";
     Cert := "-----BEGIN CERTIFICATE-----MIIDdTCCAl2g" |}.

Definition badCA : CA :=
  {| CommonName := "Broken"; Cert := "not a certificate" |}.

Definition sampleCloud (cas : list CA) : cloudConfig :=
  {| cloud_Client := Some 2%positive;
     cloud_ProxiedSites := Some {| Delta := None; Cloud := ["example.com"] |};
     cloud_TrustedCAs := cas |}.

(** The package state with local configuration [local], trusted CAs [cas]
    in the cloud configuration and ETag cache [etags]. *)
Definition sampleWorld (local : Config unit) (cas : list CA)
    (etags : gmap string string) : World string string unit :=
  {| heap := {[ 1%positive := localClient; 2%positive := cloudClient ]};
     lastCloudConfigETag := etags;
     localCfg := local;
     cloudCfg := sampleCloud cas;
     cloudConfigChanged := [];
     globals_InstanceId := "";
     sent := [];
     handled := [];
     logged := [] |}.

Definition clientWorld : World string string unit :=
  sampleWorld clientConfig [goodCA] ∅.

Definition serverWorld : World string string unit :=
  sampleWorld serverConfig [goodCA] ∅.

(** The client after a poll that brought the token "v1". *)
Definition cachedWorld : World string string unit :=
  sampleWorld clientConfig [goodCA] {[ cloudURL := "v1" ]}.

(** The client with a CA in the cloud configuration that
    [sample_SetTrustedCAs] rejects. *)
Definition badCAWorld : World string string unit :=
  sampleWorld clientConfig [badCA] ∅.

(** An origin that serves [body] under the validation token [token] with
    the headers of the package: 304 to a request that carries the token,
    200 with the token and the body otherwise. *)
Definition origin (token : string) (body : bytes) (req : Request)
  : string + Response :=
  if decide (req_Header req !! ifNoneMatch = Some token)
  then inr {| StatusCode := 304; resp_Header := ∅; Body := [] |}
  else inr {| StatusCode := 200; resp_Header := {[ etag := token ]};
              Body := body |}.

(** The same origin with the header names of HTTP. *)
Definition standard_origin (token : string) (body : bytes) (req : Request)
  : string + Response :=
  if decide (req_Header req !! "If-None-Match" = Some token)
  then inr {| StatusCode := 304; resp_Header := ∅; Body := [] |}
  else inr {| StatusCode := 200; resp_Header := {[ "Etag" := token ]};
              Body := body |}.

(** The request of the second of two polls of the same origin, if both
    polls return. *)
Definition second_request (Do : Request -> string + Response)
    (w : World string string unit) : option Request :=
  match cloudPoll sample_deps Do w with
  | Ok _ w1 =>
      match cloudPoll sample_deps Do w1 with
      | Ok _ w2 => last (sent w2)
      | Panic => None
      end
  | Panic => None
  end.

(** The role tests of the viper-based variant of the package, [role] being
    what viper.GetString("role") returns. *)
Definition viper_IsDownstream (role : string) : bool :=
  String.eqb role "client".

Definition viper_IsUpstream (role : string) : bool :=
  String.eqb role "server".

(** * Start-up and the poll loop

    The rest of config.go and cloud.go: the built-in cloud defaults, the
    configuration directory, [Init] and the loop of [startCloudPoll]. *)

(** The fallback values compiled into the package, declared in other files
    of package config. *)
Record Builtins {ChainedServerInfo Masquerade : Type} := {
  defaultProxiedSites : list string;
  defaultTrustedCAs : list CA;
  cloudflareMasquerades : list Masquerade;
  fallbacks : gmap string ChainedServerInfo
}.
Arguments Builtins : clear implicits.

(** What [os.Stat] answers: the file is there, it is not
    ([os.IsNotExist]), or another error. *)
Inductive StatResult :=
| StatOk
| StatNotExist
| StatError (cause : string).

(** The flag and the functions of other packages [InConfigDir] and [Init]
    use. *)
Record Env {ChainedServerInfo Masquerade ServerConfig : Type} := {
  (** the value of the -configdir flag *)
  configdir : string;
  appdir_General : string -> string;
  os_Stat : string -> StatResult;
  (** the error of os.MkdirAll(dir, 0750), if any *)
  os_MkdirAll : string -> option string;
  filepath_Join : string -> string -> string;
  (** yamlconf's Manager.Init for the file at the given path: an error, or
      the initial Config with the Client object decoded for it, if any *)
  manager_Init : string ->
                 string + (Config ServerConfig *
                           option (ClientConfig ChainedServerInfo Masquerade))
}.
Arguments Env : clear implicits.

(** What [Init] returns besides a Config. *)
Inductive InitError :=
| ErrConfigDir (dir cause : string)
| ErrManager (cause : string)
| ErrGlobals (err : error).

Definition cloudflare : string := "cloudflare".

Section Startup.
Context {ChainedServerInfo Masquerade ServerConfig : Type}.
Context (deps : Deps ChainedServerInfo Masquerade).
Context (builtins : Builtins ChainedServerInfo Masquerade).
Context (env : Env ChainedServerInfo Masquerade ServerConfig).
Local Abbreviation Cfg := (Config ServerConfig).
Local Abbreviation CC := (ClientConfig ChainedServerInfo Masquerade).
Local Abbreviation W := (World ChainedServerInfo Masquerade ServerConfig).

(** The dereference of a nil pointer. *)
Definition panic {A} : M W A := fun _ => Panic.

Definition set_cloud_ProxiedSites (v : option proxiedsites_Config)
    (c : cloudConfig) : cloudConfig :=
  {| cloud_Client := cloud_Client c; cloud_ProxiedSites := v;
     cloud_TrustedCAs := cloud_TrustedCAs c |}.

Definition set_cloud_TrustedCAs (v : list CA) (c : cloudConfig)
  : cloudConfig :=
  {| cloud_Client := cloud_Client c;
     cloud_ProxiedSites := cloud_ProxiedSites c; cloud_TrustedCAs := v |}.

(** The loop that copies [fallbacks] entry by entry into a new map. *)
Definition copy_fallbacks : gmap string ChainedServerInfo :=
  map_fold (fun key fb css => <[key := fb]> css) ∅ (fallbacks builtins).

(** [cloudConfig.ApplyDefaults]: the receiver as it is left.  The maps of
    the Client object are not nil where it is called, in [Init] on the
    result of [emptyCloudConfig]. *)
Definition cloud_ApplyDefaults (cfg : cloudConfig) : M W cloudConfig :=
  (* cfg.ProxiedSites.Cloud = defaultProxiedSites *)
  ps ← match cloud_ProxiedSites cfg with
       | Some ps => mret ps
       | None => panic
       end;
  let cfg := set_cloud_ProxiedSites
               (Some {| Delta := Delta ps;
                        Cloud := defaultProxiedSites builtins |}) cfg in
  (* cfg.TrustedCAs = defaultTrustedCAs *)
  let cfg := set_cloud_TrustedCAs (defaultTrustedCAs builtins) cfg in
  (* cfg.Client.MasqueradeSets[cloudflare] = cloudflareMasquerades *)
  c ← load (cloud_Client cfg);
  store (cloud_Client cfg)
    (set_MasqueradeSets
       (<[cloudflare := cloudflareMasquerades builtins]> (MasqueradeSets c))
       c);;
  (* cfg.Client.FrontedServers = []*client.FrontedServerInfo{...} *)
  c ← load (cloud_Client cfg);
  store (cloud_Client cfg)
    (set_FrontedServers
       [{| Host := "nl.fallbacks.getiantem.org"; Port := 443;
           PoolSize := 30; MasqueradeSet := cloudflare;
           MaxMasquerades := 20; QOS := 10; Weight := 4000 |}] c);;
  (* cfg.Client.ChainedServers = make(...); for key, fb := range fallbacks *)
  c ← load (cloud_Client cfg);
  store (cloud_Client cfg) (set_ChainedServers copy_fallbacks c);;
  mret cfg.

(** InConfigDir returns the path to the given filename inside of the
    configdir: an error or the path. *)
Definition InConfigDir (filename : string) : M W (InitError + string) :=
  let cdir := configdir env in
  let cdir := if decide (cdir = "") then appdir_General env "Lantern"
              else cdir in
  log (Debugf "Placing configuration in %v" [cdir]);;
  match os_Stat env cdir with
  | StatNotExist =>
      (* Create config dir *)
      match os_MkdirAll env cdir with
      | Some err => mret (inl (ErrConfigDir cdir err))
      | None => mret (inr (filepath_Join env cdir filename))
      end
  | _ => mret (inr (filepath_Join env cdir filename))
  end.

(** Init initializes the configuration system. *)
Definition Init : M W (InitError + Cfg) :=
  ccfg ← emptyCloudConfig;
  ccfg ← cloud_ApplyDefaults ccfg;
  modify (set_cloudCfg ccfg);;
  r ← InConfigDir "lantern.yaml";
  match r with
  | inl err => mret (inl err)
  | inr configPath =>
      match manager_Init env configPath with
      | inl err => mret (inl (ErrManager err))
      | inr (initial, client) =>
          p ← match client with
              | Some c => l ← alloc c; mret (Some l)
              | None => mret None
              end;
          modify (set_localCfg (set_Client p initial));;
          cfg ← mergedConfig;
          err ← updateGlobals deps cfg;
          match err with
          | Some e => mret (inl (ErrGlobals e))
          | None => mret (inr cfg)
          end
      end
  end.


(** The Client object and the cloud configuration the built-in defaults
    make: what [cloudConfig.ApplyDefaults] leaves of a Client object [c] and
    a proxied-sites section [ps]. *)
Definition defaultedClient (c : CC) : CC :=
  set_ChainedServers copy_fallbacks
    (set_FrontedServers
       [{| Host := "nl.fallbacks.getiantem.org"; Port := 443;
           PoolSize := 30; MasqueradeSet := cloudflare;
           MaxMasquerades := 20; QOS := 10; Weight := 4000 |}]
       (set_MasqueradeSets
          (<[cloudflare := cloudflareMasquerades builtins]>
             (MasqueradeSets c)) c)).

(** The fallback cloud configuration, as a document: the defaults applied
    to the empty cloudConfig. *)
Definition fallbackDoc : cloudDoc ChainedServerInfo Masquerade :=
  {| doc_Client :=
       Some {| DumpHeaders := false; ProxyAll := false; MinQOS := 0;
               FrontedServers :=
                 [{| Host := "nl.fallbacks.getiantem.org"; Port := 443;
                     PoolSize := 30; MasqueradeSet := cloudflare;
                     MaxMasquerades := 20; QOS := 10; Weight := 4000 |}];
               ChainedServers := fallbacks builtins;
               MasqueradeSets :=
                 {[ cloudflare := cloudflareMasquerades builtins ]} |};
     doc_ProxiedSites :=
       Some {| Delta := Some {| Additions := []; Deletions := [] |};
               Cloud := defaultProxiedSites builtins |};
     doc_TrustedCAs := defaultTrustedCAs builtins |}.

(** The directory [InConfigDir] places the configuration in. *)
Definition config_dir : string :=
  if decide (configdir env = "") then appdir_General env "Lantern"
  else configdir env.

(** The directory is there, or could be made. *)
Definition dir_usable : Prop :=
  os_Stat env config_dir <> StatNotExist \/
  os_MkdirAll env config_dir = None.

(** The state once [Init] has stored the cloud defaults and asked for the
    configuration directory. *)
Definition defaults_stored (w : W) : W :=
  set_logged
    (logged w ++ [Debugf "Placing configuration in %v" [config_dir]])
    (set_cloudCfg
       {| cloud_Client := Some (fresh (dom (heap w)));
          cloud_ProxiedSites := doc_ProxiedSites fallbackDoc;
          cloud_TrustedCAs := defaultTrustedCAs builtins |}
       (set_heap
          (<[fresh (dom (heap w))
             := defaultedClient emptyClientConfig]> (heap w)) w)).

End Startup.

(** * The first version of cloud.go

    The poll cycle as it was before [emptyCloudConfig] and the sorting of
    the fronted servers: [fromBytes] makes the empty sections itself, and
    [cloudPoll] stores what the decoder leaves.  [fetchCloudConfig] and
    [cloudPollSleepTime] are the same in both versions. *)
Module Earlier.
Section Package.
Context {ChainedServerInfo Masquerade ServerConfig : Type}.
Context (deps : Deps ChainedServerInfo Masquerade).
Local Abbreviation Cfg := (Config ServerConfig).
Local Abbreviation CC := (ClientConfig ChainedServerInfo Masquerade).
Local Abbreviation W := (World ChainedServerInfo Masquerade ServerConfig).

Definition set_cloud_Client (v : option loc) (c : cloudConfig) : cloudConfig :=
  {| cloud_Client := v; cloud_ProxiedSites := cloud_ProxiedSites c;
     cloud_TrustedCAs := cloud_TrustedCAs c |}.

(** fromBytes creates a new cloudConfig from given yaml: the receiver as it
    is left, and the error. *)
Definition fromBytes (updated : cloudConfig) (updateBytes : bytes)
  : M W (cloudConfig * option error) :=
  (* updated.Client = &client.ClientConfig{} *)
  l ← alloc {| DumpHeaders := false; ProxyAll := false; MinQOS := 0;
               FrontedServers := []; ChainedServers := ∅;
               MasqueradeSets := ∅ |};
  let updated := set_cloud_Client (Some l) updated in
  (* updated.Client.FrontedServers = []*client.FrontedServerInfo{} *)
  c ← load (cloud_Client updated);
  store (cloud_Client updated) (set_FrontedServers [] c);;
  (* updated.Client.ChainedServers = map[string]*client.ChainedServerInfo{} *)
  c ← load (cloud_Client updated);
  store (cloud_Client updated) (set_ChainedServers ∅ c);;
  (* updated.Client.MasqueradeSets = map[string][]*fronted.Masquerade{} *)
  c ← load (cloud_Client updated);
  store (cloud_Client updated) (set_MasqueradeSets ∅ c);;
  (* updated.ProxiedSites =
       &proxiedsites.Config{Delta: &proxiedsites.Delta{}} *)
  let updated :=
    set_cloud_ProxiedSites
      (Some {| Delta := Some {| Additions := []; Deletions := [] |};
               Cloud := [] |}) updated in
  (* updated.TrustedCAs = []*CA{} *)
  let updated := set_cloud_TrustedCAs [] updated in
  d ← to_doc updated;
  let '(d', err) := yaml_Unmarshal deps updateBytes d in
  updated ← of_doc updated d';
  match err with
  | Some e => mret (updated, Some (ErrUnmarshal e))
  | None => mret (updated, None)
  end.

Definition cloudPoll (Do : Request -> string + Response) : M W unit :=
  (* newCfg := cloudConfig{} *)
  let newCfg := {| cloud_Client := None; cloud_ProxiedSites := None;
                   cloud_TrustedCAs := [] |} in
  w ← get;
  let cfg := localCfg w in
  '(b, err) ← fetchCloudConfig deps (CloudConfig cfg) Do;
  match err with
  | Some e => log (Errorf "Error fetch cloud config: %s" e)
  | None =>
      match b with
      | None => mret tt
      | Some b =>
          '(newCfg, err) ← fromBytes newCfg b;
          match err with
          | Some e => log (Errorf "Error parse cloud config: %s" e)
          | None =>
              log (Debug "Applying cloud config");;
              modify (set_cloudCfg newCfg);;
              (* cloudConfigChanged <- true *)
              modify (fun w => set_cloudConfigChanged
                                 (cloudConfigChanged w ++ [true]) w)
          end
      end
  end.

End Package.
End Earlier.

(** ** Further notions the properties are stated with *)

Section MoreViews.
Context {ChainedServerInfo Masquerade ServerConfig : Type}.
Context (deps : Deps ChainedServerInfo Masquerade).
Local Abbreviation Cfg := (Config ServerConfig).
Local Abbreviation CC := (ClientConfig ChainedServerInfo Masquerade).
Local Abbreviation W := (World ChainedServerInfo Masquerade ServerConfig).
Local Abbreviation Doc := (cloudDoc ChainedServerInfo Masquerade).

(** The role ApplyDefaults leaves. *)
Definition defaulted_Role (cfg : Cfg) : string :=
  if decide (Role cfg = "") then "client" else Role cfg.

(** The stats section ApplyDefaults leaves. *)
Definition defaulted_Stats (cfg : Cfg) : statreporter_Config :=
  match Stats cfg with
  | None => {| ReportingPeriod := 0; StatshubAddr := statshubAddr deps |}
  | Some s =>
      if decide (StatshubAddr s = "")
      then {| ReportingPeriod := ReportingPeriod s;
              StatshubAddr := statshubAddr deps |}
      else s
  end.

(** Whether ApplyDefaults applies the client defaults. *)
Definition client_defaults_apply (cfg : Cfg) : bool :=
  bool_decide (Client cfg <> None /\ defaulted_Role cfg = "client").

(** ApplyDefaults, field by field. *)
Definition defaulted (cfg : Cfg) : Cfg :=
  {| Version := Version cfg;
     CloudConfig := if decide (CloudConfig cfg = "")
                    then "https://config.getiantem.org/cloud.yaml.gz"
                    else CloudConfig cfg;
     CloudConfigCA := CloudConfigCA cfg;
     Addr := if decide (Addr cfg = "") then "localhost:8787" else Addr cfg;
     Role := defaulted_Role cfg;
     InstanceId := if decide (InstanceId cfg = "") then nodeID deps
                   else InstanceId cfg;
     CpuProfile := CpuProfile cfg;
     MemProfile := MemProfile cfg;
     UIAddr := if decide (UIAddr cfg = "") then "localhost:16823"
               else UIAddr cfg;
     AutoReport := if client_defaults_apply cfg
                   then Some (default true (AutoReport cfg))
                   else AutoReport cfg;
     AutoLaunch := if client_defaults_apply cfg
                   then Some (default false (AutoLaunch cfg))
                   else AutoLaunch cfg;
     Stats := Some (defaulted_Stats cfg);
     Server := Server cfg;
     Client := Client cfg;
     ProxiedSites := ProxiedSites cfg;
     TrustedCAs := TrustedCAs cfg |}.

(** What [cloudPoll] does with the bytes of a new document: its statements
    after the two tests of the fetch result. *)
Definition apply_document (b : bytes) : M W unit :=
  newCfg ← emptyCloudConfig;
  '(newCfg, err) ← fromBytes deps newCfg b;
  match err with
  | Some e => log (Errorf "Error parse cloud config: %s" e)
  | None =>
      SortFrontedServers deps (cloud_Client newCfg);;
      log (Debug "Applying cloud config");;
      modify (set_cloudCfg newCfg);;
      modify (fun w => set_cloudConfigChanged
                         (cloudConfigChanged w ++ [true]) w)
  end.



(** A poll that stores a new cloudConfig and signals it. *)
Definition published (Do : Request -> string + Response) (w w' : W) : Prop :=
  cloudConfigChanged w' = cloudConfigChanged w ++ [true] /\
  (exists resp,
      Do (request_of (lastCloudConfigETag w) (CloudConfig (localCfg w)))
      = inr resp /\ StatusCode resp = 200) /\
  is_Some (deref (heap w') (cloud_Client (cloudCfg w'))) /\
  last (logged w') = Some (Debug "Applying cloud config").



(** A Client object with its fronted servers in the order
    [SortFrontedServers] puts them in. *)
Definition sorted_Client (c : CC) : CC :=
  set_FrontedServers (sortFrontedServers deps (FrontedServers c)) c.

(** A signal that brings a configuration with a Client section, or none. *)
Definition with_client (s : @Signal ChainedServerInfo Masquerade ServerConfig)
  : Prop :=
  match s with
  | Next _ None => False
  | _ => True
  end.

(** The local configuration in force after the signals, pointer aside:
    that of the last [Next], or the one there was. *)
Definition latest_local
    (signals : list (@Signal ChainedServerInfo Masquerade ServerConfig))
    (local : Cfg) : Cfg :=
  fold_left (fun acc s => match s with
                          | Next next _ => set_Client None next
                          | CloudChanged => acc
                          end) signals (set_Client None local).

(** A configuration handed to the update handler that carries the cloud
    side of [cloud], with Client object [cc]. *)
Definition carries_cloud (h : gmap loc CC) (cloud : cloudConfig) (cc : CC)
    (cfg : Cfg) : Prop :=
  TrustedCAs cfg = cloud_TrustedCAs cloud /\
  ProxiedSites cfg = cloud_ProxiedSites cloud /\
  exists mc,
    deref h (Client cfg) = Some mc /\
    FrontedServers mc = FrontedServers cc /\
    ChainedServers mc = ChainedServers cc /\
    MasqueradeSets mc = MasqueradeSets cc.

End MoreViews.


(** ** More of the concrete setting *)

(** The state a computation leaves: the one it started in when it
    panics. *)
Definition state_after {A} (m : M (World string string unit) A)
    (w : World string string unit) : World string string unit :=
  match m w with
  | Ok _ w' => w'
  | Panic => w
  end.

(** The response of [origin] to a request without the token. *)
Definition ok_response (token : string) (body : bytes) : Response :=
  {| StatusCode := 200; resp_Header := {[ etag := token ]}; Body := body |}.

(** An origin that is down. *)
Definition unavailable (req : Request) : string + Response :=
  inr {| StatusCode := 503; resp_Header := ∅; Body := [] |}.

(** What the sample decoder makes of [documentA], given the empty
    cloudConfig. *)
Definition clientA : ClientConfig string string :=
  set_FrontedServers [serverA] emptyClientConfig.

Definition decodedA : cloudDoc string string :=
  {| doc_Client := Some clientA;
     doc_ProxiedSites := Some emptyProxiedSites;
     doc_TrustedCAs := [] |}.

(** A document that sets the Client section to null, and a decoder that
    knows it besides [documentA]. *)
Definition nullDocument : bytes :=
  String.list_byte_of_string "client: ~".

Definition nulling_Unmarshal (b : bytes) (d : cloudDoc string string)
  : cloudDoc string string * option string :=
  if String.eqb (String.string_of_list_byte b)
       (String.string_of_list_byte nullDocument)
  then ({| doc_Client := None;
           doc_ProxiedSites := doc_ProxiedSites d;
           doc_TrustedCAs := doc_TrustedCAs d |}, None)
  else sample_Unmarshal b d.

Definition nulling_deps : Deps string string :=
  {| nodeID := nodeID sample_deps;
     statshubAddr := statshubAddr sample_deps;
     SetTrustedCAs := SetTrustedCAs sample_deps;
     newRequestError := newRequestError sample_deps;
     gunzip := gunzip sample_deps;
     yaml_Unmarshal := nulling_Unmarshal;
     sortFrontedServers := sortFrontedServers sample_deps |}.

Definition decodedNull : cloudDoc string string :=
  {| doc_Client := None;
     doc_ProxiedSites := Some emptyProxiedSites;
     doc_TrustedCAs := [] |}.

Definition otherURL : string := "https://example.org/other.yaml.gz".


(** Built-in fallbacks. *)
Definition sample_builtins : Builtins string string :=
  {| defaultProxiedSites := ["example.com"];
     defaultTrustedCAs := [goodCA];
     cloudflareMasquerades := ["cdnjs.com"];
     fallbacks := {[ "fallback-1" := "128.199.0.1:443" ]} |}.

(** The operating system and the manager at start-up: what os.Stat and
    os.MkdirAll answer for every directory and what the manager reads from
    lantern.yaml. *)
Definition sample_env (stat : StatResult) (mkdir : option string)
    (file : string + (Config unit * option (ClientConfig string string)))
  : Env string string unit :=
  {| configdir := "";
     appdir_General := fun app => String.append "/home/user/." app;
     os_Stat := fun _ => stat;
     os_MkdirAll := fun _ => mkdir;
     filepath_Join := fun dir file =>
                        String.append dir (String.append "/" file);
     manager_Init := fun _ => file |}.

(** The local configuration the manager reads: a client, before its Client
    object is attached. *)
Definition initialConfig : Config unit :=
  ApplyDefaults sample_deps (set_Role "client" zeroConfig).

(** The package state before [Init]. *)
Definition emptyWorld : World string string unit :=
  {| heap := ∅;
     lastCloudConfigETag := ∅;
     localCfg := zeroConfig;
     cloudCfg := {| cloud_Client := None; cloud_ProxiedSites := None;
                    cloud_TrustedCAs := [] |};
     cloudConfigChanged := [];
     globals_InstanceId := "";
     sent := [];
     handled := [];
     logged := [] |}.
(** * Properties *)

Section Properties.
Context {ChainedServerInfo Masquerade ServerConfig : Type}.
Context (deps : Deps ChainedServerInfo Masquerade).
Local Abbreviation Cfg := (Config ServerConfig).
Local Abbreviation CC := (ClientConfig ChainedServerInfo Masquerade).
Local Abbreviation W := (World ChainedServerInfo Masquerade ServerConfig).
Local Abbreviation Doc := (cloudDoc ChainedServerInfo Masquerade).

(** ** Poll delay *)

Lemma wrap64_small z : - 2 ^ 63 <= z < 2 ^ 63 -> wrap64 z = z.
Proof.
  intros Hz. unfold wrap64. rewrite Z.mod_small; lia.
Qed.

Lemma cloudPollSleepTime_eq r :
  Int63n_draw (Nanoseconds CloudConfigPollInterval) r ->
  cloudPollSleepTime r = 30 * Second + r.
Proof.
  unfold Int63n_draw, cloudPollSleepTime, Nanoseconds,
    CloudConfigPollInterval, Minute, Second.
  intros Hr. rewrite wrap64_small.
  - change (1 * (60 * 1000000000) ÷ 2) with (30 * 1000000000). reflexivity.
  - change (1 * (60 * 1000000000) ÷ 2) with 30000000000. lia.
Qed.

(** C7: whatever value of [0, interval) the random generator returns, the
    poll delay is at least half the base interval and less than one and a
    half times the base interval; the base interval being one minute, the
    delay lies in [30s, 90s). *)
Theorem cloudPollSleepTime_bounds r :
  Int63n_draw (Nanoseconds CloudConfigPollInterval) r ->
  (CloudConfigPollInterval <= 2 * cloudPollSleepTime r /\
   2 * cloudPollSleepTime r < 3 * CloudConfigPollInterval) /\
  30 * Second <= cloudPollSleepTime r < 90 * Second.
Proof.
  intros Hr. rewrite (cloudPollSleepTime_eq r Hr).
  unfold Int63n_draw, Nanoseconds, CloudConfigPollInterval, Minute,
    Second in *.
  lia.
Qed.

(** ** Roles *)

Lemma IsDownstream_true (cfg : Cfg) :
  IsDownstream cfg = true <-> Role cfg = "client".
Proof. unfold IsDownstream. apply String.eqb_eq. Qed.


(** ** Defaults *)

Lemma applyClientDefaults_AutoReport (cfg : Cfg) :
  AutoReport (applyClientDefaults cfg) = Some (default true (AutoReport cfg)).
Proof.
  unfold applyClientDefaults.
  destruct cfg as [? ? ? ? ? ? ? ? ? [r|] [l|] ? ? ? ? ?]; reflexivity.
Qed.

Lemma applyClientDefaults_AutoLaunch (cfg : Cfg) :
  AutoLaunch (applyClientDefaults cfg)
  = Some (default false (AutoLaunch cfg)).
Proof.
  unfold applyClientDefaults.
  destruct cfg as [? ? ? ? ? ? ? ? ? [r|] [l|] ? ? ? ? ?]; reflexivity.
Qed.

Lemma keeps_compose (f g : Cfg -> Cfg) :
  keeps f -> keeps g -> keeps (fun c => g (f c)).
Proof.
  intros Hf Hg cfg. destruct (Hf cfg) as (? & ? & ? & ?).
  destruct (Hg (f cfg)) as (? & ? & ? & ?). repeat split; congruence.
Qed.

Lemma keeps_default_Addr :
  keeps (default_Addr (ServerConfig:=ServerConfig)).
Proof. intros cfg. unfold default_Addr. case_decide; auto. Qed.

Lemma keeps_default_UIAddr :
  keeps (default_UIAddr (ServerConfig:=ServerConfig)).
Proof. intros cfg. unfold default_UIAddr. case_decide; auto. Qed.

Lemma keeps_default_CloudConfig :
  keeps (default_CloudConfig (ServerConfig:=ServerConfig)).
Proof. intros cfg. unfold default_CloudConfig. case_decide; auto. Qed.

Lemma keeps_default_InstanceId :
  keeps (default_InstanceId (ServerConfig:=ServerConfig) deps).
Proof. intros cfg. unfold default_InstanceId. case_decide; auto. Qed.

Lemma keeps_default_Stats :
  keeps (default_Stats (ServerConfig:=ServerConfig)).
Proof. intros cfg. unfold default_Stats. case_match; auto. Qed.

Lemma keeps_default_StatshubAddr :
  keeps (default_StatshubAddr (ServerConfig:=ServerConfig) deps).
Proof.
  intros cfg. unfold default_StatshubAddr.
  case_match; [case_decide|]; auto.
Qed.

Lemma ApplyDefaults_unfold (cfg : Cfg) :
  ApplyDefaults deps cfg
  = if decide (Client (general_defaults deps cfg) <> None
               /\ Role (general_defaults deps cfg) = "client")
    then applyClientDefaults (general_defaults deps cfg)
    else general_defaults deps cfg.
Proof. unfold ApplyDefaults, general_defaults. cbv zeta. reflexivity. Qed.

Lemma default_Role_Role (cfg : Cfg) :
  Role (default_Role cfg)
  = if decide (Role cfg = "") then "client" else Role cfg.
Proof. unfold default_Role. case_decide; reflexivity. Qed.

Lemma general_defaults_keeps (cfg : Cfg) :
  Role (general_defaults deps cfg) = Role (default_Role cfg) /\
  Client (general_defaults deps cfg) = Client cfg /\
  AutoReport (general_defaults deps cfg) = AutoReport cfg /\
  AutoLaunch (general_defaults deps cfg) = AutoLaunch cfg.
Proof.
  pose proof (keeps_compose _ _ keeps_default_Addr
    (keeps_compose _ _ keeps_default_UIAddr
      (keeps_compose _ _ keeps_default_CloudConfig
        (keeps_compose _ _ keeps_default_InstanceId
          (keeps_compose _ _ keeps_default_Stats
             keeps_default_StatshubAddr))))) as H.
  destruct (H (default_Role cfg)) as (Hr & Hc & Har & Hal).
  unfold general_defaults. rewrite Hr, Hc, Har, Hal.
  unfold default_Role. case_decide; auto.
Qed.

(** C8, amended: when the role is "client" and the configuration has a
    Client section, ApplyDefaults gives AutoReport the default true and
    AutoLaunch the default false where they are unset, and keeps them where
    they are set; when the role is "server" it leaves both flags as they
    are, so unset flags stay unset. *)
Theorem ApplyDefaults_client_only_defaults (cfg : Cfg) :
  (Role cfg = "client" -> Client cfg <> None ->
   AutoReport (ApplyDefaults deps cfg) = Some (default true (AutoReport cfg))
   /\ AutoLaunch (ApplyDefaults deps cfg)
      = Some (default false (AutoLaunch cfg))) /\
  (Role cfg = "server" ->
   AutoReport (ApplyDefaults deps cfg) = AutoReport cfg /\
   AutoLaunch (ApplyDefaults deps cfg) = AutoLaunch cfg).
Proof.
  rewrite ApplyDefaults_unfold.
  destruct (general_defaults_keeps cfg) as (Hr & Hc & Har & Hal).
  rewrite default_Role_Role in Hr.
  split.
  - intros Hrole Hclient.
    rewrite Hrole in Hr. rewrite decide_False in Hr by discriminate.
    rewrite decide_True by (rewrite Hc, Hr; auto).
    rewrite applyClientDefaults_AutoReport, applyClientDefaults_AutoLaunch.
    rewrite Har, Hal. auto.
  - intros Hrole.
    rewrite Hrole in Hr. rewrite decide_False in Hr by discriminate.
    rewrite decide_False; [auto|].
    rewrite Hr. intros [_ Hcontra]. discriminate Hcontra.
Qed.

(** ** The merge *)

Lemma fresh_lookup (h : gmap loc CC) : h !! fresh (dom h) = None.
Proof. apply not_elem_of_dom, is_fresh. Qed.

Lemma lookup_ne_fresh (h : gmap loc CC) l c :
  h !! l = Some c -> l <> fresh (dom h).
Proof. intros Hl ->. rewrite fresh_lookup in Hl. discriminate. Qed.

Lemma allocated_deref (h : gmap loc CC) p :
  allocated h p -> deref h p = None -> p = None.
Proof.
  destruct p as [l|]; simpl; [|reflexivity].
  intros [c Hc] Hd. rewrite Hc in Hd. discriminate.
Qed.

Lemma mergedConfig_eq (w : W) :
  no_dangling w ->
  mergedConfig w =
  match deref (heap w) (Client (localCfg w)),
        deref (heap w) (cloud_Client (cloudCfg w)) with
  | Some lc, Some cc =>
      let l := fresh (dom (heap w)) in
      Ok (set_TrustedCAs (cloud_TrustedCAs (cloudCfg w))
            (set_ProxiedSites (cloud_ProxiedSites (cloudCfg w))
               (set_Client (Some l) (localCfg w))))
         (set_heap (<[l := merged_client lc cc]> (heap w)) w)
  | _, _ => Panic
  end.
Proof.
  intros [Hlocal Hcloud].
  destruct (deref (heap w) (Client (localCfg w))) as [lc|] eqn:Hlc.
  - destruct (Client (localCfg w)) as [l0|] eqn:Hl0; [|discriminate].
    simpl in Hlc.
    destruct (deref (heap w) (cloud_Client (cloudCfg w))) as [cc|] eqn:Hcc.
    + destruct (cloud_Client (cloudCfg w)) as [l1|] eqn:Hl1; [|discriminate].
      simpl in Hcc. pose proof (lookup_ne_fresh _ _ _ Hcc) as Hne.
      unfold mergedConfig, deepcopy_Copy.
      unfold mbind, M_bind, mret, M_ret, get, load, store, alloc.
      rewrite Hl0, Hl1, Hlc. simpl.
      repeat (first [ rewrite lookup_insert_eq
                    | rewrite lookup_insert_ne by congruence
                    | rewrite Hcc ]; simpl).
      rewrite !insert_insert_eq. reflexivity.
    + apply allocated_deref in Hcc; [|assumption].
      unfold mergedConfig, deepcopy_Copy.
      unfold mbind, M_bind, mret, M_ret, get, load, store, alloc.
      rewrite Hl0, Hcc, Hlc. simpl. rewrite lookup_insert_eq. reflexivity.
  - apply allocated_deref in Hlc; [|assumption].
    unfold mergedConfig, deepcopy_Copy.
    unfold mbind, M_bind, mret, M_ret, get, load, store, alloc.
    rewrite Hlc. simpl. rewrite Hlc. reflexivity.
Qed.

Lemma deref_allocated (h : gmap loc CC) p c :
  deref h p = Some c -> allocated h p.
Proof.
  destruct p as [l|]; simpl; [|done]. intros Hc. exists c. exact Hc.
Qed.

Lemma deref_mono (h h' : gmap loc CC) p :
  h ⊆ h' -> allocated h p -> deref h' p = deref h p.
Proof.
  destruct p as [l|]; simpl; [|reflexivity].
  intros Hsub [c Hc]. rewrite Hc.
  eapply lookup_weaken; eassumption.
Qed.

Lemma view_mono (h h' : gmap loc CC) (c : Cfg) :
  h ⊆ h' -> allocated h (Client c) -> view h' c = view h c.
Proof.
  intros Hsub Ha. unfold view. rewrite (deref_mono h h'); auto.
Qed.

Lemma cloud_view_mono (h h' : gmap loc CC) (c : cloudConfig) :
  h ⊆ h' -> allocated h (cloud_Client c) -> cloud_view h' c = cloud_view h c.
Proof.
  intros Hsub Ha. unfold cloud_view. rewrite (deref_mono h h'); auto.
Qed.

Lemma allocated_mono (h h' : gmap loc CC) p :
  h ⊆ h' -> allocated h p -> allocated h' p.
Proof.
  destruct p as [l|]; simpl; [|done].
  intros Hsub [c Hc]. exists c. eapply lookup_weaken; eassumption.
Qed.

Lemma insert_fresh_subseteq (h : gmap loc CC) c :
  h ⊆ <[fresh (dom h) := c]> h.
Proof. apply insert_subseteq, fresh_lookup. Qed.

(** [mergedConfig] computes [Merge] on what its two inputs show. *)
Lemma merged_view_Merge (w : W) :
  no_dangling w ->
  merged_view w = Merge (local_input w) (cloud_input w).
Proof.
  intros Hw. unfold merged_view. rewrite (mergedConfig_eq w Hw).
  unfold Merge, local_input, cloud_input, view, cloud_view. simpl.
  destruct (deref (heap w) (Client (localCfg w))) as [lc|]; [|reflexivity].
  destruct (deref (heap w) (cloud_Client (cloudCfg w))) as [cc|];
    [|reflexivity].
  simpl. rewrite lookup_insert_eq. reflexivity.
Qed.

(** What a successful merge leaves behind. *)
Lemma mergedConfig_frame (w w' : W) (merged : Cfg) :
  no_dangling w ->
  mergedConfig w = Ok merged w' ->
  w' = set_heap (heap w') w /\ heap w ⊆ heap w' /\
  allocated (heap w') (Client merged) /\ no_dangling w'.
Proof.
  intros Hw. rewrite (mergedConfig_eq w Hw).
  destruct (deref (heap w) (Client (localCfg w))) as [lc|]; [|discriminate].
  destruct (deref (heap w) (cloud_Client (cloudCfg w))) as [cc|];
    [|discriminate].
  simpl. intros [= <- <-]. simpl.
  pose proof (insert_fresh_subseteq (heap w) (merged_client lc cc)) as Hsub.
  repeat split; try assumption.
  - eexists. apply lookup_insert_eq.
  - eapply allocated_mono; [exact Hsub|apply Hw].
  - eapply allocated_mono; [exact Hsub|apply Hw].
Qed.

Lemma mergedConfig_ok (w : W) (lc cc : CC) :
  deref (heap w) (Client (localCfg w)) = Some lc ->
  deref (heap w) (cloud_Client (cloudCfg w)) = Some cc ->
  mergedConfig w =
  Ok (set_TrustedCAs (cloud_TrustedCAs (cloudCfg w))
        (set_ProxiedSites (cloud_ProxiedSites (cloudCfg w))
           (set_Client (Some (fresh (dom (heap w)))) (localCfg w))))
     (set_heap (<[fresh (dom (heap w)) := merged_client lc cc]> (heap w)) w).
Proof.
  intros Hlc Hcc. rewrite mergedConfig_eq.
  - rewrite Hlc, Hcc. reflexivity.
  - split; eapply deref_allocated; eassumption.
Qed.

Lemma Merge_cloud_fields (l l' : Cfg * option CC) (d : Doc) :
  is_Some l.2 -> is_Some l'.2 ->
  cloud_fields <$> Merge l' d = cloud_fields <$> Merge l d.
Proof.
  intros [lc Hlc] [lc' Hlc']. unfold Merge. rewrite Hlc, Hlc'.
  destruct (doc_Client d); reflexivity.
Qed.

Lemma Merge_local_fields (l : Cfg * option CC) (d d' : Doc) :
  is_Some (doc_Client d) -> is_Some (doc_Client d') ->
  local_fields <$> Merge l d' = local_fields <$> Merge l d.
Proof.
  intros [cc Hcc] [cc' Hcc']. unfold Merge. rewrite Hcc, Hcc'.
  destruct l.2; reflexivity.
Qed.

(** C1, amended: when the local Config and the cloud snapshot both have a
    Client section, mergedConfig returns a configuration each field of which
    comes from one input, by the table: the role, the addresses, the
    instance id, the profiling files, the UI address, the stats (and the
    other fields of the Config and of its Client section) from the local
    Config; the fronted servers, the chained servers, the masquerade sets,
    the proxied sites and the trusted CAs from the cloud snapshot.  Hence a
    change of the local Config alone leaves the cloud-sourced fields of the
    result as they are, and a change of the cloud snapshot alone leaves the
    local-sourced ones. *)
Theorem mergedConfig_field_sources (w : W) (lc cc : CC) :
  deref (heap w) (Client (localCfg w)) = Some lc ->
  deref (heap w) (cloud_Client (cloudCfg w)) = Some cc ->
  (exists merged w' mc,
      mergedConfig w = Ok merged w' /\
      deref (heap w') (Client merged) = Some mc /\
      sourced_by_table (localCfg w) lc (cloudCfg w) cc merged mc) /\
  (forall w2 : W,
      no_dangling w2 ->
      cloud_input w2 = cloud_input w ->
      is_Some (local_input w2).2 ->
      cloud_fields <$> merged_view w2 = cloud_fields <$> merged_view w) /\
  (forall w2 : W,
      no_dangling w2 ->
      local_input w2 = local_input w ->
      is_Some (doc_Client (cloud_input w2)) ->
      local_fields <$> merged_view w2 = local_fields <$> merged_view w).
Proof.
  intros Hlc Hcc.
  assert (Hw : no_dangling w)
    by (split; eapply deref_allocated; eassumption).
  split; [|split].
  - eexists _, _, (merged_client lc cc).
    split; [apply (mergedConfig_ok w lc cc Hlc Hcc)|].
    split; [simpl; apply lookup_insert_eq|].
    unfold sourced_by_table. simpl. repeat split; reflexivity.
  - intros w2 Hw2 Hcloud Hlocal.
    rewrite !merged_view_Merge by assumption. rewrite Hcloud.
    apply Merge_cloud_fields; [|assumption].
    unfold local_input, view. simpl. rewrite Hlc. eauto.
  - intros w2 Hw2 Hlocal Hcloud.
    rewrite !merged_view_Merge by assumption. rewrite Hlocal.
    apply Merge_local_fields; [|assumption].
    unfold cloud_input, cloud_view. simpl. rewrite Hcc. eauto.
Qed.

Lemma mergedConfig_times_spec (n : nat) :
  forall (w : W) (v : Cfg * option CC),
    no_dangling w ->
    merged_view w = Some v ->
    exists ms wn,
      mergedConfig_times n w = Ok ms wn /\
      length ms = n /\
      Forall (fun m => view (heap wn) m = v) ms /\
      wn = set_heap (heap wn) w /\ heap w ⊆ heap wn /\ no_dangling wn.
Proof.
  induction n as [|n IH]; intros w v Hw Hv.
  - exists [], w. simpl. split_and!; auto. destruct w; reflexivity.
  - simpl. unfold mbind, M_bind.
    unfold merged_view in Hv.
    destruct (mergedConfig w) as [m w1|] eqn:Hm; [|discriminate].
    injection Hv as Hv.
    destruct (mergedConfig_frame w w1 m Hw Hm) as (Hw1 & Hsub & Ham & Hnd).
    assert (Hv1 : merged_view w1 = Some v).
    { rewrite merged_view_Merge by assumption.
      unfold local_input, cloud_input. rewrite Hw1. simpl.
      rewrite (view_mono (heap w)), (cloud_view_mono (heap w));
        try assumption; try apply Hw.
      fold (local_input w). fold (cloud_input w).
      rewrite <- merged_view_Merge by assumption.
      unfold merged_view. rewrite Hm, Hv. reflexivity. }
    destruct (IH w1 v Hnd Hv1)
      as (ms & wn & Hms & Hlen & Hall & Hwn & Hsubn & Hndn).
    exists (m :: ms), wn. rewrite Hms. simpl.
    split_and!; auto.
    + constructor; [|assumption].
      rewrite (view_mono (heap w1)); assumption.
    + rewrite Hwn at 1. rewrite Hw1. reflexivity.
    + etransitivity; eassumption.
Qed.

(** C2: mergedConfig changes neither of its two inputs nor anything else
    of the package state (it only allocates the Client object of its
    result); what it returns is a function of what the two inputs show; and
    called any number of times in a row it returns the same configuration
    every time, the inputs being the same after the last call as before the
    first. *)
Theorem mergedConfig_pure_idempotent (w : W) :
  no_dangling w ->
  (forall merged w',
      mergedConfig w = Ok merged w' ->
      local_input w' = local_input w /\ cloud_input w' = cloud_input w /\
      w' = set_heap (heap w') w /\ heap w ⊆ heap w') /\
  (forall w2 : W,
      no_dangling w2 ->
      local_input w2 = local_input w -> cloud_input w2 = cloud_input w ->
      merged_view w2 = merged_view w) /\
  (forall (n : nat) v,
      merged_view w = Some v ->
      exists ms wn,
        mergedConfig_times n w = Ok ms wn /\
        length ms = n /\
        Forall (fun merged => view (heap wn) merged = v) ms /\
        local_input wn = local_input w /\ cloud_input wn = cloud_input w).
Proof.
  intros Hw. split_and!.
  - intros merged w' Hm.
    destruct (mergedConfig_frame w w' merged Hw Hm) as (Hw' & Hsub & _ & _).
    split_and!; try assumption.
    + unfold local_input. rewrite Hw' at 2. simpl.
      apply view_mono; [assumption|apply Hw].
    + unfold cloud_input. rewrite Hw' at 2. simpl.
      apply cloud_view_mono; [assumption|apply Hw].
  - intros w2 Hw2 Hl Hc.
    rewrite !merged_view_Merge by assumption. rewrite Hl, Hc. reflexivity.
  - intros n v Hv.
    destruct (mergedConfig_times_spec n w v Hw Hv)
      as (ms & wn & Hms & Hlen & Hall & Hwn & Hsub & _).
    exists ms, wn. split_and!; try assumption.
    + unfold local_input. rewrite Hwn at 2. simpl.
      apply view_mono; [assumption|apply Hw].
    + unfold cloud_input. rewrite Hwn at 2. simpl.
      apply cloud_view_mono; [assumption|apply Hw].
Qed.


(** ** The conditional fetch *)

Lemma request_built (etags : gmap string string) (url : string) :
  set_Close true
    (if decide (default "" (etags !! url) <> "")
     then Header_Set ifNoneMatch (default "" (etags !! url))
            {| req_Method := "GET"; req_URL := url;
               req_Header := ∅; req_Close := false |}
     else {| req_Method := "GET"; req_URL := url;
             req_Header := ∅; req_Close := false |})
  = request_of etags url.
Proof. unfold request_of. case_decide; reflexivity. Qed.

Lemma fetchCloudConfig_eq (url : string) Do (w : W) resp :
  newRequestError deps url = None ->
  Do (request_of (lastCloudConfigETag w) url) = inr resp ->
  fetchCloudConfig deps url Do w =
  if decide (StatusCode resp = 304) then
    Ok (None, None)
       (set_logged (logged (requested w url)
                      ++ [Debugf "Config unchanged in cloud" []])
          (requested w url))
  else if decide (StatusCode resp <> 200) then
    Ok (None, Some (ErrStatus (StatusCode resp))) (requested w url)
  else
    let w' := set_lastCloudConfigETag
                (<[url := Header_Get resp etag]> (lastCloudConfigETag w))
                (requested w url) in
    match gunzip deps (Body resp) with
    | GzBadHeader err => Ok (None, Some (ErrGzipReader err)) w'
    | GzReadError read err => Ok (Some read, Some (ErrReadAll err)) w'
    | GzOk data => Ok (Some data, None) w'
    end.
Proof.
  intros Hnew HDo.
  unfold fetchCloudConfig, NewRequest. rewrite Hnew.
  unfold mbind, M_bind, mret, M_ret, log, modify, get, lastETag. simpl.
  rewrite request_built, HDo.
  repeat case_decide; try reflexivity.
  all: simpl; destruct (gunzip deps (Body resp)); reflexivity.
Qed.

(** C9: on a 200 response fetchCloudConfig puts the response's ETag header
    into the cache entry of the URL whatever the body decodes to; so when
    the body is not valid gzip it returns an error, and no bytes, with the
    cache entry already set to the new token. *)
Theorem fetchCloudConfig_records_etag_first (url : string) Do (w : W) resp :
  newRequestError deps url = None ->
  Do (request_of (lastCloudConfigETag w) url) = inr resp ->
  StatusCode resp = 200 ->
  exists b err w',
    fetchCloudConfig deps url Do w = Ok (b, err) w' /\
    lastCloudConfigETag w'
    = <[url := Header_Get resp etag]> (lastCloudConfigETag w) /\
    lastETag w' url = Header_Get resp etag /\
    (forall cause, gunzip deps (Body resp) = GzBadHeader cause ->
                   b = None /\ err = Some (ErrGzipReader cause)).
Proof.
  intros Hnew HDo H200.
  rewrite (fetchCloudConfig_eq url Do w resp Hnew HDo).
  rewrite decide_False by (rewrite H200; discriminate).
  rewrite decide_False by (intros Hne; apply Hne, H200).
  cbv zeta.
  destruct (gunzip deps (Body resp)) as [cause|read cause|data];
    eexists _, _, _; (split; [reflexivity|]);
    (split; [reflexivity|]);
    (split; [unfold lastETag; simpl; rewrite lookup_insert_eq; reflexivity|]);
    intros cause' [=]; subst; auto.
Qed.

(** ** The poll cycle *)

(** A poll answered 304. *)
Lemma cloudPoll_304 (Do : Request -> string + Response) (w : W) resp :
  newRequestError deps (CloudConfig (localCfg w)) = None ->
  Do (request_of (lastCloudConfigETag w) (CloudConfig (localCfg w)))
  = inr resp ->
  StatusCode resp = 304 ->
  cloudPoll deps Do w
  = Ok tt (set_logged
             (logged (requested w (CloudConfig (localCfg w)))
                ++ [Debugf "Config unchanged in cloud" []])
             (requested w (CloudConfig (localCfg w)))).
Proof.
  intros Hnew HDo H304.
  unfold cloudPoll, get. unfold mbind at 1, M_bind at 1.
  unfold mbind at 1, M_bind at 1.
  rewrite (fetchCloudConfig_eq _ Do w resp Hnew HDo).
  rewrite decide_True by assumption. reflexivity.
Qed.

(** C4: when the response to the poll's request has status 304, cloudPoll
    returns having sent nothing on the change channel, with the stored
    cloudConfig, the objects it points to and the whole ETag cache as they
    were; of the package state only the log and the record of requests
    have grown. *)
Theorem cloudPoll_not_modified (Do : Request -> string + Response)
    (w : W) resp :
  newRequestError deps (CloudConfig (localCfg w)) = None ->
  Do (request_of (lastCloudConfigETag w) (CloudConfig (localCfg w)))
  = inr resp ->
  StatusCode resp = 304 ->
  exists w',
    cloudPoll deps Do w = Ok tt w' /\
    cloudConfigChanged w' = cloudConfigChanged w /\
    cloudCfg w' = cloudCfg w /\
    heap w' = heap w /\
    lastCloudConfigETag w' = lastCloudConfigETag w /\
    w' = set_logged (logged w') (set_sent (sent w') w).
Proof.
  intros Hnew HDo H304.
  rewrite (cloudPoll_304 Do w resp Hnew HDo H304).
  eexists. split; [reflexivity|]. simpl. split_and!; reflexivity.
Qed.

(** A poll whose document does not decode. *)
Lemma cloudPoll_parse_error (Do : Request -> string + Response)
    (w : W) resp b d cause :
  newRequestError deps (CloudConfig (localCfg w)) = None ->
  Do (request_of (lastCloudConfigETag w) (CloudConfig (localCfg w)))
  = inr resp ->
  StatusCode resp = 200 ->
  gunzip deps (Body resp) = GzOk b ->
  yaml_Unmarshal deps b emptyDoc = (d, Some cause) ->
  exists w',
    cloudPoll deps Do w = Ok tt w' /\
    w' = set_logged (logged w') (set_sent (sent w') (set_heap (heap w')
           (set_lastCloudConfigETag
              (<[CloudConfig (localCfg w) := Header_Get resp etag]>
                 (lastCloudConfigETag w)) w))) /\
    heap w ⊆ heap w' /\
    last (logged w')
    = Some (Errorf "Error parse cloud config: %s" (ErrUnmarshal cause)).
Proof.
  intros Hnew HDo H200 Hgz Hyaml.
  unfold cloudPoll, get. unfold mbind at 1, M_bind at 1.
  unfold mbind at 1, M_bind at 1.
  rewrite (fetchCloudConfig_eq _ Do w resp Hnew HDo).
  rewrite decide_False by (rewrite H200; discriminate).
  rewrite decide_False by (intros Hne; apply Hne, H200).
  cbv zeta. rewrite Hgz.
  unfold emptyCloudConfig, fromBytes, to_doc, of_doc.
  unfold mbind, M_bind, mret, M_ret, alloc, load, store, log, modify.
  simpl. rewrite lookup_insert_eq.
  fold (@emptyDoc ChainedServerInfo Masquerade). rewrite Hyaml.
  destruct (doc_Client d) as [c|]; simpl.
  - rewrite lookup_insert_eq. simpl. eexists. split; [reflexivity|]. simpl.
    split_and!.
    + reflexivity.
    + rewrite insert_insert_eq. apply insert_fresh_subseteq.
    + apply last_snoc.
  - eexists. split; [reflexivity|]. simpl. split_and!.
    + reflexivity.
    + apply insert_fresh_subseteq.
    + apply last_snoc.
Qed.

Lemma inputs_frame (w w' : W) :
  no_dangling w ->
  localCfg w' = localCfg w -> cloudCfg w' = cloudCfg w ->
  heap w ⊆ heap w' ->
  no_dangling w' /\ local_input w' = local_input w /\
  cloud_input w' = cloud_input w /\ merged_view w' = merged_view w.
Proof.
  intros [Hl Hc] Hlocal Hcloud Hsub.
  assert (Hw' : no_dangling w').
  { unfold no_dangling. rewrite Hlocal, Hcloud.
    split; eapply allocated_mono; eassumption. }
  assert (Hli : local_input w' = local_input w).
  { unfold local_input. rewrite Hlocal. apply view_mono; assumption. }
  assert (Hci : cloud_input w' = cloud_input w).
  { unfold cloud_input. rewrite Hcloud. apply cloud_view_mono; assumption. }
  split_and!; try assumption.
  rewrite !merged_view_Merge by (assumption || split; assumption).
  rewrite Hli, Hci. reflexivity.
Qed.

(** C3, amended: when the response has status 200 and its body decompresses
    to a document the YAML decoder rejects, cloudPoll leaves the stored
    cloudConfig and what it shows as they were, sends nothing on the change
    channel and hands nothing to the update handler, so the merged
    configuration is what it was and no partly filled cloudConfig is
    published; the ETag cache entry of the URL, however, now holds the ETag
    header of that response. *)
Theorem cloudPoll_malformed_document (Do : Request -> string + Response)
    (w : W) resp b d cause :
  no_dangling w ->
  newRequestError deps (CloudConfig (localCfg w)) = None ->
  Do (request_of (lastCloudConfigETag w) (CloudConfig (localCfg w)))
  = inr resp ->
  StatusCode resp = 200 ->
  gunzip deps (Body resp) = GzOk b ->
  yaml_Unmarshal deps b emptyDoc = (d, Some cause) ->
  exists w',
    cloudPoll deps Do w = Ok tt w' /\
    cloudCfg w' = cloudCfg w /\
    cloud_input w' = cloud_input w /\
    cloudConfigChanged w' = cloudConfigChanged w /\
    handled w' = handled w /\
    local_input w' = local_input w /\
    merged_view w' = merged_view w /\
    lastCloudConfigETag w'
    = <[CloudConfig (localCfg w) := Header_Get resp etag]>
        (lastCloudConfigETag w).
Proof.
  intros Hw Hnew HDo H200 Hgz Hyaml.
  destruct (cloudPoll_parse_error Do w resp b d cause Hnew HDo H200 Hgz Hyaml)
    as (w' & Hpoll & Hw' & Hsub & _).
  exists w'. split; [assumption|].
  assert (Hlocal : localCfg w' = localCfg w) by (rewrite Hw'; reflexivity).
  assert (Hcloud : cloudCfg w' = cloudCfg w) by (rewrite Hw'; reflexivity).
  destruct (inputs_frame w w' Hw Hlocal Hcloud Hsub) as (_ & Hli & Hci & Hmv).
  split_and!; try assumption; rewrite Hw'; reflexivity.
Qed.

(** A poll that brings a new document. *)
Lemma cloudPoll_new_document (Do : Request -> string + Response)
    (w : W) resp b d c :
  no_dangling w ->
  newRequestError deps (CloudConfig (localCfg w)) = None ->
  Do (request_of (lastCloudConfigETag w) (CloudConfig (localCfg w)))
  = inr resp ->
  StatusCode resp = 200 ->
  gunzip deps (Body resp) = GzOk b ->
  yaml_Unmarshal deps b emptyDoc = (d, None) ->
  doc_Client d = Some c ->
  exists w',
    cloudPoll deps Do w = Ok tt w' /\
    no_dangling w' /\
    localCfg w' = localCfg w /\
    local_input w' = local_input w /\
    cloud_input w'
    = {| doc_Client :=
           Some (set_FrontedServers
                   (sortFrontedServers deps (FrontedServers c)) c);
         doc_ProxiedSites := doc_ProxiedSites d;
         doc_TrustedCAs := doc_TrustedCAs d |} /\
    lastCloudConfigETag w'
    = <[CloudConfig (localCfg w) := Header_Get resp etag]>
        (lastCloudConfigETag w) /\
    cloudConfigChanged w' = cloudConfigChanged w ++ [true] /\
    sent w' = sent w ++ [request_of (lastCloudConfigETag w)
                           (CloudConfig (localCfg w))] /\
    handled w' = handled w.
Proof.
  intros Hw Hnew HDo H200 Hgz Hyaml Hc.
  unfold cloudPoll, get. unfold mbind at 1, M_bind at 1.
  unfold mbind at 1, M_bind at 1.
  rewrite (fetchCloudConfig_eq _ Do w resp Hnew HDo).
  rewrite decide_False by (rewrite H200; discriminate).
  rewrite decide_False by (intros Hne; apply Hne, H200).
  cbv zeta. rewrite Hgz.
  unfold emptyCloudConfig, fromBytes, to_doc, of_doc, SortFrontedServers.
  unfold mbind, M_bind, mret, M_ret, alloc, load, store, log, modify.
  simpl. rewrite lookup_insert_eq.
  fold (@emptyDoc ChainedServerInfo Masquerade). rewrite Hyaml, Hc.
  simpl. repeat (rewrite lookup_insert_eq; simpl).
  rewrite !insert_insert_eq.
  eexists. split; [reflexivity|].
  pose proof (insert_fresh_subseteq (heap w)
    (set_FrontedServers (sortFrontedServers deps (FrontedServers c)) c))
    as Hsub.
  destruct Hw as [Hl Hcl].
  split_and!; try reflexivity.
  - split; simpl.
    + eapply allocated_mono; eassumption.
    + eexists. apply lookup_insert_eq.
  - unfold local_input. simpl. apply view_mono; assumption.
  - unfold cloud_input, cloud_view. simpl. rewrite lookup_insert_eq.
    reflexivity.
Qed.

(** C6, amended: after a first poll answered 200 with the header
    X-Lantern-Etag set to a token [v] and a document that decodes, the
    request of the second poll carries the header X-Lantern-If-None-Match
    with value [v]; when that poll is answered 304 the merged configuration,
    and with it the list of fronted servers, is what it was after the first
    poll: the servers of the document. *)
Theorem conditional_fetch_scenario (Do1 Do2 : Request -> string + Response)
    (w : W) resp1 resp2 (v : string) b d c :
  no_dangling w ->
  newRequestError deps (CloudConfig (localCfg w)) = None ->
  Do1 (request_of (lastCloudConfigETag w) (CloudConfig (localCfg w)))
  = inr resp1 ->
  StatusCode resp1 = 200 ->
  resp_Header resp1 !! etag = Some v ->
  v <> "" ->
  gunzip deps (Body resp1) = GzOk b ->
  yaml_Unmarshal deps b emptyDoc = (d, None) ->
  doc_Client d = Some c ->
  Do2 (request_of (<[CloudConfig (localCfg w) := v]> (lastCloudConfigETag w))
         (CloudConfig (localCfg w))) = inr resp2 ->
  StatusCode resp2 = 304 ->
  exists w1 w2 req2,
    cloudPoll deps Do1 w = Ok tt w1 /\
    cloudPoll deps Do2 w1 = Ok tt w2 /\
    last (sent w2) = Some req2 /\
    req_Header req2 !! ifNoneMatch = Some v /\
    merged_view w2 = merged_view w1 /\
    relay_servers (merged_view w2) = relay_servers (merged_view w1) /\
    (is_Some (local_input w).2 ->
     relay_servers (merged_view w2)
     = Some (sortFrontedServers deps (FrontedServers c))).
Proof.
  intros Hw Hnew HDo1 H200 Hv Hne Hgz Hyaml Hc HDo2 H304.
  destruct (cloudPoll_new_document Do1 w resp1 b d c Hw Hnew HDo1 H200 Hgz
              Hyaml Hc)
    as (w1 & Hp1 & Hw1 & Hlocal & Hli & Hci & Het & _ & _ & _).
  assert (Hget : Header_Get resp1 etag = v)
    by (unfold Header_Get; rewrite Hv; reflexivity).
  rewrite Hget in Het.
  assert (Hnew1 : newRequestError deps (CloudConfig (localCfg w1)) = None)
    by (rewrite Hlocal; assumption).
  assert (HDo2' : Do2 (request_of (lastCloudConfigETag w1)
                         (CloudConfig (localCfg w1))) = inr resp2)
    by (rewrite Hlocal, Het; assumption).
  pose proof (cloudPoll_304 Do2 w1 resp2 Hnew1 HDo2' H304) as Hp2.
  eexists w1, _, _. split; [exact Hp1|]. split; [exact Hp2|].
  assert (Hmv : merged_view
                  (set_logged
                     (logged (requested w1 (CloudConfig (localCfg w1)))
                        ++ [Debugf "Config unchanged in cloud" []])
                     (requested w1 (CloudConfig (localCfg w1))))
                = merged_view w1).
  { apply (inputs_frame w1); [assumption|reflexivity|reflexivity|].
    simpl. reflexivity. }
  split_and!.
  - simpl. apply last_snoc.
  - unfold request_of. rewrite Het, Hlocal, lookup_insert_eq. simpl.
    rewrite decide_True by assumption. apply lookup_singleton_eq.
  - exact Hmv.
  - rewrite Hmv. reflexivity.
  - intros [lc Hlc]. rewrite Hmv.
    rewrite merged_view_Merge by assumption. rewrite Hli, Hci.
    unfold Merge. rewrite Hlc. reflexivity.
Qed.

(** ** The publication loop *)

Lemma heap_only_bind {A B} (m : M W A) (k : A -> M W B) :
  heap_only m -> (forall a, heap_only (k a)) -> heap_only (m ≫= k).
Proof.
  intros Hm Hk w b w''. unfold mbind, M_bind.
  destruct (m w) as [a w'|] eqn:Hmw; [|discriminate].
  intros Hkw. rewrite (Hk a w' b w'' Hkw).
  rewrite (Hm w a w' Hmw). reflexivity.
Qed.

Lemma heap_only_ret {A} (a : A) : heap_only (mret a : M W A).
Proof. intros w a' w' [= _ <-]. destruct w; reflexivity. Qed.

Lemma heap_only_get : heap_only (get : M W W).
Proof. intros w a' w' [= _ <-]. destruct w; reflexivity. Qed.

Lemma heap_only_load p : heap_only (load p : M W CC).
Proof.
  intros w a w'. unfold load.
  destruct p as [l|]; [|discriminate].
  destruct (heap w !! l); [|discriminate].
  intros [= _ <-]. destruct w; reflexivity.
Qed.

Lemma heap_only_store p (c : CC) : heap_only (store p c : M W unit).
Proof.
  intros w a w'. unfold store.
  destruct p as [l|]; [|discriminate].
  destruct (heap w !! l); [|discriminate].
  intros [= _ <-]. reflexivity.
Qed.

Lemma heap_only_alloc (c : CC) : heap_only (alloc c : M W loc).
Proof. intros w a w' [= _ <-]. reflexivity. Qed.

Lemma heap_only_mergedConfig : heap_only (mergedConfig : M W Cfg).
Proof.
  unfold mergedConfig, deepcopy_Copy.
  repeat first
    [ apply heap_only_bind; [|intros ?]
    | apply heap_only_ret | apply heap_only_get | apply heap_only_load
    | apply heap_only_store | apply heap_only_alloc
    | match goal with |- heap_only (match ?x with _ => _ end) =>
        destruct x end ].
Qed.

Lemma select_frame (s : Signal) (w w0 : W) :
  select s w = Ok tt w0 ->
  handled w0 = handled w /\ logged w0 = logged w.
Proof.
  destruct s as [next [c|]|]; simpl;
    unfold mbind, M_bind, mret, M_ret, alloc, modify; simpl;
    intros [= <-]; auto.
Qed.

(** C5, amended: when updateGlobals fails while Run processes a local or a
    cloud change signal, Run does not call the update handler, so the
    configuration last handed to it stays the visible one, logs nothing, and
    returns the error: the loop ends there, whatever signals would follow. *)
Theorem Run_returns_updateGlobals_error (s : Signal) (rest : list Signal)
    (w w0 w1 : W) (cfg : Cfg) (cause : string) :
  select s w = Ok tt w0 ->
  mergedConfig w0 = Ok cfg w1 ->
  SetTrustedCAs deps (TrustedCACerts cfg) = Some cause ->
  exists w',
    Run deps (s :: rest) w = Ok (Some (ErrTrustedCAs cause)) w' /\
    w' = set_globals_InstanceId (InstanceId cfg) w1 /\
    handled w' = handled w /\
    logged w' = logged w.
Proof.
  intros Hsel Hmerge Hfail.
  assert (Hturn : Run_turn deps s w
                  = Ok (Some (ErrTrustedCAs cause))
                       (set_globals_InstanceId (InstanceId cfg) w1)).
  { unfold Run_turn, updateGlobals.
    unfold mbind, M_bind, mret, M_ret, modify.
    rewrite Hsel, Hmerge, Hfail. reflexivity. }
  eexists. split.
  - simpl. unfold mbind, M_bind. rewrite Hturn. reflexivity.
  - split; [reflexivity|]. simpl.
    destruct (select_frame s w w0 Hsel) as [Hh Hl].
    rewrite (heap_only_mergedConfig w0 cfg w1 Hmerge). simpl.
    split; assumption.
Qed.

(** When updateGlobals succeeds the turn hands the merged configuration to
    the update handler and the loop goes on. *)
Lemma Run_turn_publishes (s : Signal) (w w0 w1 : W) (cfg : Cfg) :
  select s w = Ok tt w0 ->
  mergedConfig w0 = Ok cfg w1 ->
  SetTrustedCAs deps (TrustedCACerts cfg) = None ->
  Run_turn deps s w
  = Ok None (set_handled (handled w1 ++ [cfg])
               (set_globals_InstanceId (InstanceId cfg) w1)).
Proof.
  intros Hsel Hmerge Hok.
  unfold Run_turn, updateGlobals, updateHandler.
  unfold mbind, M_bind, mret, M_ret, modify.
  rewrite Hsel, Hmerge, Hok. reflexivity.
Qed.

End Properties.

(** * The properties on the concrete setting *)

(** C1 as stated fails for a local Config without Client section:
    mergedConfig dereferences the nil pointer and returns nothing. *)
Lemma mergedConfig_without_Client_panics :
  Role (localCfg serverWorld) = "server" /\
  Client (localCfg serverWorld) = None /\
  no_dangling serverWorld /\
  mergedConfig serverWorld = Panic.
Proof.
  split_and!; try (vm_compute; reflexivity).
  split; vm_compute; [exact I|eexists; reflexivity].
Qed.

Lemma mergedConfig_field_sources_witness :
  exists merged w' mc,
    mergedConfig clientWorld = Ok merged w' /\
    deref (heap w') (Client merged) = Some mc /\
    sourced_by_table (localCfg clientWorld) localClient
      (cloudCfg clientWorld) cloudClient merged mc.
Proof.
  refine (proj1 (mergedConfig_field_sources clientWorld localClient
                   cloudClient _ _)); reflexivity.
Defined.

Lemma mergedConfig_pure_idempotent_witness :
  no_dangling clientWorld /\
  merged_view cachedWorld = merged_view clientWorld.
Proof.
  assert (Hw : no_dangling clientWorld) by (split; eexists; reflexivity).
  split; [exact Hw|].
  refine (proj1 (proj2 (mergedConfig_pure_idempotent clientWorld Hw))
            cachedWorld _ _ _).
  - split; eexists; reflexivity.
  - reflexivity.
  - reflexivity.
Defined.

(** C3 as stated fails for the ETag cache: a poll answered 200 with the
    token "v2" and a document that does not decode leaves "v2" where "v1"
    was. *)
Lemma cloudPoll_malformed_document_moves_etag :
  match cloudPoll sample_deps (origin "v2" (stored malformedDocument))
          cachedWorld with
  | Ok _ w' =>
      last (logged w')
      = Some (Errorf "Error parse cloud config: %s"
                (ErrUnmarshal "yaml: did not find expected node content")) /\
      lastCloudConfigETag cachedWorld !! cloudURL = Some "v1" /\
      lastCloudConfigETag w' !! cloudURL = Some "v2"
  | Panic => False
  end.
Proof. vm_compute. split_and!; reflexivity. Qed.

Lemma cloudPoll_malformed_document_witness :
  exists w',
    cloudPoll sample_deps (origin "v2" (stored malformedDocument)) cachedWorld
    = Ok tt w' /\
    cloudCfg w' = cloudCfg cachedWorld /\
    merged_view w' = merged_view cachedWorld /\
    lastCloudConfigETag w' = {[ cloudURL := "v2" ]}.
Proof.
  destruct (cloudPoll_malformed_document sample_deps
              (origin "v2" (stored malformedDocument)) cachedWorld
              {| StatusCode := 200; resp_Header := {[ etag := "v2" ]};
                 Body := stored malformedDocument |}
              malformedDocument emptyDoc
              "yaml: did not find expected node content")
    as (w' & Hpoll & Hcloud & _ & _ & _ & _ & Hmerged & Hetag).
  - split; eexists; reflexivity.
  - reflexivity.
  - reflexivity.
  - reflexivity.
  - reflexivity.
  - reflexivity.
  - exists w'. split_and!; assumption.
Defined.

Lemma cloudPoll_not_modified_witness :
  exists w',
    cloudPoll sample_deps (origin "v1" (stored documentA)) cachedWorld
    = Ok tt w' /\
    cloudConfigChanged w' = [] /\
    cloudCfg w' = cloudCfg cachedWorld /\
    lastCloudConfigETag w' = lastCloudConfigETag cachedWorld.
Proof.
  destruct (cloudPoll_not_modified sample_deps
              (origin "v1" (stored documentA)) cachedWorld
              {| StatusCode := 304; resp_Header := ∅; Body := [] |})
    as (w' & Hpoll & Hsig & Hcloud & _ & Hetag & _).
  - reflexivity.
  - reflexivity.
  - reflexivity.
  - exists w'. split_and!; assumption.
Defined.

(** C5 as stated fails: with a CA that globals.SetTrustedCAs rejects, Run
    returns the error at the first signal, having logged nothing, and the
    second signal is never processed. *)
Lemma Run_ends_on_updateGlobals_error :
  match Run sample_deps [CloudChanged; CloudChanged] badCAWorld with
  | Ok r w' =>
      r = Some (ErrTrustedCAs "Unable to decode PEM certificate") /\
      logged w' = [] /\ handled w' = []
  | Panic => False
  end.
Proof. vm_compute. split_and!; reflexivity. Qed.

Lemma Run_returns_updateGlobals_error_witness :
  exists w',
    Run sample_deps [CloudChanged; CloudChanged] badCAWorld
    = Ok (Some (ErrTrustedCAs "Unable to decode PEM certificate")) w' /\
    handled w' = handled badCAWorld /\
    logged w' = logged badCAWorld.
Proof.
  pose proof (mergedConfig_ok badCAWorld localClient cloudClient
                eq_refl eq_refl) as Hmerge.
  destruct (Run_returns_updateGlobals_error sample_deps CloudChanged
              [CloudChanged] badCAWorld badCAWorld _ _
              "Unable to decode PEM certificate" eq_refl Hmerge)
    as (w' & Hrun & _ & Hhandled & Hlogged).
  - reflexivity.
  - exists w'. split_and!; assumption.
Defined.

(** C6 as stated fails on the header names.  Polling an origin that speaks
    the package's headers, the second request carries the token under
    X-Lantern-If-None-Match and has no If-None-Match header; polling an
    origin that speaks the headers of HTTP, the token is never recorded and
    the second request carries no header at all. *)
Lemma second_request_header_names :
  match second_request (origin "v1" (stored documentA)) clientWorld with
  | Some req =>
      req_Header req !! "If-None-Match" = None /\
      req_Header req !! "X-Lantern-If-None-Match" = Some "v1"
  | None => False
  end /\
  match second_request (standard_origin "v1" (stored documentA))
          clientWorld with
  | Some req => req_Header req = ∅
  | None => False
  end.
Proof. vm_compute. split_and!; reflexivity. Qed.

Lemma conditional_fetch_scenario_witness :
  exists w1 w2 req2,
    cloudPoll sample_deps (origin "v1" (stored documentA)) clientWorld
    = Ok tt w1 /\
    cloudPoll sample_deps (origin "v1" (stored documentA)) w1 = Ok tt w2 /\
    last (sent w2) = Some req2 /\
    req_Header req2 !! ifNoneMatch = Some "v1" /\
    relay_servers (merged_view w1) = Some [serverA] /\
    relay_servers (merged_view w2) = Some [serverA].
Proof.
  destruct (conditional_fetch_scenario sample_deps
              (origin "v1" (stored documentA))
              (origin "v1" (stored documentA)) clientWorld
              {| StatusCode := 200; resp_Header := {[ etag := "v1" ]};
                 Body := stored documentA |}
              {| StatusCode := 304; resp_Header := ∅; Body := [] |}
              "v1" documentA
              {| doc_Client := Some (set_FrontedServers [serverA]
                                       emptyClientConfig);
                 doc_ProxiedSites := Some emptyProxiedSites;
                 doc_TrustedCAs := [] |}
              (set_FrontedServers [serverA] emptyClientConfig))
    as (w1 & w2 & req2 & Hp1 & Hp2 & Hlast & Hhdr & _ & Hsame & Hrelay).
  - split; eexists; reflexivity.
  - reflexivity.
  - reflexivity.
  - reflexivity.
  - reflexivity.
  - discriminate.
  - reflexivity.
  - reflexivity.
  - reflexivity.
  - reflexivity.
  - reflexivity.
  - exists w1, w2, req2. split_and!; try assumption.
    + rewrite <- Hsame. apply Hrelay. eexists. reflexivity.
    + apply Hrelay. eexists. reflexivity.
Defined.

Lemma cloudPollSleepTime_bounds_witness :
  30 * Second <= cloudPollSleepTime 0 < 90 * Second.
Proof.
  apply (proj2 (cloudPollSleepTime_bounds 0
                  ltac:(unfold Int63n_draw, Nanoseconds,
                          CloudConfigPollInterval, Minute, Second; lia))).
Defined.

(** C8 as stated fails for a client without Client section: the flags stay
    unset. *)
Lemma ApplyDefaults_client_without_Client_section :
  Role (set_Role "client" zeroConfig) = "client" /\
  Client (set_Role "client" zeroConfig) = None /\
  AutoReport (set_Role "client" zeroConfig) = None /\
  AutoLaunch (set_Role "client" zeroConfig) = None /\
  AutoReport (ApplyDefaults sample_deps (set_Role "client" zeroConfig))
  = None /\
  AutoLaunch (ApplyDefaults sample_deps (set_Role "client" zeroConfig))
  = None.
Proof. vm_compute. split_and!; reflexivity. Qed.

Lemma ApplyDefaults_client_only_defaults_witness :
  (AutoReport (ApplyDefaults sample_deps
                 (set_Client (Some 1%positive)
                    (set_Role "client" zeroConfig))) = Some true /\
   AutoLaunch (ApplyDefaults sample_deps
                 (set_Client (Some 1%positive)
                    (set_Role "client" zeroConfig))) = Some false) /\
  (AutoReport (ApplyDefaults sample_deps (set_Role "server" zeroConfig))
   = None /\
   AutoLaunch (ApplyDefaults sample_deps (set_Role "server" zeroConfig))
   = None).
Proof.
  split.
  - apply (proj1 (ApplyDefaults_client_only_defaults sample_deps
                    (set_Client (Some 1%positive)
                       (set_Role "client" zeroConfig))));
      [reflexivity|discriminate].
  - apply (proj2 (ApplyDefaults_client_only_defaults sample_deps
                    (set_Role "server" zeroConfig))).
    reflexivity.
Defined.

Lemma fetchCloudConfig_records_etag_first_witness :
  exists w',
    fetchCloudConfig sample_deps cloudURL
      (origin "v2" (String.list_byte_of_string "not gzip")) cachedWorld
    = Ok (None, Some (ErrGzipReader "gzip: invalid header")) w' /\
    lastETag cachedWorld cloudURL = "v1" /\
    lastETag w' cloudURL = "v2".
Proof.
  destruct (fetchCloudConfig_records_etag_first sample_deps cloudURL
              (origin "v2" (String.list_byte_of_string "not gzip"))
              cachedWorld
              {| StatusCode := 200; resp_Header := {[ etag := "v2" ]};
                 Body := String.list_byte_of_string "not gzip" |})
    as (b & err & w' & Hfetch & _ & Hetag & Hgz).
  - reflexivity.
  - reflexivity.
  - reflexivity.
  - destruct (Hgz "gzip: invalid header" eq_refl) as [-> ->].
    exists w'. split_and!; [assumption|reflexivity|].
    rewrite Hetag. reflexivity.
Defined.

(** In the viper-based variant a role that is neither "client" nor "server"
    is neither downstream nor upstream. *)
Lemma viper_roles_not_complementary :
  viper_IsDownstream "relay" = false /\ viper_IsUpstream "relay" = false.
Proof. split; reflexivity. Qed.

(** * Further properties *)

Section MoreProperties.
Context {ChainedServerInfo Masquerade ServerConfig : Type}.
Context (deps : Deps ChainedServerInfo Masquerade).
Local Abbreviation Cfg := (Config ServerConfig).
Local Abbreviation CC := (ClientConfig ChainedServerInfo Masquerade).
Local Abbreviation W := (World ChainedServerInfo Masquerade ServerConfig).
Local Abbreviation Doc := (cloudDoc ChainedServerInfo Masquerade).

(** ** ApplyDefaults, field by field *)

Lemma general_defaults_fields (cfg : Cfg) :
  general_defaults deps cfg
  = set_AutoLaunch (AutoLaunch cfg)
      (set_AutoReport (AutoReport cfg) (defaulted deps cfg)).
Proof.
  destruct cfg as [v cc ca a r i cp mp ui ar al st sv cl ps tc].
  unfold general_defaults, defaulted, defaulted_Role, defaulted_Stats.
  unfold default_Role; cbn -[decide]; destruct (decide (r = ""));
  unfold default_Addr; cbn -[decide]; destruct (decide (a = ""));
  unfold default_UIAddr; cbn -[decide]; destruct (decide (ui = ""));
  unfold default_CloudConfig; cbn -[decide]; destruct (decide (cc = ""));
  unfold default_InstanceId; cbn -[decide]; destruct (decide (i = ""));
  unfold default_Stats; cbn -[decide]; destruct st as [s|];
  unfold default_StatshubAddr; cbn -[decide];
  try destruct (decide (StatshubAddr s = ""));
  try reflexivity.
  all: cbn -[decide]; try (rewrite decide_True by reflexivity); reflexivity.
Qed.

Lemma ApplyDefaults_defaulted (cfg : Cfg) :
  ApplyDefaults deps cfg = defaulted deps cfg.
Proof.
  rewrite ApplyDefaults_unfold, general_defaults_fields.
  destruct cfg as [v cc ca a r i cp mp ui ar al st sv cl ps tc].
  unfold defaulted, client_defaults_apply. cbn -[decide bool_decide].
  case_decide.
  - rewrite bool_decide_eq_true_2 by assumption.
    unfold applyClientDefaults. destruct ar, al; reflexivity.
  - rewrite bool_decide_eq_false_2 by assumption. reflexivity.
Qed.

Lemma default_twice (d x : string) :
  (if decide ((if decide (x = "") then d else x) = "") then d
   else if decide (x = "") then d else x)
  = if decide (x = "") then d else x.
Proof. repeat case_decide; congruence. Qed.

Lemma defaulted_Stats_twice (cfg cfg' : Cfg) :
  Stats cfg' = Some (defaulted_Stats deps cfg) ->
  defaulted_Stats deps cfg' = defaulted_Stats deps cfg.
Proof.
  intros Hs. unfold defaulted_Stats at 1. rewrite Hs.
  case_decide as He; [|reflexivity].
  unfold defaulted_Stats in *. destruct (Stats cfg) as [s|]; simpl in *.
  - destruct (decide (StatshubAddr s = "")); simpl in *.
    + reflexivity.
    + contradiction.
  - reflexivity.
Qed.

Lemma defaulted_Role_twice (cfg cfg' : Cfg) :
  Role cfg' = defaulted_Role cfg -> defaulted_Role cfg' = defaulted_Role cfg.
Proof.
  intros Hr. unfold defaulted_Role at 1. rewrite Hr.
  unfold defaulted_Role. repeat case_decide; congruence.
Qed.

(** X1: ApplyDefaults is idempotent: applied to its own result it changes
    nothing. *)
Theorem ApplyDefaults_idempotent (cfg : Cfg) :
  ApplyDefaults deps (ApplyDefaults deps cfg) = ApplyDefaults deps cfg.
Proof.
  rewrite !ApplyDefaults_defaulted.
  assert (Hrole : defaulted_Role (defaulted deps cfg) = defaulted_Role cfg)
    by (apply defaulted_Role_twice; reflexivity).
  assert (Hstats : defaulted_Stats deps (defaulted deps cfg)
                   = defaulted_Stats deps cfg)
    by (apply defaulted_Stats_twice; reflexivity).
  assert (Hcda : client_defaults_apply (defaulted deps cfg)
                 = client_defaults_apply cfg).
  { unfold client_defaults_apply. rewrite Hrole. reflexivity. }
  unfold defaulted at 1. rewrite Hrole, Hstats, Hcda.
  unfold defaulted. cbn -[decide client_defaults_apply defaulted_Role
                            defaulted_Stats].
  rewrite !default_twice.
  destruct (client_defaults_apply cfg); reflexivity.
Qed.

(** X2: ApplyDefaults leaves a configuration one can run with: the role,
    the two addresses and the cloud configuration URL are not empty and
    there is a stats section; the instance id and the stats address are not
    empty either when the node id and the -statshub flag are not. *)
Theorem ApplyDefaults_minimum_viable (cfg : Cfg) :
  Role (ApplyDefaults deps cfg) <> "" /\
  Addr (ApplyDefaults deps cfg) <> "" /\
  UIAddr (ApplyDefaults deps cfg) <> "" /\
  CloudConfig (ApplyDefaults deps cfg) <> "" /\
  (nodeID deps <> "" -> InstanceId (ApplyDefaults deps cfg) <> "") /\
  exists s, Stats (ApplyDefaults deps cfg) = Some s /\
            (statshubAddr deps <> "" -> StatshubAddr s <> "").
Proof.
  rewrite ApplyDefaults_defaulted. unfold defaulted, defaulted_Role. simpl.
  split_and!; try (case_decide; [discriminate|assumption]).
  - intros Hn. case_decide; assumption.
  - eexists. split; [reflexivity|]. intros Hs.
    unfold defaulted_Stats. destruct (Stats cfg) as [s|]; simpl.
    + case_decide; simpl; assumption.
    + assumption.
Qed.

(** X3: ApplyDefaults never replaces a value that is set, and it leaves the
    version, the CA of the cloud configuration, the profiling files, the
    Server and Client sections, the proxied sites and the trusted CAs as
    they are. *)
Theorem ApplyDefaults_keeps_what_is_set (cfg : Cfg) :
  (Role cfg <> "" -> Role (ApplyDefaults deps cfg) = Role cfg) /\
  (Addr cfg <> "" -> Addr (ApplyDefaults deps cfg) = Addr cfg) /\
  (UIAddr cfg <> "" -> UIAddr (ApplyDefaults deps cfg) = UIAddr cfg) /\
  (CloudConfig cfg <> "" ->
   CloudConfig (ApplyDefaults deps cfg) = CloudConfig cfg) /\
  (InstanceId cfg <> "" ->
   InstanceId (ApplyDefaults deps cfg) = InstanceId cfg) /\
  (forall s, Stats cfg = Some s -> StatshubAddr s <> "" ->
             Stats (ApplyDefaults deps cfg) = Some s) /\
  (forall b, AutoReport cfg = Some b ->
             AutoReport (ApplyDefaults deps cfg) = Some b) /\
  (forall b, AutoLaunch cfg = Some b ->
             AutoLaunch (ApplyDefaults deps cfg) = Some b) /\
  Version (ApplyDefaults deps cfg) = Version cfg /\
  CloudConfigCA (ApplyDefaults deps cfg) = CloudConfigCA cfg /\
  CpuProfile (ApplyDefaults deps cfg) = CpuProfile cfg /\
  MemProfile (ApplyDefaults deps cfg) = MemProfile cfg /\
  Server (ApplyDefaults deps cfg) = Server cfg /\
  Client (ApplyDefaults deps cfg) = Client cfg /\
  ProxiedSites (ApplyDefaults deps cfg) = ProxiedSites cfg /\
  TrustedCAs (ApplyDefaults deps cfg) = TrustedCAs cfg.
Proof.
  rewrite ApplyDefaults_defaulted. unfold defaulted, defaulted_Role. simpl.
  split_and!; try reflexivity;
    try (intros Hne; rewrite decide_False by assumption; reflexivity).
  - intros s Hs Hne. unfold defaulted_Stats. rewrite Hs.
    rewrite decide_False by assumption. reflexivity.
  - intros b Hb. rewrite Hb. destruct (client_defaults_apply cfg);
      reflexivity.
  - intros b Hb. rewrite Hb. destruct (client_defaults_apply cfg);
      reflexivity.
Qed.

(** X4: ApplyDefaults applies the client defaults exactly when there is a
    Client section and the role is "client" or empty (the empty role has
    become "client" by then); for every other role, and without Client
    section, it leaves AutoReport and AutoLaunch as they are.  The
    configuration it returns is downstream exactly when the role was
    "client" or empty. *)
Theorem ApplyDefaults_client_defaults_exactly (cfg : Cfg) :
  (Client cfg <> None -> Role cfg = "" \/ Role cfg = "client" ->
   AutoReport (ApplyDefaults deps cfg) = Some (default true (AutoReport cfg))
   /\ AutoLaunch (ApplyDefaults deps cfg)
      = Some (default false (AutoLaunch cfg))) /\
  (Client cfg = None \/ (Role cfg <> "" /\ Role cfg <> "client") ->
   AutoReport (ApplyDefaults deps cfg) = AutoReport cfg /\
   AutoLaunch (ApplyDefaults deps cfg) = AutoLaunch cfg) /\
  (IsDownstream (ApplyDefaults deps cfg) = true
   <-> Role cfg = "" \/ Role cfg = "client").
Proof.
  rewrite ApplyDefaults_defaulted.
  assert (Hrole : defaulted_Role cfg = "client"
                  <-> Role cfg = "" \/ Role cfg = "client").
  { unfold defaulted_Role. case_decide; split; auto.
    intros [?|?]; congruence. }
  split_and!.
  - intros Hc Hr. unfold defaulted. simpl.
    unfold client_defaults_apply.
    rewrite bool_decide_eq_true_2 by (split; [assumption|apply Hrole, Hr]).
    auto.
  - intros Hn. unfold defaulted. simpl. unfold client_defaults_apply.
    rewrite bool_decide_eq_false_2; [auto|].
    intros [Hc Hr]. apply Hrole in Hr. destruct Hn as [Hn|[Hn1 Hn2]];
      [contradiction|]. destruct Hr; contradiction.
  - rewrite IsDownstream_true. unfold defaulted. simpl. exact Hrole.
Qed.

(** ** The conditional fetch, every outcome *)

Lemma fetchCloudConfig_cases (url : string) Do (w : W) :
  fetchCloudConfig deps url Do w =
  match newRequestError deps url with
  | Some err =>
      Ok (None, Some (ErrConstructRequest url err))
         (set_logged
            (logged w
               ++ [Debugf "Checking for cloud configuration at: %s" [url]])
            w)
  | None =>
      match Do (request_of (lastCloudConfigETag w) url) with
      | inl err => Ok (None, Some (ErrFetch url err)) (requested w url)
      | inr resp =>
          if decide (StatusCode resp = 304) then
            Ok (None, None)
               (set_logged (logged (requested w url)
                              ++ [Debugf "Config unchanged in cloud" []])
                  (requested w url))
          else if decide (StatusCode resp <> 200) then
            Ok (None, Some (ErrStatus (StatusCode resp))) (requested w url)
          else
            let w' := set_lastCloudConfigETag
                        (<[url := Header_Get resp etag]>
                           (lastCloudConfigETag w))
                        (requested w url) in
            match gunzip deps (Body resp) with
            | GzBadHeader err => Ok (None, Some (ErrGzipReader err)) w'
            | GzReadError read err =>
                Ok (Some read, Some (ErrReadAll err)) w'
            | GzOk data => Ok (Some data, None) w'
            end
      end
  end.
Proof.
  destruct (newRequestError deps url) as [err|] eqn:Hnew.
  - unfold fetchCloudConfig, NewRequest. rewrite Hnew. reflexivity.
  - destruct (Do (request_of (lastCloudConfigETag w) url))
      as [err|resp] eqn:HDo.
    + unfold fetchCloudConfig, NewRequest. rewrite Hnew.
      unfold mbind, M_bind, mret, M_ret, log, modify, get, lastETag. simpl.
      rewrite request_built, HDo. reflexivity.
    + apply fetchCloudConfig_eq; assumption.
Qed.

(** X5: whatever the HTTP client answers, fetchCloudConfig returns, and of
    the package state it changes the log, the record of requests and the
    ETag cache only; in the cache it touches no entry but that of its URL,
    and that one only when the status is 200, when it becomes the ETag
    header of the response. *)
Theorem fetchCloudConfig_cache_discipline (url : string) Do (w : W) :
  exists r w',
    fetchCloudConfig deps url Do w = Ok r w' /\
    w' = set_logged (logged w')
           (set_sent (sent w')
              (set_lastCloudConfigETag (lastCloudConfigETag w') w)) /\
    (forall url', url' <> url ->
       lastCloudConfigETag w' !! url' = lastCloudConfigETag w !! url') /\
    (lastCloudConfigETag w' = lastCloudConfigETag w \/
     exists resp,
       Do (request_of (lastCloudConfigETag w) url) = inr resp /\
       StatusCode resp = 200 /\
       lastCloudConfigETag w'
       = <[url := Header_Get resp etag]> (lastCloudConfigETag w)).
Proof.
  rewrite fetchCloudConfig_cases.
  destruct (newRequestError deps url) as [err|].
  { eexists _, _. split; [reflexivity|]. simpl. split_and!; auto. }
  destruct (Do (request_of (lastCloudConfigETag w) url)) as [err|resp].
  { eexists _, _. split; [reflexivity|]. simpl. split_and!; auto. }
  case_decide as H304.
  { eexists _, _. split; [reflexivity|]. simpl. split_and!; auto. }
  case_decide as H200.
  { eexists _, _. split; [reflexivity|]. simpl. split_and!; auto. }
  assert (StatusCode resp = 200)
    by (destruct (decide (StatusCode resp = 200));
        [assumption|contradiction]).
  cbv zeta.
  destruct (gunzip deps (Body resp)); eexists _, _;
    (split; [reflexivity|]); simpl;
    (split_and!; [reflexivity
                 | intros url' Hne; apply lookup_insert_ne; congruence
                 | right; eexists; split_and!; eauto]).
Qed.

(** X6: what fetchCloudConfig returns tells the outcome apart: no bytes and
    no error exactly when the response has status 304; bytes and no error
    exactly when the status is 200 and the body decompresses, the bytes
    being the decompressed body (an empty body gives empty bytes, not
    nil). *)
Theorem fetchCloudConfig_result_meaning (url : string) Do (w : W) b err w' :
  fetchCloudConfig deps url Do w = Ok (b, err) w' ->
  (b = None /\ err = None <->
   newRequestError deps url = None /\
   exists resp,
     Do (request_of (lastCloudConfigETag w) url) = inr resp /\
     StatusCode resp = 304) /\
  (forall data,
     b = Some data /\ err = None <->
     newRequestError deps url = None /\
     exists resp,
       Do (request_of (lastCloudConfigETag w) url) = inr resp /\
       StatusCode resp = 200 /\ gunzip deps (Body resp) = GzOk data).
Proof.
  rewrite fetchCloudConfig_cases.
  destruct (newRequestError deps url) as [e|].
  { intros [= <- <- <-]. split; [|intros data];
      (split; [intros [_ [=]]|intros [[=] _]]). }
  destruct (Do (request_of (lastCloudConfigETag w) url)) as [e|resp].
  { intros [= <- <- <-]. split; [|intros data];
      (split; [intros [_ [=]]|intros [_ (resp & [=] & _)]]). }
  case_decide as H304.
  { intros [= <- <- <-]. split.
    - split; [intros _; split; [reflexivity|eauto]|auto].
    - intros data. split; [intros [[=] _]|].
      intros [_ (resp' & [= <-] & H200 & _)]. congruence. }
  case_decide as H200.
  { intros [= <- <- <-]. split; [|intros data].
    - split; [intros [_ [=]]|].
      intros [_ (resp' & [= <-] & H304')]. contradiction.
    - split; [intros [[=] _]|].
      intros [_ (resp' & [= <-] & H200' & _)]. contradiction. }
  assert (Hs : StatusCode resp = 200)
    by (destruct (decide (StatusCode resp = 200));
        [assumption|contradiction]).
  cbv zeta.
  destruct (gunzip deps (Body resp)) as [c|rd c|data'] eqn:Hgz;
    intros [= <- <- <-]; (split; [|intros data]).
  - split; [intros [_ [=]]|].
    intros [_ (resp' & [= <-] & H304')]. contradiction.
  - split; [intros [[=] _]|].
    intros [_ (resp' & [= <-] & _ & Hgz')]. congruence.
  - split; [intros [[=] _]|].
    intros [_ (resp' & [= <-] & H304')]. contradiction.
  - split; [intros [_ [=]]|].
    intros [_ (resp' & [= <-] & _ & Hgz')]. congruence.
  - split; [intros [[=] _]|].
    intros [_ (resp' & [= <-] & H304')]. contradiction.
  - split.
    + intros [[= <-] _]. split; [reflexivity|]. eauto.
    + intros [_ (resp' & [= <-] & _ & Hgz')]. split; congruence.
Qed.

Lemma fetchCloudConfig_sent (url : string) Do (w : W) r w' :
  fetchCloudConfig deps url Do w = Ok r w' ->
  sent w' = match newRequestError deps url with
            | Some _ => sent w
            | None => sent w ++ [request_of (lastCloudConfigETag w) url]
            end.
Proof.
  rewrite fetchCloudConfig_cases.
  destruct (newRequestError deps url) as [e|]; [intros [= _ <-]; reflexivity|].
  destruct (Do (request_of (lastCloudConfigETag w) url)) as [e|resp];
    [intros [= _ <-]; reflexivity|].
  case_decide; [intros [= _ <-]; reflexivity|].
  case_decide; [intros [= _ <-]; reflexivity|].
  cbv zeta. destruct (gunzip deps (Body resp)); intros [= _ <-]; reflexivity.
Qed.

(** X7: fetchCloudConfig hands the HTTP client one request, a GET of the
    URL with the connection to be closed, which carries the header
    X-Lantern-If-None-Match, set to the cached token of the URL, exactly
    when that token is not empty, and no other header; when the request
    cannot be constructed it hands over none and returns that error. *)
Theorem fetchCloudConfig_request (url : string) Do (w : W) r w' :
  fetchCloudConfig deps url Do w = Ok r w' ->
  (newRequestError deps url = None ->
   exists req,
     sent w' = sent w ++ [req] /\
     req_Method req = "GET" /\ req_URL req = url /\ req_Close req = true /\
     (lastETag w url = "" -> req_Header req = ∅) /\
     (lastETag w url <> "" ->
      req_Header req = {[ ifNoneMatch := lastETag w url ]})) /\
  (forall e, newRequestError deps url = Some e ->
             sent w' = sent w /\
             r = (None, Some (ErrConstructRequest url e))).
Proof.
  intros Hf. pose proof (fetchCloudConfig_sent url Do w r w' Hf) as Hsent.
  split.
  - intros Hnew. rewrite Hnew in Hsent.
    exists (request_of (lastCloudConfigETag w) url).
    unfold request_of, lastETag. simpl. split_and!; auto.
    + intros He. rewrite decide_False; [reflexivity|]. intros Hne.
      apply Hne, He.
    + intros Hne. rewrite decide_True by assumption. reflexivity.
  - intros e Hnew. rewrite Hnew in Hsent. split; [assumption|].
    rewrite fetchCloudConfig_cases, Hnew in Hf. congruence.
Qed.

(** X8: the token goes round through the cache: after a response with
    status 200, whatever its body, the next request for the same URL carries
    X-Lantern-If-None-Match with the X-Lantern-Etag of that response, and
    carries no header when the response had none or an empty one, also when
    a token was cached before. *)
Theorem fetchCloudConfig_token_round_trip (url : string) Do Do2 (w : W) resp
    r w' r2 w2 :
  newRequestError deps url = None ->
  Do (request_of (lastCloudConfigETag w) url) = inr resp ->
  StatusCode resp = 200 ->
  fetchCloudConfig deps url Do w = Ok r w' ->
  fetchCloudConfig deps url Do2 w' = Ok r2 w2 ->
  exists req,
    last (sent w2) = Some req /\
    (forall v, resp_Header resp !! etag = Some v -> v <> "" ->
               req_Header req = {[ ifNoneMatch := v ]}) /\
    (resp_Header resp !! etag = None \/ resp_Header resp !! etag = Some "" ->
     req_Header req = ∅).
Proof.
  intros Hnew HDo H200 Hf Hf2.
  pose proof (fetchCloudConfig_sent url Do2 w' r2 w2 Hf2) as Hsent.
  rewrite Hnew in Hsent.
  assert (Hcache : lastCloudConfigETag w' !! url
                   = Some (Header_Get resp etag)).
  { rewrite fetchCloudConfig_cases, Hnew, HDo in Hf.
    rewrite decide_False in Hf by (rewrite H200; discriminate).
    rewrite decide_False in Hf by (intros Hne; apply Hne, H200).
    cbv zeta in Hf.
    destruct (gunzip deps (Body resp)); injection Hf as _ <-; simpl;
      apply lookup_insert_eq. }
  exists (request_of (lastCloudConfigETag w') url).
  split; [rewrite Hsent; apply last_snoc|].
  unfold request_of. rewrite Hcache. simpl. unfold Header_Get. split.
  - intros v Hv Hne. rewrite Hv. simpl.
    rewrite decide_True by assumption. reflexivity.
  - intros [Hv|Hv]; rewrite Hv; simpl; reflexivity.
Qed.

Lemma fetchCloudConfig_other_urls (url : string) Do (w : W) r w' :
  fetchCloudConfig deps url Do w = Ok r w' ->
  forall url', url' <> url ->
    lastCloudConfigETag w' !! url' = lastCloudConfigETag w !! url'.
Proof.
  rewrite fetchCloudConfig_cases.
  destruct (newRequestError deps url) as [e|]; [intros [= _ <-]; auto|].
  destruct (Do (request_of (lastCloudConfigETag w) url)) as [e|resp];
    [intros [= _ <-]; auto|].
  case_decide; [intros [= _ <-]; auto|].
  case_decide; [intros [= _ <-]; auto|].
  cbv zeta. destruct (gunzip deps (Body resp)); intros [= _ <-] url' Hne;
    simpl; apply lookup_insert_ne; congruence.
Qed.

(** What a fetch returns, sends and leaves in its cache entry depends on
    the package state through that entry only. *)
Lemma fetchCloudConfig_depends (url : string) Do (wa wb : W) ra wa' rb wb' :
  lastCloudConfigETag wa !! url = lastCloudConfigETag wb !! url ->
  fetchCloudConfig deps url Do wa = Ok ra wa' ->
  fetchCloudConfig deps url Do wb = Ok rb wb' ->
  ra = rb /\
  (exists reqs, sent wa' = sent wa ++ reqs /\ sent wb' = sent wb ++ reqs) /\
  lastCloudConfigETag wa' !! url = lastCloudConfigETag wb' !! url.
Proof.
  intros Hentry.
  assert (Hreq : request_of (lastCloudConfigETag wa) url
                 = request_of (lastCloudConfigETag wb) url)
    by (unfold request_of; rewrite Hentry; reflexivity).
  rewrite !fetchCloudConfig_cases. rewrite Hreq.
  destruct (newRequestError deps url) as [e|].
  { intros [= <- <-] [= <- <-]. simpl. split_and!; auto.
    exists []. rewrite !app_nil_r. auto. }
  destruct (Do (request_of (lastCloudConfigETag wb) url)) as [e|resp].
  { intros [= <- <-] [= <- <-]. simpl. rewrite Hreq. split_and!; eauto. }
  case_decide.
  { intros [= <- <-] [= <- <-]. simpl. rewrite Hreq. split_and!; eauto. }
  case_decide.
  { intros [= <- <-] [= <- <-]. simpl. rewrite Hreq. split_and!; eauto. }
  cbv zeta.
  destruct (gunzip deps (Body resp)); intros [= <- <-] [= <- <-]; simpl;
    rewrite Hreq, !lookup_insert_eq; split_and!; eauto.
Qed.

(** X9: the cache is per URL: after a fetch of one URL, the fetch of
    another returns the result and sends the request it would have
    returned and sent without the first, leaves the same token for its
    URL, and leaves the token of the first URL alone. *)
Theorem fetchCloudConfig_per_url (url1 url2 : string) Do1 Do2 (w : W)
    r1 w1 r2 w2 r2' w2' :
  url1 <> url2 ->
  fetchCloudConfig deps url1 Do1 w = Ok r1 w1 ->
  fetchCloudConfig deps url2 Do2 w1 = Ok r2 w2 ->
  fetchCloudConfig deps url2 Do2 w = Ok r2' w2' ->
  r2 = r2' /\
  (exists reqs, sent w2 = sent w1 ++ reqs /\ sent w2' = sent w ++ reqs) /\
  lastCloudConfigETag w2 !! url2 = lastCloudConfigETag w2' !! url2 /\
  lastCloudConfigETag w2 !! url1 = lastCloudConfigETag w1 !! url1.
Proof.
  intros Hne Hf1 Hf2 Hf2'.
  pose proof (fetchCloudConfig_other_urls url1 Do1 w r1 w1 Hf1 url2) as H1.
  pose proof (fetchCloudConfig_other_urls url2 Do2 w1 r2 w2 Hf2 url1) as H2.
  destruct (fetchCloudConfig_depends url2 Do2 w1 w r2 w2 r2' w2')
    as (Hr & Hs & He); try assumption.
  - apply H1. congruence.
  - split_and!; auto.
Qed.

(** ** The poll cycle, every outcome *)

Lemma cloudPoll_after_fetch (Do : Request -> string + Response) (w : W) :
  cloudPoll deps Do w =
  match fetchCloudConfig deps (CloudConfig (localCfg w)) Do w with
  | Ok (_, Some e) w1 =>
      Ok tt (set_logged
               (logged w1 ++ [Errorf "Error fetch cloud config: %s" e]) w1)
  | Ok (None, None) w1 => Ok tt w1
  | Ok (Some b, None) w1 => apply_document deps b w1
  | Panic => Panic
  end.
Proof.
  unfold cloudPoll, get. unfold mbind at 1, M_bind at 1.
  unfold mbind at 1, M_bind at 1.
  destruct (fetchCloudConfig deps (CloudConfig (localCfg w)) Do w)
    as [[b [e|]] w1|]; try reflexivity.
  all: destruct b; reflexivity.
Qed.

Lemma apply_document_cases (b : bytes) (w : W) :
  apply_document deps b w =
  let l := fresh (dom (heap w)) in
  match yaml_Unmarshal deps b emptyDoc with
  | (d, Some cause) =>
      Ok tt (set_logged
               (logged w ++ [Errorf "Error parse cloud config: %s"
                               (ErrUnmarshal cause)])
               (set_heap
                  (<[l := default emptyClientConfig (doc_Client d)]> (heap w))
                  w))
  | (d, None) =>
      match doc_Client d with
      | None => Panic
      | Some c =>
          Ok tt (set_cloudConfigChanged (cloudConfigChanged w ++ [true])
                   (set_cloudCfg
                      {| cloud_Client := Some l;
                         cloud_ProxiedSites := doc_ProxiedSites d;
                         cloud_TrustedCAs := doc_TrustedCAs d |}
                      (set_logged (logged w ++ [Debug "Applying cloud config"])
                         (set_heap
                            (<[l := set_FrontedServers
                                      (sortFrontedServers deps
                                         (FrontedServers c)) c]> (heap w))
                            w))))
      end
  end.
Proof.
  unfold apply_document, emptyCloudConfig, fromBytes, to_doc, of_doc,
    SortFrontedServers.
  unfold mbind, M_bind, mret, M_ret, alloc, load, store, log, modify.
  simpl. rewrite lookup_insert_eq.
  fold (@emptyDoc ChainedServerInfo Masquerade).
  destruct (yaml_Unmarshal deps b emptyDoc) as [d [cause|]].
  - destruct (doc_Client d) as [c|]; simpl.
    + rewrite lookup_insert_eq. simpl. rewrite insert_insert_eq. reflexivity.
    + reflexivity.
  - destruct (doc_Client d) as [c|]; simpl.
    + repeat (rewrite lookup_insert_eq; simpl).
      rewrite !insert_insert_eq. reflexivity.
    + reflexivity.
Qed.

Lemma cloudPoll_effect (Do : Request -> string + Response) (w w' : W) :
  cloudPoll deps Do w = Ok tt w' ->
  localCfg w' = localCfg w /\
  handled w' = handled w /\
  globals_InstanceId w' = globals_InstanceId w /\
  heap w ⊆ heap w' /\
  (exists reqs, sent w' = sent w ++ reqs /\ (length reqs <= 1)%nat) /\
  ((cloudCfg w' = cloudCfg w /\
    cloudConfigChanged w' = cloudConfigChanged w) \/
   published Do w w').
Proof.
  rewrite cloudPoll_after_fetch, fetchCloudConfig_cases.
  destruct (newRequestError deps (CloudConfig (localCfg w))) as [e|].
  { intros [= <-]. simpl. split_and!; auto.
    exists []. rewrite app_nil_r. simpl. auto. }
  destruct (Do (request_of (lastCloudConfigETag w)
                  (CloudConfig (localCfg w)))) as [e|resp] eqn:HDo.
  { intros [= <-]. simpl. split_and!; eauto. }
  case_decide as H304.
  { intros [= <-]. simpl. split_and!; eauto. }
  case_decide as H200.
  { intros [= <-]. simpl. split_and!; eauto. }
  assert (Hs : StatusCode resp = 200)
    by (destruct (decide (StatusCode resp = 200));
        [assumption|contradiction]).
  cbv zeta.
  destruct (gunzip deps (Body resp)) as [c|rd c|b].
  { intros [= <-]. simpl. split_and!; eauto. }
  { intros [= <-]. simpl. split_and!; eauto. }
  rewrite apply_document_cases. cbv zeta.
  destruct (yaml_Unmarshal deps b emptyDoc) as [d [cause|]].
  { intros [= <-]. simpl. split_and!; eauto.
    apply insert_fresh_subseteq. }
  destruct (doc_Client d) as [c|]; [|discriminate].
  intros [= <-]. simpl. split_and!; eauto.
  - apply insert_fresh_subseteq.
  - right. unfold published. simpl. split_and!; eauto.
    + rewrite lookup_insert_eq. eauto.
    + apply last_snoc.
Qed.

(** X10: a poll that returns either leaves the stored cloudConfig and the
    change channel as they were, or stores a new cloudConfig that has a
    Client section and sends one value on the channel, which it does only
    after a response with status 200.  It never changes the local
    configuration or the objects of earlier configurations, never calls the
    update handler, and makes at most one request. *)
Theorem cloudPoll_publish_discipline (Do : Request -> string + Response)
    (w w' : W) :
  no_dangling w ->
  cloudPoll deps Do w = Ok tt w' ->
  no_dangling w' /\
  localCfg w' = localCfg w /\ local_input w' = local_input w /\
  handled w' = handled w /\
  heap w ⊆ heap w' /\
  (exists reqs, sent w' = sent w ++ reqs /\ (length reqs <= 1)%nat) /\
  ((cloudCfg w' = cloudCfg w /\ cloud_input w' = cloud_input w /\
    cloudConfigChanged w' = cloudConfigChanged w) \/
   published Do w w').
Proof.
  intros Hw Hpoll.
  destruct (cloudPoll_effect Do w w' Hpoll)
    as (Hlocal & Hhandled & _ & Hsub & Hsent & Hcases).
  assert (Hli : local_input w' = local_input w).
  { unfold local_input. rewrite Hlocal. apply view_mono; [assumption|].
    apply Hw. }
  assert (Hal : allocated (heap w') (Client (localCfg w'))).
  { rewrite Hlocal. eapply allocated_mono; [eassumption|apply Hw]. }
  destruct Hcases as [[Hcloud Hsig]|Hpub].
  - split_and!; auto.
    + split; [assumption|]. rewrite Hcloud.
      eapply allocated_mono; [eassumption|apply Hw].
    + left. split_and!; auto. unfold cloud_input. rewrite Hcloud.
      apply cloud_view_mono; [assumption|apply Hw].
  - split_and!; auto. split; [assumption|].
    destruct Hpub as (_ & _ & [c Hc] & _).
    eapply deref_allocated. eassumption.
Qed.



(** X13: a poll that applies a document replaces the cloud configuration
    wholesale: what the new cloudConfig shows is the document decoded into
    the empty cloudConfig, with the fronted servers sorted, whatever cloud
    configuration was stored before. *)
Theorem cloudPoll_replaces_wholesale (Do : Request -> string + Response)
    (wa wb : W) resp b d c :
  no_dangling wa -> no_dangling wb ->
  newRequestError deps (CloudConfig (localCfg wa)) = None ->
  newRequestError deps (CloudConfig (localCfg wb)) = None ->
  Do (request_of (lastCloudConfigETag wa) (CloudConfig (localCfg wa)))
  = inr resp ->
  Do (request_of (lastCloudConfigETag wb) (CloudConfig (localCfg wb)))
  = inr resp ->
  StatusCode resp = 200 ->
  gunzip deps (Body resp) = GzOk b ->
  yaml_Unmarshal deps b emptyDoc = (d, None) ->
  doc_Client d = Some c ->
  exists wa' wb',
    cloudPoll deps Do wa = Ok tt wa' /\
    cloudPoll deps Do wb = Ok tt wb' /\
    cloud_input wa' = cloud_input wb' /\
    cloud_input wa'
    = {| doc_Client :=
           Some (set_FrontedServers
                   (sortFrontedServers deps (FrontedServers c)) c);
         doc_ProxiedSites := doc_ProxiedSites d;
         doc_TrustedCAs := doc_TrustedCAs d |}.
Proof.
  intros Hwa Hwb Hna Hnb HDa HDb H200 Hgz Hyaml Hc.
  destruct (cloudPoll_new_document deps Do wa resp b d c Hwa Hna HDa H200 Hgz
              Hyaml Hc) as (wa' & Hpa & _ & _ & _ & Hca & _).
  destruct (cloudPoll_new_document deps Do wb resp b d c Hwb Hnb HDb H200 Hgz
              Hyaml Hc) as (wb' & Hpb & _ & _ & _ & Hcb & _).
  exists wa', wb'. split_and!; congruence.
Qed.

(** ** The publication loop, turn by turn *)

Lemma select_effect (s : Signal) (w : W) cc :
  with_client s ->
  deref (heap w) (cloud_Client (cloudCfg w)) = Some cc ->
  is_Some (deref (heap w) (Client (localCfg w))) ->
  exists w0,
    select s w = Ok tt w0 /\
    is_Some (deref (heap w0) (Client (localCfg w0))) /\
    deref (heap w0) (cloud_Client (cloudCfg w0)) = Some cc /\
    w0 = set_localCfg (localCfg w0) (set_heap (heap w0) w) /\
    heap w ⊆ heap w0 /\
    set_Client None (localCfg w0)
    = match s with
      | Next next _ => set_Client None next
      | CloudChanged => set_Client None (localCfg w)
      end.
Proof.
  intros Hs Hcc Hlc. destruct s as [next [c|]|]; simpl in Hs; [|done|].
  - eexists. split; [reflexivity|]. simpl.
    pose proof (insert_fresh_subseteq (heap w) c) as Hsub.
    split_and!; auto.
    + rewrite lookup_insert_eq. eauto.
    + rewrite (deref_mono (heap w)); [assumption|assumption|].
      eapply deref_allocated; eassumption.
  - exists w. split; [reflexivity|]. split_and!; auto.
    destruct w; reflexivity.
Qed.

Lemma Run_turn_cases (s : Signal) (w w0 : W) lc cc :
  select s w = Ok tt w0 ->
  deref (heap w0) (Client (localCfg w0)) = Some lc ->
  deref (heap w0) (cloud_Client (cloudCfg w0)) = Some cc ->
  let l := fresh (dom (heap w0)) in
  let cfg := set_TrustedCAs (cloud_TrustedCAs (cloudCfg w0))
               (set_ProxiedSites (cloud_ProxiedSites (cloudCfg w0))
                  (set_Client (Some l) (localCfg w0))) in
  let w1 := set_globals_InstanceId (InstanceId (localCfg w0))
              (set_heap (<[l := merged_client lc cc]> (heap w0)) w0) in
  Run_turn deps s w =
  match SetTrustedCAs deps (map Cert (cloud_TrustedCAs (cloudCfg w0))) with
  | Some cause => Ok (Some (ErrTrustedCAs cause)) w1
  | None => Ok None (set_handled (handled w0 ++ [cfg]) w1)
  end.
Proof.
  intros Hsel Hlc Hcc. cbv zeta.
  pose proof (mergedConfig_ok w0 lc cc Hlc Hcc) as Hm.
  unfold Run_turn, updateGlobals, updateHandler, TrustedCACerts.
  unfold mbind, M_bind, mret, M_ret, modify.
  rewrite Hsel, Hm. simpl.
  destruct (SetTrustedCAs deps (map Cert (cloud_TrustedCAs (cloudCfg w0))));
    reflexivity.
Qed.

(** X14: a turn of Run, when the local and the cloud configuration both
    have a Client section, publishes exactly when globals.SetTrustedCAs
    accepts the certificates of the cloud configuration (the TrustedCAs of
    the local file are never looked at): then the update handler is called
    once, with the merge of the two configurations; otherwise it is not
    called and the error is returned.  Either way globals.InstanceId has
    become the instance id of the local configuration, and the stored
    configurations are not changed by the turn after the select. *)
Theorem Run_turn_outcome (s : Signal) (w w0 : W) lc cc :
  select s w = Ok tt w0 ->
  deref (heap w0) (Client (localCfg w0)) = Some lc ->
  deref (heap w0) (cloud_Client (cloudCfg w0)) = Some cc ->
  exists r w',
    Run_turn deps s w = Ok r w' /\
    globals_InstanceId w' = InstanceId (localCfg w0) /\
    localCfg w' = localCfg w0 /\ cloudCfg w' = cloudCfg w0 /\
    (r = None <->
     SetTrustedCAs deps (map Cert (cloud_TrustedCAs (cloudCfg w0))) = None) /\
    (r = None ->
     exists cfg,
       handled w' = handled w ++ [cfg] /\
       Some (view (heap w') cfg)
       = Merge (local_input w0) (cloud_input w0)) /\
    (forall e, r = Some e ->
               handled w' = handled w /\
               exists cause,
                 e = ErrTrustedCAs cause /\
                 SetTrustedCAs deps
                   (map Cert (cloud_TrustedCAs (cloudCfg w0))) = Some cause).
Proof.
  intros Hsel Hlc Hcc.
  rewrite (Run_turn_cases s w w0 lc cc Hsel Hlc Hcc).
  destruct (select_frame s w w0 Hsel) as [Hh _].
  destruct (SetTrustedCAs deps (map Cert (cloud_TrustedCAs (cloudCfg w0))))
    as [cause|] eqn:Hca.
  - eexists _, _. split; [reflexivity|]. simpl.
    split_and!; try reflexivity; try discriminate.
    + split; discriminate.
    + intros e [= <-]. split; [assumption|]. eauto.
  - eexists _, _. split; [reflexivity|]. simpl.
    split_and!; try reflexivity; try discriminate.
    + split; reflexivity.
    + intros _. eexists. split; [rewrite Hh; reflexivity|].
      unfold Merge, local_input, cloud_input, view, cloud_view. simpl.
      rewrite Hlc, Hcc, lookup_insert_eq. reflexivity.
Qed.

Lemma carries_cloud_mono (h h' : gmap loc CC) cloud cc (cfg : Cfg) :
  h ⊆ h' -> carries_cloud h cloud cc cfg -> carries_cloud h' cloud cc cfg.
Proof.
  intros Hsub (Hca & Hps & mc & Hmc & Hf). split_and!; auto.
  exists mc. split; [|assumption].
  rewrite (deref_mono h h'); [assumption|assumption|].
  eapply deref_allocated; eassumption.
Qed.

(** X15: as long as globals.SetTrustedCAs accepts the certificates of the
    cloud configuration and every local configuration that arrives has a
    Client section, Run stays in its loop: it calls the update handler once
    per signal, in order, each time with a configuration that carries the
    trusted CAs, the proxied sites and the three server collections of the
    cloud configuration; it leaves the stored cloud configuration alone and
    ends with the local configuration of the last signal that brought
    one. *)
Theorem Run_publishes_every_signal (signals : list Signal) :
  forall (w : W) cc,
    Forall with_client signals ->
    is_Some (deref (heap w) (Client (localCfg w))) ->
    deref (heap w) (cloud_Client (cloudCfg w)) = Some cc ->
    SetTrustedCAs deps (map Cert (cloud_TrustedCAs (cloudCfg w))) = None ->
    exists w' cfgs,
      Run deps signals w = Ok None w' /\
      handled w' = handled w ++ cfgs /\
      length cfgs = length signals /\
      Forall (carries_cloud (heap w') (cloudCfg w) cc) cfgs /\
      cloudCfg w' = cloudCfg w /\
      heap w ⊆ heap w' /\
      set_Client None (localCfg w') = latest_local signals (localCfg w).
Proof.
  induction signals as [|s signals IH]; intros w cc Hall Hlc Hcc Hca.
  - exists w, []. simpl. rewrite app_nil_r. split_and!; auto.
  - apply Forall_cons in Hall as [Hs Hall].
    destruct (select_effect s w cc Hs Hcc Hlc)
      as (w0 & Hsel & [lc Hlc0] & Hcc0 & Hw0 & Hsub0 & Hloc0).
    assert (Hcloud0 : cloudCfg w0 = cloudCfg w) by (rewrite Hw0; reflexivity).
    assert (Hh0 : handled w0 = handled w) by (rewrite Hw0; reflexivity).
    pose proof (Run_turn_cases s w w0 lc cc Hsel Hlc0 Hcc0) as Hturn.
    cbv zeta in Hturn. rewrite Hcloud0, Hca in Hturn.
    set (l := fresh (dom (heap w0))) in *.
    set (cfg := set_TrustedCAs (cloud_TrustedCAs (cloudCfg w))
                  (set_ProxiedSites (cloud_ProxiedSites (cloudCfg w))
                     (set_Client (Some l) (localCfg w0)))) in *.
    set (w1 := set_handled (handled w0 ++ [cfg])
                 (set_globals_InstanceId (InstanceId (localCfg w0))
                    (set_heap (<[l := merged_client lc cc]> (heap w0)) w0)))
      in *.
    assert (Hsub1 : heap w0 ⊆ heap w1)
      by (apply insert_fresh_subseteq).
    destruct (IH w1 cc Hall) as (w' & cfgs & Hrun & Hh & Hlen & Hcar & Hcl
                                 & Hsub & Hlat).
    + simpl. rewrite (deref_mono (heap w0)); eauto.
      eapply deref_allocated; eassumption.
    + simpl. rewrite Hcloud0.
      rewrite <- Hcloud0, (deref_mono (heap w0)); auto.
      eapply deref_allocated; eassumption.
    + simpl. rewrite Hcloud0. assumption.
    + exists w', (cfg :: cfgs).
      split_and!.
      * simpl. unfold mbind, M_bind. rewrite Hturn. exact Hrun.
      * rewrite Hh. simpl. rewrite Hh0, <- app_assoc. reflexivity.
      * simpl. rewrite Hlen. reflexivity.
      * constructor.
        -- apply (carries_cloud_mono (heap w1)); [assumption|].
           split_and!; try reflexivity.
           exists (merged_client lc cc). simpl.
           rewrite lookup_insert_eq. auto.
        -- simpl in Hcar. rewrite Hcloud0 in Hcar. exact Hcar.
      * rewrite Hcl. simpl. assumption.
      * etransitivity; [exact Hsub0|]. etransitivity; eassumption.
      * rewrite Hlat. simpl. unfold latest_local. simpl.
        rewrite <- Hloc0. destruct s; reflexivity.
Qed.

(** ** A poll and the turn of Run it wakes; the poll loop *)




(** X17: from the cloud to the update handler.  A poll that brings a new
    document, followed by the turn of Run that the signal wakes, hands the
    update handler one configuration: its fronted servers are those of the
    document, sorted, its chained servers, masquerade sets, proxied sites
    and trusted CAs are those of the document, and its local fields are
    those of the local configuration, provided the globals accept the
    trusted CAs of the document. *)
Theorem cloudPoll_then_Run_turn (Do : Request -> string + Response)
    (w : W) resp b d c lc :
  deref (heap w) (Client (localCfg w)) = Some lc ->
  allocated (heap w) (cloud_Client (cloudCfg w)) ->
  newRequestError deps (CloudConfig (localCfg w)) = None ->
  Do (request_of (lastCloudConfigETag w) (CloudConfig (localCfg w)))
  = inr resp ->
  StatusCode resp = 200 ->
  gunzip deps (Body resp) = GzOk b ->
  yaml_Unmarshal deps b emptyDoc = (d, None) ->
  doc_Client d = Some c ->
  SetTrustedCAs deps (map Cert (doc_TrustedCAs d)) = None ->
  exists w1 w2 cfg mc,
    cloudPoll deps Do w = Ok tt w1 /\
    Run_turn deps CloudChanged w1 = Ok None w2 /\
    handled w2 = handled w ++ [cfg] /\
    deref (heap w2) (Client cfg) = Some mc /\
    FrontedServers mc = sortFrontedServers deps (FrontedServers c) /\
    ChainedServers mc = ChainedServers c /\
    MasqueradeSets mc = MasqueradeSets c /\
    ProxiedSites cfg = doc_ProxiedSites d /\
    TrustedCAs cfg = doc_TrustedCAs d /\
    local_fields (view (heap w2) cfg) = local_fields (local_input w).
Proof.
  intros Hlc Hal Hnew HDo H200 Hgz Hyaml Hc Hca.
  assert (Hw : no_dangling w).
  { split; [eapply deref_allocated; eassumption|assumption]. }
  destruct (cloudPoll_new_document deps Do w resp b d c Hw Hnew HDo H200 Hgz
              Hyaml Hc)
    as (w1 & Hpoll & Hw1 & Hlocal & Hli & Hci & _ & _ & _ & Hh).
  assert (Hlc1 : deref (heap w1) (Client (localCfg w1)) = Some lc).
  { apply (f_equal snd) in Hli. simpl in Hli. rewrite Hli. exact Hlc. }
  pose proof (f_equal doc_Client Hci) as Hcc1.
  pose proof (f_equal doc_ProxiedSites Hci) as Hps1.
  pose proof (f_equal doc_TrustedCAs Hci) as Hca1.
  simpl in Hcc1, Hps1, Hca1.
  pose proof (Run_turn_cases CloudChanged w1 w1 lc _ eq_refl Hlc1 Hcc1)
    as Hturn.
  cbv zeta in Hturn. rewrite Hca1, Hca in Hturn.
  match type of Hturn with
  | _ = Ok None ?w2 =>
      match w2 with
      | set_handled (_ ++ [?cfg]) _ =>
          exists w1, w2, cfg,
            (merged_client lc
               (set_FrontedServers
                  (sortFrontedServers deps (FrontedServers c)) c))
      end
  end.
  split; [exact Hpoll|]. split; [exact Hturn|].
  simpl. rewrite lookup_insert_eq.
  split_and!; try reflexivity; try assumption.
  - rewrite Hh. reflexivity.
  - unfold local_fields, local_input, view. simpl.
    rewrite ?lookup_insert_eq, Hlocal, Hlc. reflexivity.
Qed.



(** ** The two versions of the poll cycle *)

Lemma Earlier_cloudPoll_after_fetch (Do : Request -> string + Response)
    (w : W) :
  Earlier.cloudPoll deps Do w =
  match fetchCloudConfig deps (CloudConfig (localCfg w)) Do w with
  | Ok (_, Some e) w1 =>
      Ok tt (set_logged
               (logged w1 ++ [Errorf "Error fetch cloud config: %s" e]) w1)
  | Ok (None, None) w1 => Ok tt w1
  | Ok (Some b, None) w1 =>
      let l := fresh (dom (heap w1)) in
      match yaml_Unmarshal deps b emptyDoc with
      | (d, Some cause) =>
          Ok tt (set_logged
                   (logged w1 ++ [Errorf "Error parse cloud config: %s"
                                    (ErrUnmarshal cause)])
                   (set_heap
                      (<[l := default emptyClientConfig (doc_Client d)]>
                         (heap w1)) w1))
      | (d, None) =>
          Ok tt (set_cloudConfigChanged (cloudConfigChanged w1 ++ [true])
                   (set_cloudCfg
                      {| cloud_Client := match doc_Client d with
                                         | Some _ => Some l
                                         | None => None
                                         end;
                         cloud_ProxiedSites := doc_ProxiedSites d;
                         cloud_TrustedCAs := doc_TrustedCAs d |}
                      (set_logged
                         (logged w1 ++ [Debug "Applying cloud config"])
                         (set_heap
                            (<[l := default emptyClientConfig
                                      (doc_Client d)]> (heap w1)) w1))))
      end
  | Panic => Panic
  end.
Proof.
  unfold Earlier.cloudPoll, get. unfold mbind at 1, M_bind at 1.
  unfold mbind at 1, M_bind at 1.
  destruct (fetchCloudConfig deps (CloudConfig (localCfg w)) Do w)
    as [[b [e|]] w1|]; try reflexivity.
  { destruct b; reflexivity. }
  destruct b as [b|]; [|reflexivity].
  unfold Earlier.fromBytes, Earlier.set_cloud_Client, set_cloud_ProxiedSites,
    set_cloud_TrustedCAs, to_doc, of_doc.
  unfold mbind, M_bind, mret, M_ret, alloc, load, store, log, modify.
  simpl. repeat (rewrite lookup_insert_eq; simpl).
  rewrite ?insert_insert_eq.
  unfold emptyDoc, emptyProxiedSites, emptyClientConfig, set_MasqueradeSets,
    set_ChainedServers, set_FrontedServers. simpl.
  match goal with
  | |- context [yaml_Unmarshal deps b ?x] =>
      destruct (yaml_Unmarshal deps b x) as [d [cause|]]
  end.
  - destruct (doc_Client d) as [c|]; simpl.
    + rewrite lookup_insert_eq. simpl. rewrite ?insert_insert_eq.
      reflexivity.
    + rewrite ?insert_insert_eq. reflexivity.
  - destruct (doc_Client d) as [c|]; simpl.
    + repeat (rewrite lookup_insert_eq; simpl).
      rewrite ?insert_insert_eq. reflexivity.
    + rewrite ?insert_insert_eq. reflexivity.
Qed.

(** X19: the two versions of the poll cycle agree up to the order of the
    fronted servers.  Whenever the later cloudPoll returns, the earlier one
    returns too, in a state that differs at most in the heap; the states
    are equal unless a new cloudConfig is published, and then the Client
    section the later version shows is that of the earlier version with
    its fronted servers sorted, the proxied sites and trusted CAs being
    the same. *)
Theorem Earlier_cloudPoll_agrees (Do : Request -> string + Response)
    (w w2 : W) :
  cloudPoll deps Do w = Ok tt w2 ->
  exists w1,
    Earlier.cloudPoll deps Do w = Ok tt w1 /\
    w2 = set_heap (heap w2) w1 /\
    (w1 = w2 \/
     (published Do w w2 /\
      doc_Client (cloud_input w2)
      = sorted_Client deps <$> doc_Client (cloud_input w1) /\
      doc_ProxiedSites (cloud_input w2) = doc_ProxiedSites (cloud_input w1) /\
      doc_TrustedCAs (cloud_input w2) = doc_TrustedCAs (cloud_input w1))).
Proof.
  intros Hpoll. pose proof (cloudPoll_effect Do w w2 Hpoll) as Heff.
  revert Hpoll.
  rewrite Earlier_cloudPoll_after_fetch, cloudPoll_after_fetch.
  destruct (fetchCloudConfig deps (CloudConfig (localCfg w)) Do w)
    as [[b [e|]] w0|] eqn:Hf; [| |discriminate].
  - destruct b; intros [= <-]; eexists; (split; [reflexivity|]);
      (split; [|left]); reflexivity.
  - destruct b as [b|].
    + rewrite apply_document_cases. cbv zeta.
      destruct (yaml_Unmarshal deps b emptyDoc) as [d [cause|]].
      * intros [= <-]. eexists. split; [reflexivity|].
        split; [|left]; reflexivity.
      * destruct (doc_Client d) as [c|]; [|discriminate].
        intros [= <-]. eexists. split; [reflexivity|].
        split; [reflexivity|]. right.
        destruct Heff as (_ & _ & _ & _ & _ & [[_ Hsame]|Hpub]).
        -- simpl in Hsame.
           assert (Hw0 : cloudConfigChanged w0 = cloudConfigChanged w).
           { revert Hf. rewrite fetchCloudConfig_cases.
             destruct (newRequestError deps (CloudConfig (localCfg w)));
               [discriminate|].
             destruct (Do (request_of (lastCloudConfigETag w)
                             (CloudConfig (localCfg w)))); [discriminate|].
             case_decide; [discriminate|]. case_decide; [discriminate|].
             cbv zeta. destruct (gunzip deps (Body r)); intros [= _ <-];
               reflexivity. }
           rewrite Hw0 in Hsame.
           apply (f_equal length) in Hsame. rewrite length_app in Hsame.
           simpl in Hsame. lia.
        -- split; [exact Hpub|].
           unfold cloud_input, cloud_view. simpl.
           rewrite !lookup_insert_eq. split_and!; reflexivity.
    + intros [= <-]. exists w0. split; [reflexivity|].
      split; [destruct w0|left]; reflexivity.
Qed.

(** X20: a document that the decoder accepts but that leaves no Client
    section: the earlier cloudPoll stores it and signals the change (a
    cloudConfig whose Client pointer is nil is published), and the turn of
    Run that the signal wakes then panics in the merge, where the later
    cloudPoll panics itself. *)
Theorem Earlier_cloudPoll_publishes_nil_Client
    (Do : Request -> string + Response) (w : W) resp b d :
  no_dangling w ->
  newRequestError deps (CloudConfig (localCfg w)) = None ->
  Do (request_of (lastCloudConfigETag w) (CloudConfig (localCfg w)))
  = inr resp ->
  StatusCode resp = 200 ->
  gunzip deps (Body resp) = GzOk b ->
  yaml_Unmarshal deps b emptyDoc = (d, None) ->
  doc_Client d = None ->
  exists w1,
    Earlier.cloudPoll deps Do w = Ok tt w1 /\
    cloud_Client (cloudCfg w1) = None /\
    cloudConfigChanged w1 = cloudConfigChanged w ++ [true] /\
    Run_turn deps CloudChanged w1 = Panic /\
    cloudPoll deps Do w = Panic.
Proof.
  intros Hw Hnew HDo H200 Hgz Hyaml Hc.
  rewrite Earlier_cloudPoll_after_fetch, cloudPoll_after_fetch,
    fetchCloudConfig_cases, Hnew, HDo.
  rewrite decide_False by (rewrite H200; discriminate).
  rewrite decide_False by (intros Hn; apply Hn, H200).
  cbv zeta. rewrite Hgz, apply_document_cases. cbv zeta.
  rewrite Hyaml, Hc. eexists. split; [reflexivity|]. simpl.
  split_and!; try reflexivity.
  unfold Run_turn. unfold mbind at 1, M_bind at 1. simpl.
  unfold mbind at 1, M_bind at 1.
  rewrite mergedConfig_eq.
  - simpl.
    destruct (deref _ (Client (localCfg w))); reflexivity.
  - split; simpl; [|exact I].
    eapply allocated_mono; [apply insert_fresh_subseteq|apply Hw].
Qed.

(** ** Start-up *)

Section StartupProperties.
Context (builtins : Builtins ChainedServerInfo Masquerade).
Context (env : Env ChainedServerInfo Masquerade ServerConfig).

Lemma copy_fallbacks_eq : copy_fallbacks builtins = fallbacks builtins.
Proof.
  unfold copy_fallbacks.
  apply (map_fold_weak_ind (fun css m => css = m)); [reflexivity|].
  intros key fb m css _ ->. reflexivity.
Qed.

Lemma cloud_ApplyDefaults_eq (cfg : cloudConfig) (w : W) l c ps :
  cloud_Client cfg = Some l ->
  heap w !! l = Some c ->
  cloud_ProxiedSites cfg = Some ps ->
  cloud_ApplyDefaults builtins cfg w
  = Ok {| cloud_Client := Some l;
          cloud_ProxiedSites :=
            Some {| Delta := Delta ps;
                    Cloud := defaultProxiedSites builtins |};
          cloud_TrustedCAs := defaultTrustedCAs builtins |}
       (set_heap (<[l := defaultedClient builtins c]> (heap w)) w).
Proof.
  intros Hl Hc Hps. unfold cloud_ApplyDefaults.
  unfold mbind, M_bind, mret, M_ret, load, store, panic.
  rewrite Hps. simpl. rewrite Hl, Hc. simpl.
  rewrite Hc. simpl. repeat (rewrite lookup_insert_eq; simpl).
  rewrite ?insert_insert_eq.
  unfold set_cloud_TrustedCAs, set_cloud_ProxiedSites. simpl. rewrite Hl.
  reflexivity.
Qed.


Lemma defaultedClient_empty :
  defaultedClient builtins emptyClientConfig
  = match doc_Client (fallbackDoc builtins) with
    | Some c => c
    | None => emptyClientConfig
    end.
Proof.
  unfold defaultedClient, set_ChainedServers, set_FrontedServers,
    set_MasqueradeSets. simpl. rewrite copy_fallbacks_eq.
  rewrite insert_empty. reflexivity.
Qed.

(** X22: InConfigDir places the file in the directory of the -configdir
    flag, or in the general application directory of "Lantern" when the
    flag is empty.  It returns the joined path exactly when the directory
    is there or could be made; a failure of os.Stat other than "does not
    exist" is ignored and the path returned; the only error is that of
    os.MkdirAll on a directory that does not exist.  Of the state it
    changes the log only, by one line. *)
Theorem InConfigDir_path (filename : string) (w : W) :
  exists r,
    InConfigDir env filename w
    = Ok r (set_logged
              (logged w
                 ++ [Debugf "Placing configuration in %v" [config_dir env]])
              w) /\
    (configdir env <> "" -> config_dir env = configdir env) /\
    (configdir env = "" -> config_dir env = appdir_General env "Lantern") /\
    (r = inr (filepath_Join env (config_dir env) filename)
     <-> dir_usable env) /\
    (forall cause, os_Stat env (config_dir env) = StatError cause ->
                   r = inr (filepath_Join env (config_dir env) filename)) /\
    (forall e, r = inl e ->
               exists cause,
                 e = ErrConfigDir (config_dir env) cause /\
                 os_Stat env (config_dir env) = StatNotExist /\
                 os_MkdirAll env (config_dir env) = Some cause).
Proof.
  unfold InConfigDir, log, modify. fold (config_dir env).
  unfold mbind, M_bind, mret, M_ret, dir_usable.
  assert (Hflag : (configdir env <> "" -> config_dir env = configdir env) /\
                  (configdir env = "" ->
                   config_dir env = appdir_General env "Lantern")).
  { unfold config_dir. case_decide; split; intros; congruence. }
  destruct Hflag as [Hset Hunset].
  destruct (os_Stat env (config_dir env)) eqn:Hs.
  - eexists. split; [reflexivity|]. split_and!; auto; try discriminate.
    split; [left; discriminate|reflexivity].
  - destruct (os_MkdirAll env (config_dir env)) as [cause|] eqn:Hmk.
    + eexists. split; [reflexivity|]. split_and!; auto; try discriminate.
      * split; [discriminate|]. intros [Hn|Hn]; [contradiction|discriminate].
      * intros e [= <-]. eauto.
    + eexists. split; [reflexivity|]. split_and!; auto; try discriminate.
      split; [right; reflexivity|reflexivity].
  - eexists. split; [reflexivity|]. split_and!; auto; try discriminate.
    split; [left; discriminate|reflexivity].
Qed.

Lemma Init_eq (w : W) :
  Init deps builtins env w =
  match os_Stat env (config_dir env), os_MkdirAll env (config_dir env) with
  | StatNotExist, Some cause =>
      Ok (inl (ErrConfigDir (config_dir env) cause))
         (defaults_stored builtins env w)
  | _, _ =>
      match manager_Init env
              (filepath_Join env (config_dir env) "lantern.yaml") with
      | inl cause =>
          Ok (inl (ErrManager cause)) (defaults_stored builtins env w)
      | inr (initial, client) =>
          (p ← match client with
               | Some c => l ← alloc c; mret (Some l)
               | None => mret None
               end;
           modify (set_localCfg (set_Client p initial));;
           cfg ← mergedConfig;
           err ← updateGlobals deps cfg;
           match err with
           | Some e => mret (inl (ErrGlobals e))
           | None => mret (inr cfg)
           end) (defaults_stored builtins env w)
      end
  end.
Proof.
  unfold Init, emptyCloudConfig.
  unfold mbind at 1, M_bind at 1. unfold mbind at 1, M_bind at 1.
  unfold alloc at 1, mret at 1, M_ret at 1.
  unfold mbind at 1, M_bind at 1.
  erewrite cloud_ApplyDefaults_eq;
    [|reflexivity|simpl; apply lookup_insert_eq|reflexivity].
  simpl. rewrite insert_insert_eq.
  unfold mbind at 1, M_bind at 1. unfold modify at 1.
  unfold mbind at 1, M_bind at 1.
  unfold InConfigDir, log, modify. fold (config_dir env).
  unfold mbind at 1, M_bind at 1. simpl.
  fold (defaults_stored builtins env w).
  destruct (os_Stat env (config_dir env)); simpl;
    try destruct (os_MkdirAll env (config_dir env)); simpl;
    try reflexivity;
    destruct (manager_Init env
                (filepath_Join env (config_dir env) "lantern.yaml"))
      as [?|[? ?]]; reflexivity.
Qed.

Lemma defaults_stored_cloud (w : W) :
  cloud_input (defaults_stored builtins env w) = fallbackDoc builtins.
Proof.
  unfold cloud_input, cloud_view, defaults_stored. simpl.
  rewrite lookup_insert_eq, defaultedClient_empty. reflexivity.
Qed.

Lemma Init_with_Client (w : W) initial c :
  dir_usable env ->
  manager_Init env (filepath_Join env (config_dir env) "lantern.yaml")
  = inr (initial, Some c) ->
  let w0 := defaults_stored builtins env w in
  let l := fresh (dom (heap w0)) in
  let w1 := set_localCfg (set_Client (Some l) initial)
              (set_heap (<[l := c]> (heap w0)) w0) in
  let l' := fresh (dom (heap w1)) in
  let cfg := set_TrustedCAs (defaultTrustedCAs builtins)
               (set_ProxiedSites (doc_ProxiedSites (fallbackDoc builtins))
                  (set_Client (Some l') initial)) in
  let w2 := set_globals_InstanceId (InstanceId initial)
              (set_heap
                 (<[l' := merged_client c
                            (defaultedClient builtins emptyClientConfig)]>
                    (heap w1)) w1) in
  Init deps builtins env w
  = match SetTrustedCAs deps (map Cert (defaultTrustedCAs builtins)) with
    | Some cause => Ok (inl (ErrGlobals (ErrTrustedCAs cause))) w2
    | None => Ok (inr cfg) w2
    end.
Proof.
  intros Hdir Hm. cbv zeta. rewrite Init_eq, Hm.
  set (w0 := defaults_stored builtins env w).
  set (l := fresh (dom (heap w0))).
  set (w1 := set_localCfg (set_Client (Some l) initial)
               (set_heap (<[l := c]> (heap w0)) w0)).
  assert (Hlc : deref (heap w1) (Client (localCfg w1)) = Some c)
    by (simpl; apply lookup_insert_eq).
  assert (Hcc : deref (heap w1) (cloud_Client (cloudCfg w1))
                = Some (defaultedClient builtins emptyClientConfig)).
  { simpl.
    assert (Hl0 : heap w0 !! fresh (dom (heap w))
                  = Some (defaultedClient builtins emptyClientConfig))
      by (simpl; apply lookup_insert_eq).
    rewrite lookup_insert_ne; [exact Hl0|].
    intros Heq. symmetry in Heq. revert Heq.
    eapply lookup_ne_fresh. exact Hl0. }
  pose proof (mergedConfig_ok w1 _ _ Hlc Hcc) as Hmerge.
  assert (Hrest :
    (p ← (l ← alloc c; mret (Some l));
     modify (set_localCfg (set_Client p initial));;
     cfg ← mergedConfig;
     err ← updateGlobals deps cfg;
     match err with
     | Some e => mret (inl (ErrGlobals e))
     | None => mret (inr cfg)
     end) w0
    = match SetTrustedCAs deps (map Cert (defaultTrustedCAs builtins)) with
      | Some cause =>
          Ok (inl (ErrGlobals (ErrTrustedCAs cause)))
             (set_globals_InstanceId (InstanceId initial)
                (set_heap
                   (<[fresh (dom (heap w1))
                      := merged_client c
                           (defaultedClient builtins emptyClientConfig)]>
                      (heap w1)) w1))
      | None =>
          Ok (inr (set_TrustedCAs (defaultTrustedCAs builtins)
                     (set_ProxiedSites
                        (doc_ProxiedSites (fallbackDoc builtins))
                        (set_Client (Some (fresh (dom (heap w1))))
                           initial))))
             (set_globals_InstanceId (InstanceId initial)
                (set_heap
                   (<[fresh (dom (heap w1))
                      := merged_client c
                           (defaultedClient builtins emptyClientConfig)]>
                      (heap w1)) w1))
      end).
  { unfold updateGlobals, TrustedCACerts.
    unfold mbind, M_bind, mret, M_ret, alloc, modify.
    fold l. fold w1. rewrite Hmerge. simpl.
    destruct (SetTrustedCAs deps (map Cert (defaultTrustedCAs builtins)));
      reflexivity. }
  destruct Hdir as [Hstat|Hmk].
  - destruct (os_Stat env (config_dir env)); [| contradiction |];
      destruct (os_MkdirAll env (config_dir env)); exact Hrest.
  - rewrite Hmk. destruct (os_Stat env (config_dir env)); exact Hrest.
Qed.

Lemma mergedConfig_nil_Client (w : W) :
  Client (localCfg w) = None -> mergedConfig w = Panic.
Proof.
  intros Hnil. unfold mergedConfig, deepcopy_Copy.
  unfold mbind, M_bind, mret, M_ret, get, load. rewrite Hnil. simpl.
  rewrite Hnil. reflexivity.
Qed.

(** The heap [Init] leaves when it gets as far as the merge: the three new
    objects are distinct and none of them was there before. *)
Lemma Init_heap (h : gmap loc CC) (dc c mc : CC) :
  let l0 := fresh (dom h) in
  let h0 := <[l0 := dc]> h in
  let l := fresh (dom h0) in
  let h1 := <[l := c]> h0 in
  let l' := fresh (dom h1) in
  let h2 := <[l' := mc]> h1 in
  h2 !! l0 = Some dc /\ h2 !! l = Some c /\ h2 !! l' = Some mc /\ h ⊆ h2.
Proof.
  cbv zeta.
  set (l0 := fresh (dom h)). set (h0 := <[l0 := dc]> h).
  set (l := fresh (dom h0)). set (h1 := <[l := c]> h0).
  set (l' := fresh (dom h1)).
  assert (H0 : h0 !! l0 = Some dc) by apply lookup_insert_eq.
  assert (Hne0 : l0 <> l) by (eapply lookup_ne_fresh; exact H0).
  assert (H1 : h1 !! l0 = Some dc).
  { unfold h1. rewrite lookup_insert_ne by congruence. exact H0. }
  assert (H1' : h1 !! l = Some c) by apply lookup_insert_eq.
  assert (Hne1 : l0 <> l') by (eapply lookup_ne_fresh; exact H1).
  assert (Hne2 : l <> l') by (eapply lookup_ne_fresh; exact H1').
  split_and!.
  - rewrite lookup_insert_ne by congruence. exact H1.
  - rewrite lookup_insert_ne by congruence. exact H1'.
  - apply lookup_insert_eq.
  - etrans; [apply insert_fresh_subseteq|].
    etrans; [apply insert_fresh_subseteq|]. apply insert_fresh_subseteq.
Qed.

(** X23: Init with a usable configuration directory, a configuration file
    with a Client section and trusted CAs that the globals accept returns
    the merge of the initial local configuration with the built-in cloud
    defaults: afterwards the stored cloud configuration is the fallback
    document, the stored local configuration is the initial one, the
    returned configuration is their Merge, the global instance id is the
    initial one; no request is made, nothing is signalled or handed to an
    update handler, the ETag cache is untouched and what the heap held is
    still there. *)
Theorem Init_merges_fallback_cloud (w : W) initial c :
  dir_usable env ->
  manager_Init env (filepath_Join env (config_dir env) "lantern.yaml")
  = inr (initial, Some c) ->
  SetTrustedCAs deps (map Cert (defaultTrustedCAs builtins)) = None ->
  exists cfg w',
    Init deps builtins env w = Ok (inr cfg) w' /\
    cloud_input w' = fallbackDoc builtins /\
    local_input w' = (set_Client None initial, Some c) /\
    Some (view (heap w') cfg) = Merge (local_input w') (cloud_input w') /\
    globals_InstanceId w' = InstanceId initial /\
    sent w' = sent w /\ handled w' = handled w /\
    cloudConfigChanged w' = cloudConfigChanged w /\
    lastCloudConfigETag w' = lastCloudConfigETag w /\
    heap w ⊆ heap w'.
Proof.
  intros Hdir Hm Hca.
  pose proof (Init_with_Client w initial c Hdir Hm) as HInit.
  cbv zeta in HInit. rewrite Hca in HInit.
  destruct (Init_heap (heap w) (defaultedClient builtins emptyClientConfig)
              c (merged_client c (defaultedClient builtins emptyClientConfig)))
    as (H0 & H1 & H2 & Hsub).
  match type of HInit with
  | _ = Ok (inr ?cfg0) ?w0 =>
      assert (Hcloud : cloud_input w0 = fallbackDoc builtins);
      [|assert (Hlocal : local_input w0 = (set_Client None initial, Some c));
        [|exists cfg0, w0]]
  end.
  - unfold cloud_input, cloud_view. simpl.
    rewrite H0. rewrite defaultedClient_empty. reflexivity.
  - unfold local_input, view. simpl. rewrite H1. reflexivity.
  - split; [exact HInit|]. split; [exact Hcloud|]. split; [exact Hlocal|].
    split.
    { rewrite Hlocal, Hcloud. unfold view, Merge. simpl.
      rewrite lookup_insert_eq. pose proof defaultedClient_empty as Hd.
      simpl in Hd. rewrite Hd. reflexivity. }
    simpl. split_and!; try reflexivity. exact Hsub.
Qed.

Lemma defaults_stored_frame (w : W) :
  localCfg (defaults_stored builtins env w) = localCfg w /\
  globals_InstanceId (defaults_stored builtins env w) = globals_InstanceId w /\
  sent (defaults_stored builtins env w) = sent w /\
  handled (defaults_stored builtins env w) = handled w.
Proof. split_and!; reflexivity. Qed.

Lemma dir_cases :
  (os_Stat env (config_dir env) = StatNotExist /\
   exists cause, os_MkdirAll env (config_dir env) = Some cause) \/
  dir_usable env.
Proof.
  unfold dir_usable.
  destruct (os_Stat env (config_dir env)) eqn:Hs;
    try (right; left; discriminate).
  destruct (os_MkdirAll env (config_dir env)) as [cause|] eqn:Hmk.
  - left. split; [reflexivity|]. exists cause. reflexivity.
  - right. right. reflexivity.
Qed.

Lemma Init_manager_error (w : W) cause :
  dir_usable env ->
  manager_Init env (filepath_Join env (config_dir env) "lantern.yaml")
  = inl cause ->
  Init deps builtins env w
  = Ok (inl (ErrManager cause)) (defaults_stored builtins env w).
Proof.
  intros Hdir Hm. rewrite Init_eq, Hm.
  destruct Hdir as [Hs|Hmk].
  - destruct (os_Stat env (config_dir env)); [| contradiction |];
      destruct (os_MkdirAll env (config_dir env)); reflexivity.
  - rewrite Hmk. destruct (os_Stat env (config_dir env)); reflexivity.
Qed.

Lemma Init_nil_Client (w : W) initial :
  dir_usable env ->
  manager_Init env (filepath_Join env (config_dir env) "lantern.yaml")
  = inr (initial, None) ->
  Init deps builtins env w = Panic.
Proof.
  intros Hdir Hm. rewrite Init_eq, Hm.
  assert (Hp : (p ← (mret None : M W (option loc));
                modify (set_localCfg (set_Client p initial));;
                cfg ← mergedConfig;
                err ← updateGlobals deps cfg;
                match err with
                | Some e => mret (inl (ErrGlobals e))
                | None => mret (inr cfg)
                end) (defaults_stored builtins env w)
               = (Panic : Result W (InitError + Cfg))).
  { unfold mbind, M_bind, mret, M_ret, modify.
    rewrite mergedConfig_nil_Client; reflexivity. }
  destruct Hdir as [Hs|Hmk].
  - destruct (os_Stat env (config_dir env)); [| contradiction |];
      destruct (os_MkdirAll env (config_dir env)); exact Hp.
  - rewrite Hmk. destruct (os_Stat env (config_dir env)); exact Hp.
Qed.

(** X24: What an error of Init means.  Whatever the error, the built-in
    cloud defaults are stored by then and no update handler has run.  An
    error about the configuration directory says that the directory did not
    exist and could not be made; an error of the manager says that the
    directory was usable and the manager failed on lantern.yaml in it; in
    both cases the stored local configuration and the global instance id
    are as before.  An error of updateGlobals says that the globals
    refused the built-in trusted CAs, and then the initial local
    configuration is stored and the instance id set all the same. *)
Theorem Init_error_meaning (w w' : W) (e : InitError) :
  Init deps builtins env w = Ok (inl e) w' ->
  cloud_input w' = fallbackDoc builtins /\
  handled w' = handled w /\
  match e with
  | ErrConfigDir dir cause =>
      dir = config_dir env /\
      os_Stat env dir = StatNotExist /\ os_MkdirAll env dir = Some cause /\
      localCfg w' = localCfg w /\
      globals_InstanceId w' = globals_InstanceId w
  | ErrManager cause =>
      dir_usable env /\
      manager_Init env (filepath_Join env (config_dir env) "lantern.yaml")
      = inl cause /\
      localCfg w' = localCfg w /\
      globals_InstanceId w' = globals_InstanceId w
  | ErrGlobals err =>
      dir_usable env /\
      exists initial c cause,
        manager_Init env (filepath_Join env (config_dir env) "lantern.yaml")
        = inr (initial, Some c) /\
        err = ErrTrustedCAs cause /\
        SetTrustedCAs deps (map Cert (defaultTrustedCAs builtins))
        = Some cause /\
        local_input w' = (set_Client None initial, Some c) /\
        globals_InstanceId w' = InstanceId initial
  end.
Proof.
  intros HInit.
  destruct dir_cases as [[Hs [cause Hmk]]|Hdir].
  - rewrite Init_eq, Hs, Hmk in HInit. injection HInit as <- <-.
    split; [apply defaults_stored_cloud|]. split; [reflexivity|].
    split_and!; auto.
  - destruct (manager_Init env
                (filepath_Join env (config_dir env) "lantern.yaml"))
      as [cause|[initial [c|]]] eqn:Hm.
    + rewrite (Init_manager_error w cause Hdir Hm) in HInit.
      injection HInit as <- <-.
      split; [apply defaults_stored_cloud|]. split; [reflexivity|].
      split_and!; auto.
    + pose proof (Init_with_Client w initial c Hdir Hm) as HI.
      cbv zeta in HI. rewrite HI in HInit.
      destruct (Init_heap (heap w)
                  (defaultedClient builtins emptyClientConfig) c
                  (merged_client c
                     (defaultedClient builtins emptyClientConfig)))
        as (H0 & H1 & H2 & Hsub).
      destruct (SetTrustedCAs deps (map Cert (defaultTrustedCAs builtins)))
        as [cause|] eqn:Hca; [|discriminate].
      injection HInit as <- <-.
      split.
      { unfold cloud_input, cloud_view. simpl.
        rewrite H0. rewrite defaultedClient_empty. reflexivity. }
      split; [reflexivity|]. split; [exact Hdir|].
      exists initial, c, cause. split_and!; try reflexivity.
      unfold local_input, view. simpl. rewrite H1. reflexivity.
    + rewrite (Init_nil_Client w initial Hdir Hm) in HInit. discriminate.
Qed.

(** X25: Init panics exactly on a configuration without Client section: it
    does not return if and only if the configuration directory is usable
    and the manager yields an initial configuration whose Client pointer is
    nil, which the merge then dereferences, whatever the role.  In every
    other case Init returns a configuration or an error. *)
Theorem Init_panics_without_Client (w : W) :
  Init deps builtins env w = Panic
  <-> dir_usable env /\
      exists initial,
        manager_Init env (filepath_Join env (config_dir env) "lantern.yaml")
        = inr (initial, None).
Proof.
  split.
  - intros HInit. destruct dir_cases as [[Hs [cause Hmk]]|Hdir].
    + rewrite Init_eq, Hs, Hmk in HInit. discriminate.
    + split; [exact Hdir|].
      destruct (manager_Init env
                  (filepath_Join env (config_dir env) "lantern.yaml"))
        as [cause|[initial [c|]]] eqn:Hm.
      * rewrite (Init_manager_error w cause Hdir Hm) in HInit. discriminate.
      * pose proof (Init_with_Client w initial c Hdir Hm) as HI.
        cbv zeta in HI. rewrite HI in HInit.
        destruct (SetTrustedCAs deps
                    (map Cert (defaultTrustedCAs builtins))); discriminate.
      * exists initial. reflexivity.
  - intros [Hdir [initial Hm]]. exact (Init_nil_Client w initial Hdir Hm).
Qed.

End StartupProperties.

End MoreProperties.

(** * The further properties on the concrete setting *)

Lemma clientWorld_no_dangling : no_dangling clientWorld.
Proof. split; eexists; reflexivity. Defined.


Lemma fetchCloudConfig_result_meaning_witness :
  newRequestError sample_deps cloudURL = None /\
  exists resp,
    origin "v1" (stored documentA)
      (request_of (lastCloudConfigETag clientWorld) cloudURL) = inr resp /\
    StatusCode resp = 200 /\
    gunzip sample_deps (Body resp) = GzOk documentA.
Proof.
  apply (proj2 (fetchCloudConfig_result_meaning sample_deps cloudURL
                  (origin "v1" (stored documentA)) clientWorld
                  (Some documentA) None
                  (state_after
                     (fetchCloudConfig sample_deps cloudURL
                        (origin "v1" (stored documentA))) clientWorld)
                  eq_refl) documentA).
  split; reflexivity.
Defined.

Lemma fetchCloudConfig_request_witness :
  exists req,
    sent (state_after
            (fetchCloudConfig sample_deps cloudURL
               (origin "v1" (stored documentA))) cachedWorld) = [req] /\
    req_Header req = {[ ifNoneMatch := "v1" ]}.
Proof.
  destruct (proj1 (fetchCloudConfig_request sample_deps cloudURL
                     (origin "v1" (stored documentA)) cachedWorld
                     (None, None)
                     (state_after
                        (fetchCloudConfig sample_deps cloudURL
                           (origin "v1" (stored documentA))) cachedWorld)
                     eq_refl) eq_refl)
    as (req & Hsent & _ & _ & _ & _ & Hheader).
  exists req. split; [exact Hsent|]. apply Hheader. discriminate.
Defined.

Lemma fetchCloudConfig_token_round_trip_witness :
  exists req,
    last (sent (state_after
                  (fetchCloudConfig sample_deps cloudURL
                     (origin "v1" (stored documentA)))
                  (state_after
                     (fetchCloudConfig sample_deps cloudURL
                        (origin "v1" (stored documentA))) clientWorld)))
    = Some req /\
    req_Header req = {[ ifNoneMatch := "v1" ]}.
Proof.
  destruct (fetchCloudConfig_token_round_trip sample_deps cloudURL
              (origin "v1" (stored documentA))
              (origin "v1" (stored documentA)) clientWorld
              (ok_response "v1" (stored documentA))
              (Some documentA, None)
              (state_after
                 (fetchCloudConfig sample_deps cloudURL
                    (origin "v1" (stored documentA))) clientWorld)
              (None, None)
              (state_after
                 (fetchCloudConfig sample_deps cloudURL
                    (origin "v1" (stored documentA)))
                 (state_after
                    (fetchCloudConfig sample_deps cloudURL
                       (origin "v1" (stored documentA))) clientWorld))
              eq_refl eq_refl eq_refl eq_refl eq_refl)
    as (req & Hlast & Htoken & _).
  exists req. split; [exact Hlast|].
  apply (Htoken "v1"); [reflexivity|discriminate].
Defined.

Lemma fetchCloudConfig_per_url_witness :
  lastCloudConfigETag
    (state_after
       (fetchCloudConfig sample_deps otherURL unavailable)
       (state_after
          (fetchCloudConfig sample_deps cloudURL
             (origin "v2" (stored documentA))) cachedWorld)) !! cloudURL
  = Some "v2".
Proof.
  destruct (fetchCloudConfig_per_url sample_deps cloudURL otherURL
              (origin "v2" (stored documentA)) unavailable cachedWorld
              (Some documentA, None)
              (state_after
                 (fetchCloudConfig sample_deps cloudURL
                    (origin "v2" (stored documentA))) cachedWorld)
              (None, Some (ErrStatus 503))
              (state_after
                 (fetchCloudConfig sample_deps otherURL unavailable)
                 (state_after
                    (fetchCloudConfig sample_deps cloudURL
                       (origin "v2" (stored documentA))) cachedWorld))
              (None, Some (ErrStatus 503))
              (state_after
                 (fetchCloudConfig sample_deps otherURL unavailable)
                 cachedWorld))
    as (_ & _ & _ & Hfirst).
  - discriminate.
  - reflexivity.
  - reflexivity.
  - reflexivity.
  - rewrite Hfirst. reflexivity.
Defined.

Lemma cloudPoll_publish_discipline_witness :
  no_dangling
    (state_after (cloudPoll sample_deps (origin "v1" (stored documentA)))
       clientWorld) /\
  localCfg
    (state_after (cloudPoll sample_deps (origin "v1" (stored documentA)))
       clientWorld) = clientConfig.
Proof.
  destruct (cloudPoll_publish_discipline sample_deps
              (origin "v1" (stored documentA)) clientWorld
              (state_after
                 (cloudPoll sample_deps (origin "v1" (stored documentA)))
                 clientWorld)
              clientWorld_no_dangling eq_refl)
    as (Hw & Hlocal & _).
  split; [exact Hw|exact Hlocal].
Defined.



Lemma cloudPoll_replaces_wholesale_witness :
  exists wa' wb',
    cloudPoll sample_deps (origin "v1" (stored documentA)) clientWorld
    = Ok tt wa' /\
    cloudPoll sample_deps (origin "v1" (stored documentA)) serverWorld
    = Ok tt wb' /\
    cloud_input wa' = cloud_input wb' /\
    cloud_input wa' = decodedA.
Proof.
  apply (cloudPoll_replaces_wholesale sample_deps
           (origin "v1" (stored documentA)) clientWorld serverWorld
           (ok_response "v1" (stored documentA)) documentA decodedA clientA).
  - exact clientWorld_no_dangling.
  - split; [exact I|eexists; reflexivity].
  - reflexivity.
  - reflexivity.
  - reflexivity.
  - reflexivity.
  - reflexivity.
  - reflexivity.
  - reflexivity.
  - reflexivity.
Defined.

Lemma Run_turn_outcome_witness :
  exists r w',
    Run_turn sample_deps CloudChanged clientWorld = Ok r w' /\
    globals_InstanceId w' = "0a1b2c3d4e5f".
Proof.
  destruct (Run_turn_outcome sample_deps CloudChanged clientWorld clientWorld
              localClient cloudClient eq_refl eq_refl eq_refl)
    as (r & w' & Hturn & Hid & _).
  exists r, w'. split; [exact Hturn|exact Hid].
Defined.

Lemma Run_publishes_every_signal_witness :
  exists w' cfgs,
    Run sample_deps
      [CloudChanged; Next serverConfig (Some localClient); CloudChanged]
      clientWorld = Ok None w' /\
    handled w' = cfgs /\ length cfgs = 3%nat.
Proof.
  destruct (Run_publishes_every_signal sample_deps
              [CloudChanged; Next serverConfig (Some localClient);
               CloudChanged] clientWorld cloudClient)
    as (w' & cfgs & HRun & Hhandled & Hlen & _).
  - repeat constructor.
  - eexists. reflexivity.
  - reflexivity.
  - reflexivity.
  - exists w', cfgs. split_and!; assumption.
Defined.


Lemma cloudPoll_then_Run_turn_witness :
  exists w1 w2 cfg mc,
    cloudPoll sample_deps (origin "v1" (stored documentA)) clientWorld
    = Ok tt w1 /\
    Run_turn sample_deps CloudChanged w1 = Ok None w2 /\
    handled w2 = [cfg] /\
    deref (heap w2) (Client cfg) = Some mc /\
    FrontedServers mc = [serverA].
Proof.
  destruct (cloudPoll_then_Run_turn sample_deps
              (origin "v1" (stored documentA)) clientWorld
              (ok_response "v1" (stored documentA)) documentA decodedA
              clientA localClient)
    as (w1 & w2 & cfg & mc & Hpoll & Hturn & Hhandled & Hmc & Hservers & _).
  - reflexivity.
  - eexists. reflexivity.
  - reflexivity.
  - reflexivity.
  - reflexivity.
  - reflexivity.
  - reflexivity.
  - reflexivity.
  - reflexivity.
  - exists w1, w2, cfg, mc. split_and!; assumption.
Defined.


Lemma Earlier_cloudPoll_agrees_witness :
  exists w1,
    Earlier.cloudPoll sample_deps (origin "v1" (stored documentA)) clientWorld
    = Ok tt w1 /\
    cloudCfg w1
    = cloudCfg
        (state_after (cloudPoll sample_deps (origin "v1" (stored documentA)))
           clientWorld).
Proof.
  destruct (Earlier_cloudPoll_agrees sample_deps
              (origin "v1" (stored documentA)) clientWorld
              (state_after
                 (cloudPoll sample_deps (origin "v1" (stored documentA)))
                 clientWorld) eq_refl)
    as (w1 & Hpoll & Hsame & _).
  exists w1. split; [exact Hpoll|]. rewrite Hsame. reflexivity.
Defined.

Lemma Earlier_cloudPoll_publishes_nil_Client_witness :
  exists w1,
    Earlier.cloudPoll nulling_deps (origin "v1" (stored nullDocument))
      clientWorld = Ok tt w1 /\
    cloud_Client (cloudCfg w1) = None /\
    Run_turn nulling_deps CloudChanged w1 = Panic.
Proof.
  destruct (Earlier_cloudPoll_publishes_nil_Client nulling_deps
              (origin "v1" (stored nullDocument)) clientWorld
              (ok_response "v1" (stored nullDocument)) nullDocument
              decodedNull clientWorld_no_dangling)
    as (w1 & Hpoll & Hnil & _ & Hturn & _).
  - reflexivity.
  - reflexivity.
  - reflexivity.
  - reflexivity.
  - reflexivity.
  - reflexivity.
  - exists w1. split_and!; assumption.
Defined.


Lemma Init_merges_fallback_cloud_witness :
  exists cfg w',
    Init sample_deps sample_builtins
      (sample_env StatNotExist None (inr (initialConfig, Some localClient)))
      emptyWorld = Ok (inr cfg) w' /\
    cloud_input w' = fallbackDoc sample_builtins /\
    globals_InstanceId w' = "0a1b2c3d4e5f".
Proof.
  destruct (Init_merges_fallback_cloud sample_deps sample_builtins
              (sample_env StatNotExist None
                 (inr (initialConfig, Some localClient)))
              emptyWorld initialConfig localClient)
    as (cfg & w' & HInit & Hcloud & _ & _ & Hid & _).
  - right. reflexivity.
  - reflexivity.
  - reflexivity.
  - exists cfg, w'. split_and!; assumption.
Defined.

Lemma Init_error_meaning_witness :
  cloud_input
    (state_after
       (Init sample_deps sample_builtins
          (sample_env StatNotExist (Some "permission denied")
             (inr (initialConfig, Some localClient)))) emptyWorld)
  = fallbackDoc sample_builtins /\
  localCfg
    (state_after
       (Init sample_deps sample_builtins
          (sample_env StatNotExist (Some "permission denied")
             (inr (initialConfig, Some localClient)))) emptyWorld)
  = zeroConfig.
Proof.
  destruct (Init_error_meaning sample_deps sample_builtins
              (sample_env StatNotExist (Some "permission denied")
                 (inr (initialConfig, Some localClient)))
              emptyWorld
              (state_after
                 (Init sample_deps sample_builtins
                    (sample_env StatNotExist (Some "permission denied")
                       (inr (initialConfig, Some localClient)))) emptyWorld)
              (ErrConfigDir "/home/user/.Lantern" "permission denied")
              eq_refl)
    as (Hcloud & _ & _ & _ & _ & Hlocal & _).
  split; [exact Hcloud|exact Hlocal].
Defined.

Lemma Init_panics_without_Client_witness :
  Init sample_deps sample_builtins
    (sample_env StatOk None (inr (serverConfig, None))) emptyWorld
  = Panic.
Proof.
  apply (proj2 (Init_panics_without_Client sample_deps sample_builtins
                  (sample_env StatOk None (inr (serverConfig, None)))
                  emptyWorld)).
  split.
  - left. discriminate.
  - exists serverConfig. reflexivity.
Defined.
